(** * Reploom: draft pipeline, review store and knowledge-base engine

    A shallow embedding of the parts of the Reploom backend that carry
    algorithmic or state-machine logic:
    - [app/agents/reploom_crew.py]: [classifier_node], [policy_guard_node],
      [should_halt];
    - [app/api/routes/reploom.py]: [approve_review], [reject_review],
      [request_edit];
    - [app/kb/chunker.py]: [compute_content_hash], [chunk_text],
      [_chunk_by_chars], [deduplicate_chunks];
    - [app/kb/client.py]: [ensure_collection_exists];
    - [app/kb/embeddings.py]: [generate_embeddings],
      [generate_single_embedding];
    - [app/kb/retrieval.py]: [upsert_document], [search_kb];
    - around them: [redact_pii], [context_builder_node], [drafter_node]
      ([app/agents/reploom_crew.py]), [get_workspace_settings]
      ([app/core/workspace.py]), [redact_user_info], [create_review],
      [get_review], [list_reviews] ([app/api/routes/reploom.py]),
      [upload_kb_document] and [search_kb_endpoint]
      ([app/api/routes/kb.py]).

    Python [str] values are modelled as [string] over ASCII characters;
    [str.lower] and [str.strip] are modelled on that alphabet.  Third-party
    services (tiktoken, SHA-256, uuid5, the OpenAI embedding endpoint,
    [json.loads], the Qdrant search engine, the clock) are section
    variables or arguments.  tiktoken's [encode] may raise, and the
    embedding endpoint may fail on any request, depending on everything
    asked before; the Qdrant server is modelled as reachable, so a Qdrant
    call fails only when it names a missing collection. *)

From Stdlib Require Import String Ascii ZArith QArith Lia Sorted.
From stdpp Require Import base list gmap strings.

Open Scope string_scope.
#[local] Set Warnings "-register-all".

(* ================================================================= *)
(** ** Python string helpers *)

Module Py.

(** [str.isspace] on one ASCII character: \t \n \x0b \x0c \r,
    \x1c-\x1f and the space. *)
Definition isspace (c : ascii) : bool :=
  let n := nat_of_ascii c in
  (((9 <=? n) && (n <=? 13)) || ((28 <=? n) && (n <=? 32)))%nat.

Fixpoint drop_space (l : list ascii) : list ascii :=
  match l with
  | [] => []
  | c :: l' => if isspace c then drop_space l' else l
  end.

(** [s.strip()] *)
Definition strip (s : string) : string :=
  string_of_list_ascii
    (rev (drop_space (rev (drop_space (list_ascii_of_string s))))).

(** [str.lower] on one ASCII character. *)
Definition lower_char (c : ascii) : ascii :=
  let n := nat_of_ascii c in
  if ((65 <=? n) && (n <=? 90))%nat then ascii_of_nat (n + 32)%nat else c.

(** [s.lower()] *)
Fixpoint lower (s : string) : string :=
  match s with
  | EmptyString => EmptyString
  | String c s' => String (lower_char c) (lower s')
  end.

(** [needle in hay] for strings. *)
Fixpoint contains (needle hay : string) : bool :=
  String.prefix needle hay ||
  match hay with
  | EmptyString => false
  | String _ hay' => contains needle hay'
  end.

(** Truthiness of a [str]: non-empty. *)
Definition truthy (s : string) : bool :=
  match s with EmptyString => false | _ => true end.

(** Python slicing [xs[a:b]] (step 1), with negative indices counted
    from the end and both bounds clamped to [0, len(xs)]. *)
Definition norm_index (len i : Z) : Z :=
  let j := if (i <? 0)%Z then (i + len)%Z else i in
  Z.max 0 (Z.min j len).

Definition slice {A} (xs : list A) (a b : Z) : list A :=
  let len := Z.of_nat (length xs) in
  let a' := norm_index len a in
  let b' := norm_index len b in
  take (Z.to_nat (b' - a')) (drop (Z.to_nat a') xs).

(** The exceptions the knowledge-base code lets through to its callers:
    tiktoken's [ValueError] on a disallowed special token, the OpenAI
    client's [APIError], which [generate_embeddings] re-raises, and the
    Qdrant client's [UnexpectedResponse] for a missing collection. *)
Inductive exn := ValueError | APIError | UnexpectedResponse.

(** How a call ends: it returns a value, it raises, or its loop is still
    running when the fuel it was given runs out. *)
Inductive outcome (A : Type) := Returns (a : A) | Raises (e : exn) | Loops.
Arguments Returns {A} a.
Arguments Raises {A} e.
Arguments Loops {A}.

(** A loop run with fuel: [None] when the fuel ran out. *)
Definition of_fuel {A} (r : option A) : outcome A :=
  match r with
  | Some a => Returns a
  | None => Loops
  end.

End Py.

(* ================================================================= *)
(** ** Policy Guard ([policy_guard_node], [should_halt]) *)

Module PolicyGuard.

(** [f"Blocklisted phrase detected: '{phrase.strip()}'"] *)
Definition violation_msg (phrase : string) : string :=
  "Blocklisted phrase detected: '" ++ Py.strip phrase ++ "'".

(** The loop body's test: [phrase_clean and phrase_clean in draft_lower]
    with [phrase_clean = phrase.strip().lower()]. *)
Definition phrase_hits (draft_lower phrase : string) : bool :=
  let phrase_clean := Py.lower (Py.strip phrase) in
  Py.truthy phrase_clean && Py.contains phrase_clean draft_lower.

(** [for phrase in blocklist: ... violations.append(...)], the list
    [violations] threaded as an accumulator. *)
Fixpoint check_blocklist (draft_lower : string) (blocklist : list string)
    (violations : list string) : list string :=
  match blocklist with
  | [] => violations
  | phrase :: rest =>
      let violations' :=
        if phrase_hits draft_lower phrase
        then (violations ++ [violation_msg phrase])%list else violations in
      check_blocklist draft_lower rest violations'
  end.

(** [policy_guard_node]: the [violations] it stores in the state, for the
    drafter's [draft_html] and the workspace [blocklist]. *)
Definition policy_guard_node (draft : string) (blocklist : list string)
    : list string :=
  check_blocklist (Py.lower draft) blocklist [].

(** [should_halt]: ["halt"] when [state.get("violations")] is truthy. *)
Definition should_halt (violations : list string) : string :=
  match violations with
  | [] => "continue"
  | _ :: _ => "halt"
  end.

End PolicyGuard.

(* ================================================================= *)
(** ** Review store ([approve_review], [reject_review], [request_edit]) *)

Module Review.

(** The [DraftReview] columns the three routes read or write
    ([app/models/draft_reviews.py]); timestamps are abstract instants. *)
Record DraftReview := mkReview {
  user_id : string;
  thread_id : string;
  draft_html : string;
  draft_version : Z;
  violations : list string;
  status : string;
  feedback : option string;
  edit_notes : option string;
  updated_at : Z;
  reviewed_at : option Z;
}.

(** The database session: reviews by their canonical UUID. *)
Abbreviation session := (gmap string DraftReview).

(** [HTTPException] status codes. *)
Definition HTTP_400 : Z := 400.
Definition HTTP_403 : Z := 403.
Definition HTTP_404 : Z := 404.

Section Routes.

(** [uuid.UUID(review_id)]: the canonical form, or [None] for
    [ValueError]. *)
Variable parse_uuid : string -> option string.

(** The prologue shared by the three routes: parse the id, [session.get],
    then the ownership check. *)
Definition load_review (db : session) (review_id user_id' : string)
    : Z + (string * DraftReview) :=
  match parse_uuid review_id with
  | None => inl HTTP_400
  | Some u =>
      match db !! u with
      | None => inl HTTP_404
      | Some r =>
          if String.eqb (user_id r) user_id' then inr (u, r) else inl HTTP_403
      end
  end.

(** Shared body of [approve_review] and [reject_review]: set [status],
    [feedback], [reviewed_at] and [updated_at] (two [utcnow()] calls,
    [t_reviewed] and [t_updated]), then commit. *)
Definition review_action (new_status : string) (db : session)
    (review_id user_id' : string) (fb : option string)
    (t_reviewed t_updated : Z) : Z + (session * DraftReview) :=
  match load_review db review_id user_id' with
  | inl code => inl code
  | inr (u, r) =>
      let r' := mkReview (user_id r) (thread_id r) (draft_html r)
                  (draft_version r) (violations r) new_status fb
                  (edit_notes r) t_updated (Some t_reviewed) in
      inr (<[u := r']> db, r')
  end.

Definition approve_review := review_action "approved".
Definition reject_review := review_action "rejected".

(** [request_edit]: replace [draft_html] and [edit_notes], set status
    ["editing"], [draft_version += 1], [updated_at], and store the empty
    [violations] list of the policy re-check stub. *)
Definition request_edit (db : session) (review_id user_id' : string)
    (new_html : string) (notes : option string) (t_updated : Z)
    : Z + (session * DraftReview) :=
  match load_review db review_id user_id' with
  | inl code => inl code
  | inr (u, r) =>
      let r' := mkReview (user_id r) (thread_id r) new_html
                  (draft_version r + 1) [] "editing" (feedback r)
                  notes t_updated (reviewed_at r) in
      inr (<[u := r']> db, r')
  end.

End Routes.

End Review.

(* ================================================================= *)
(** ** Classifier ([classifier_node]) *)

Module Classifier.

(** The values [json.loads] produces. *)
Inductive json :=
| JNull
| JBool (b : bool)
| JInt (z : Z)    (* an integer literal: a Python [int] *)
| JNum (q : Q)    (* any other number literal: a Python [float] *)
| JStr (s : string)
| JArr (l : list json)
| JObj (kvs : list (string * json)).

(** Exceptions raised by the f-string [{confidence:.2f}]. *)
Inductive py_error := ValueError | TypeError | OverflowError.

(** The closed category set of the [intent] field of [DraftCrewState]. *)
Definition categories : list string := ["support"; "cs"; "exec"; "other"].

Definition in_categories (j : json) : bool :=
  match j with
  | JStr s => existsb (String.eqb s) categories
  | _ => false
  end.

(** [dict.get(key, default)]; with a repeated key the last one wins, as in
    the dict [json.loads] builds. *)
Definition dict_get (kvs : list (string * json)) (key : string) (d : json)
    : json :=
  match List.find (fun kv => String.eqb kv.1 key) (rev kvs) with
  | Some kv => kv.2
  | None => d
  end.

(** [float(z)] for an [int]: rounded to the nearest double (ties to
    even), it raises [OverflowError] once the rounded magnitude reaches
    [2^1024], i.e. from [2^1024 - 2^970] on. *)
Definition int_to_float_overflows (z : Z) : bool :=
  (2 ^ 1024 - 2 ^ 970 <=? Z.abs z)%Z.

(** [format(x, ".2f")]: a float or a bool (an [int] of value 0 or 1)
    formats; an [int] is converted to [float] first, which may overflow;
    [str] raises [ValueError]; the other values raise [TypeError]. *)
Definition format_2f (j : json) : py_error + unit :=
  match j with
  | JNum _ | JBool _ => inr tt
  | JInt z => if int_to_float_overflows z then inl OverflowError else inr tt
  | JStr _ => inl ValueError
  | _ => inl TypeError
  end.

Definition half : Q := 1 # 2.

Section Classify.

(** [json.loads]: [None] when it raises. *)
Variable json_loads : string -> option json.

(** [classifier_node] after [llm.invoke] returned [content]: the
    [try]/[except] parse, then the log line formatting [confidence]
    outside the [try]; the result is the pair [(intent, confidence)]
    written into the state, or the exception. *)
Definition classifier_node (content : string) : py_error + (json * json) :=
  let '(intent, confidence) :=
    match json_loads content with
    | Some (JObj kvs) =>
        (dict_get kvs "intent" (JStr "other"),
         dict_get kvs "confidence" (JNum half))
    | _ => (JStr "other", JNum half)
    end in
  match format_2f confidence with
  | inl e => inl e
  | inr _ => inr (intent, confidence)
  end.

End Classify.

End Classifier.

(* ================================================================= *)
(** ** Chunker ([app/kb/chunker.py]) *)

Module Chunker.

(** [class Chunk(NamedTuple)] *)
Record Chunk := mkChunk {
  content : string;
  content_hash : string;
  start_idx : Z;
  end_idx : Z;
}.

(** A tiktoken encoding: its token type, [encode] and [decode].  [encode]
    gives [None] when it raises [ValueError], which it does on a text
    holding a special token such as [<|endoftext|>]. *)
Record Encoding := mkEncoding {
  token : Type;
  encode : string -> option (list token);
  decode : list token -> string;
}.

Section Chunking.

(** [hashlib.sha256(text.encode('utf-8')).hexdigest()] *)
Variable sha256_hex : string -> string.

Definition compute_content_hash (text : string) : string := sha256_hex text.

(** The sliding-window loop shared by [chunk_text] (over tokens) and
    [_chunk_by_chars] (over characters), one iteration per unit of
    [fuel]; [None] when the fuel runs out, i.e. the Python loop would
    still be running.  [acc] is the list [chunks]. *)
Fixpoint window_loop {T} (dec : list T -> string) (fuel : nat)
    (tokens : list T) (chunk_size chunk_overlap start : Z)
    (acc : list Chunk) : option (list Chunk) :=
  match fuel with
  | O => None
  | S fuel' =>
      let len := Z.of_nat (length tokens) in
      if (start <? len)%Z then
        let end_ := Z.min (start + chunk_size) len in
        let piece := dec (Py.slice tokens start end_) in
        let acc' :=
          if Py.truthy (Py.strip piece)
          then (acc ++ [mkChunk piece (compute_content_hash piece) start end_])%list
          else acc in
        let start' := (start + (chunk_size - chunk_overlap))%Z in
        if (end_ =? len)%Z then Some acc'
        else window_loop dec fuel' tokens chunk_size chunk_overlap start' acc'
      else Some acc
  end.

(** [_chunk_by_chars]: [text[start:end]] over the characters. *)
Definition chunk_by_chars (fuel : nat) (text : string)
    (chunk_size chunk_overlap : Z) : option (list Chunk) :=
  window_loop string_of_list_ascii fuel (list_ascii_of_string text)
    chunk_size chunk_overlap 0 [].

(** [chunk_text]: [enc] is [tiktoken.get_encoding(encoding_name)], [None]
    when it raises, in which case the character fallback runs with both
    sizes times four.  [encoding.encode(text)] is outside any [try]. *)
Definition chunk_text (enc : option Encoding) (fuel : nat) (text : string)
    (chunk_size chunk_overlap : Z) : Py.outcome (list Chunk) :=
  match enc with
  | None =>
      Py.of_fuel (chunk_by_chars fuel text (chunk_size * 4) (chunk_overlap * 4))
  | Some e =>
      match encode e text with
      | None => Py.Raises Py.ValueError
      | Some tokens =>
          Py.of_fuel
            (window_loop (decode e) fuel tokens chunk_size chunk_overlap 0 [])
      end
  end.

(** Tokens (or characters) the loop runs over; none when [encode]
    raises. *)
Definition n_units (enc : option Encoding) (text : string) : nat :=
  match enc with
  | None => length (list_ascii_of_string text)
  | Some e =>
      match encode e text with
      | Some tokens => length tokens
      | None => 0
      end
  end.

End Chunking.

(** What the chunker relies on from tiktoken: the empty text encodes to no
    tokens, and decoding the tokens of an encoded text gives it back.  The
    character fallback needs nothing. *)
Definition encoding_ok (enc : option Encoding) : Prop :=
  match enc with
  | None => True
  | Some e =>
      encode e "" = Some [] /\
      forall t tokens, encode e t = Some tokens -> decode e tokens = t
  end.

(** [deduplicate_chunks]: [seen_hashes] as a [gset], [unique_chunks] built
    in order. *)
Fixpoint dedup_go (seen_hashes : gset string) (chunks : list Chunk)
    : list Chunk :=
  match chunks with
  | [] => []
  | c :: rest =>
      if decide (content_hash c ∈ seen_hashes) then dedup_go seen_hashes rest
      else c :: dedup_go ({[content_hash c]} ∪ seen_hashes) rest
  end.

Definition deduplicate_chunks (chunks : list Chunk) : list Chunk :=
  dedup_go ∅ chunks.

End Chunker.

(* ================================================================= *)
(** ** KB engine ([app/kb/client.py], [embeddings.py], [retrieval.py]) *)

Module KB.
Import Chunker.

Abbreviation vector := (list Q).

(** The payload dict [upsert_document] writes for every point. *)
Module Payload.
Record t := mk {
  workspace_id : string;
  source : string;
  title : option string;
  url : option string;
  tags : list string;
  content : string;
  content_hash : string;
  created_at : string;
}.
End Payload.

(** [PointStruct] *)
Record Point := mkPoint {
  point_id : string;
  point_vector : vector;
  point_payload : Payload.t;
}.

(** [FieldCondition(key=..., match=MatchValue(value=...))] *)
Record FieldCondition := mkFieldCondition { fc_key : string; fc_value : string }.

(** The arguments of [client.search]. *)
Record SearchRequest := mkSearchRequest {
  query_vector : vector;
  query_filter : list FieldCondition;  (* [Filter(must=[...])] *)
  limit : Z;
  with_vectors : bool;
}.

(** A scored point returned by [client.search]. *)
Record Hit := mkHit { hit_id : string; hit_score : Q; hit_payload : Payload.t }.

(** [KBSearchResult] *)
Module KBSearchResult.
Record t := mk {
  chunk_id : string;
  content : string;
  score : Q;
  workspace_id : string;
  source : string;
  title : option string;
  url : option string;
  tags : list string;
}.
End KBSearchResult.

(** Calls to the external services, in the order they are made. *)
Inductive call :=
| GetCollections                                   (* Qdrant *)
| CreateCollection (name : string) (size : Z)       (* Qdrant *)
| UpsertPoints (name : string) (ids : list string)  (* Qdrant *)
| SearchPoints (name : string) (req : SearchRequest) (* Qdrant *)
| EmbeddingsCreate (batch : list string).           (* OpenAI *)

(** The Qdrant collections (points by id) and the log of external calls. *)
Record World := mkWorld {
  collections : gmap string (gmap string Point);
  calls : list call;
}.

Definition log (w : World) (c : call) : World :=
  mkWorld (collections w) (calls w ++ [c])%list.

(** [settings.QDRANT_COLLECTION_NAME] *)
Definition QDRANT_COLLECTION_NAME : string := "reploom_documents".

(** [collection_name or settings.QDRANT_COLLECTION_NAME] *)
Definition collection_or_default (collection_name : option string) : string :=
  match collection_name with
  | Some n => if Py.truthy n then n else QDRANT_COLLECTION_NAME
  | None => QDRANT_COLLECTION_NAME
  end.

(** [ensure_collection_exists(collection_name)] with [vector_size=1536]. *)
Definition ensure_collection_exists (w : World) (name : string) : World :=
  let w1 := log w GetCollections in
  match collections w1 !! name with
  | Some _ => w1
  | None =>
      log (mkWorld (<[name := ∅]> (collections w1)) (calls w1))
        (CreateCollection name 1536)
  end.

(** [range(0, len(texts), batch_size)] slices [texts[i:i + batch_size]],
    for a positive [batch_size]. *)
Fixpoint batches_go (fuel batch_size : nat) (texts : list string)
    : list (list string) :=
  match fuel, texts with
  | O, _ | _, [] => []
  | S fuel', _ :: _ =>
      take batch_size texts :: batches_go fuel' batch_size (drop batch_size texts)
  end.

Definition batches (batch_size : nat) (texts : list string) : list (list string) :=
  batches_go (length texts) batch_size texts.

(** [upsert] of a point list into one collection: later points overwrite
    earlier ones with the same id. *)
Definition upsert_points (pts : gmap string Point) (points : list Point)
    : gmap string Point :=
  foldl (fun m p => <[point_id p := p]> m) pts points.

(** Statistics dict returned by [upsert_document]. *)
Record UploadStats := mkStats {
  chunks_total : Z;
  chunks_uploaded : Z;
  duplicates_skipped : Z;
}.

(** Qdrant's matching of one [FieldCondition] on the keyword fields of a
    payload. *)
Definition payload_keyword (p : Payload.t) (key : string) : option string :=
  if String.eqb key "workspace_id" then Some (Payload.workspace_id p)
  else if String.eqb key "source" then Some (Payload.source p)
  else if String.eqb key "content" then Some (Payload.content p)
  else if String.eqb key "content_hash" then Some (Payload.content_hash p)
  else if String.eqb key "created_at" then Some (Payload.created_at p)
  else None.

Definition condition_holds (p : Payload.t) (fc : FieldCondition) : bool :=
  match payload_keyword p (fc_key fc) with
  | Some v => String.eqb v (fc_value fc)
  | None => false
  end.

Section Engine.

Variable sha256_hex : string -> string.
(** [tiktoken.get_encoding("cl100k_base")], [None] when it raises. *)
Variable tiktoken : option Encoding.
(** [str(uuid.uuid5(uuid.NAMESPACE_DNS, name))] *)
Variable uuid5_dns : string -> string.
(** One [client.embeddings.create(input=batch)] call, given the calls made
    before it: its vectors, or [None] when it raises. *)
Variable embed_batch : list call -> list string -> option (list vector).
(** Qdrant's [search] over the points of one collection. *)
Variable qdrant_search : gmap string Point -> SearchRequest -> list Hit.

(** The loop of [generate_embeddings] over the batches: each batch is
    requested, its vectors appended; the first failing request ends the
    loop, its exception re-raised ([None]). *)
Fixpoint embed_batches (w : World) (bs : list (list string))
    : World * option (list vector) :=
  match bs with
  | [] => (w, Some [])
  | b :: bs' =>
      let w1 := log w (EmbeddingsCreate b) in
      match embed_batch (calls w) b with
      | None => (w1, None)
      | Some es =>
          let '(w2, r) := embed_batches w1 bs' in
          (w2, option_map (fun rest => (es ++ rest)%list) r)
      end
  end.

(** [generate_embeddings(texts, batch_size)]; [None] when it raises. *)
Definition generate_embeddings (w : World) (texts : list string)
    (batch_size : nat) : World * option (list vector) :=
  match texts with
  | [] => (w, Some [])
  | _ :: _ => embed_batches w (batches batch_size texts)
  end.

(** [generate_single_embedding(text)]; [None] when it raises. *)
Definition generate_single_embedding (w : World) (text : string)
    : World * option vector :=
  let '(w', r) := generate_embeddings w [text] 100 in
  (w', option_map (fun es => hd [] es) r).

(** The stable id of a chunk's point. *)
Definition chunk_point_id (c : Chunk) : string := uuid5_dns (content_hash c).

Definition make_point (workspace_id source : string) (title url : option string)
    (tags : list string) (created_at : string) (c : Chunk) (e : vector) : Point :=
  mkPoint (chunk_point_id c) e
    (Payload.mk workspace_id source title url tags (content c)
       (content_hash c) created_at).

(** The [for chunk, embedding in zip(chunks, embeddings)] loop: the point
    of the [i]-th turn gets [now i], the value of
    [datetime.utcnow().isoformat()] read in that turn. *)
Fixpoint make_points (workspace_id source : string) (title url : option string)
    (tags : list string) (now : nat -> string) (i : nat) (cs : list Chunk)
    (es : list vector) : list Point :=
  match cs, es with
  | c :: cs', e :: es' =>
      make_point workspace_id source title url tags (now i) c e
        :: make_points workspace_id source title url tags now (S i) cs' es'
  | _, _ => []
  end.

(** [upsert_document]; [now i] is the clock read in the [i]-th turn of the
    point loop.  The chunking loop gets one iteration per token plus one;
    the outcome says whether the call returns its statistics, raises, or
    does not return. *)
Definition upsert_document (w : World) (file_content workspace_id : string)
    (source : string) (title url : option string)
    (tags : option (list string)) (collection_name : option string)
    (now : nat -> string) : World * Py.outcome UploadStats :=
  let coll := collection_or_default collection_name in
  let tags' := match tags with Some t => t | None => [] end in
  let w1 := ensure_collection_exists w coll in
  match chunk_text sha256_hex tiktoken (S (n_units tiktoken file_content))
          file_content 800 200 with
  | Py.Raises e => (w1, Py.Raises e)
  | Py.Loops => (w1, Py.Loops)
  | Py.Returns chunks =>
      let original_count := Z.of_nat (length chunks) in
      let chunks' := deduplicate_chunks chunks in
      let dedup_count := Z.of_nat (length chunks') in
      match chunks' with
      | [] => (w1, Py.Returns (mkStats 0 0 0))
      | _ :: _ =>
          match generate_embeddings w1 (map content chunks') 100 with
          | (w2, None) => (w2, Py.Raises Py.APIError)
          | (w2, Some embeddings) =>
              let points := make_points workspace_id source title url tags' now 0
                              chunks' embeddings in
              let coll_pts := default ∅ (collections w2 !! coll) in
              let w3 := log (mkWorld (<[coll := upsert_points coll_pts points]>
                                        (collections w2)) (calls w2))
                            (UpsertPoints coll (map point_id points)) in
              (w3, Py.Returns (mkStats original_count dedup_count
                                 (original_count - dedup_count)))
          end
      end
  end.

(** The request [search_kb] sends: the exact-match [workspace_id] filter
    and [limit=k]. *)
Definition search_request (qv : vector) (workspace_id : string) (k : Z)
    (with_vectors : bool) : SearchRequest :=
  mkSearchRequest qv [mkFieldCondition "workspace_id" workspace_id] k with_vectors.

Definition to_result (h : Hit) : KBSearchResult.t :=
  let p := hit_payload h in
  KBSearchResult.mk (hit_id h) (Payload.content p) (hit_score h)
    (Payload.workspace_id p) (Payload.source p) (Payload.title p)
    (Payload.url p) (Payload.tags p).

(** [search_kb]: the results, or the exception it raises: the one of the
    query embedding, or Qdrant's for a missing collection. *)
Definition search_kb (w : World) (query workspace_id : string) (k : Z)
    (with_vectors : bool) (collection_name : option string)
    : World * (Py.exn + list KBSearchResult.t) :=
  let coll := collection_or_default collection_name in
  match generate_single_embedding w query with
  | (w1, None) => (w1, inl Py.APIError)
  | (w1, Some qv) =>
      let req := search_request qv workspace_id k with_vectors in
      let w2 := log w1 (SearchPoints coll req) in
      match collections w1 !! coll with
      | None => (w2, inl Py.UnexpectedResponse)
      | Some pts => (w2, inr (map to_result (qdrant_search pts req)))
      end
  end.

End Engine.

(** What the code relies on from the OpenAI endpoint: a request that
    succeeds returns one vector per text. *)
Definition embeddings_contract
    (embed_batch : list call -> list string -> option (list vector)) : Prop :=
  forall h b es, embed_batch h b = Some es -> length es = length b.

(** What [search_kb] relies on from Qdrant's [search]: at most [limit]
    hits, each one a stored point (same id and payload) satisfying every
    condition of the [must] filter. *)
Definition qdrant_contract
    (qdrant_search : gmap string Point -> SearchRequest -> list Hit) : Prop :=
  forall pts req,
    (length (qdrant_search pts req) <= Z.to_nat (limit req))%nat /\
    forall h, h ∈ qdrant_search pts req ->
      exists p, pts !! hit_id h = Some p /\ hit_payload h = point_payload p /\
        Forall (fun fc => condition_holds (point_payload p) fc = true)
          (query_filter req).

End KB.

(* ================================================================= *)
(** ** More Python string methods *)

Module PyStr.

(** Whether [p] is a prefix of [l]. *)
Fixpoint list_prefix (p l : list ascii) : bool :=
  match p, l with
  | [], _ => true
  | _ :: _, [] => false
  | a :: p', b :: l' => Ascii.eqb a b && list_prefix p' l'
  end.

(** The scan of [s.replace(old, new)] for a non-empty [old]: left to right,
    each occurrence found is replaced and skipped.  [fuel] is [len(s)],
    one step per character at least. *)
Fixpoint replace_go (fuel : nat) (old new s : list ascii) : list ascii :=
  match fuel with
  | O => s
  | S f =>
      match s with
      | [] => []
      | c :: s' =>
          if list_prefix old s
          then (new ++ replace_go f old new (drop (length old) s))%list
          else c :: replace_go f old new s'
      end
  end.

(** [s.replace(old, new)]; an empty [old] inserts [new] around every
    character. *)
Definition replace (s old new : string) : string :=
  let l := list_ascii_of_string s in
  let o := list_ascii_of_string old in
  let n := list_ascii_of_string new in
  string_of_list_ascii
    (match o with
     | [] => (n ++ flat_map (fun c => c :: n) l)%list
     | _ :: _ => replace_go (length l) o n l
     end).

(** [s.split(sep)] for a one-character [sep]: [cur] is the piece being
    read, reversed. *)
Fixpoint split_go (sep : ascii) (l cur : list ascii) : list (list ascii) :=
  match l with
  | [] => [rev cur]
  | c :: l' =>
      if Ascii.eqb c sep then rev cur :: split_go sep l' []
      else split_go sep l' (c :: cur)
  end.

Definition split_char (s : string) (sep : ascii) : list string :=
  map string_of_list_ascii (split_go sep (list_ascii_of_string s) []).

End PyStr.

(* ================================================================= *)
(** ** Other nodes of the crew ([app/agents/reploom_crew.py]) and the
    workspace settings it loads ([app/core/workspace.py]) *)

Module Crew.

(** [redact_pii(text, max_length)] *)
Definition redact_pii (text : string) (max_length : Z) : string :=
  let cs := list_ascii_of_string text in
  if (max_length <? Z.of_nat (length cs))%Z
  then string_of_list_ascii (Py.slice cs 0 max_length) ++ "...[REDACTED]"
  else text.

Section Context.

Variable embed_batch : list KB.call -> list string -> option (list KB.vector).
Variable qdrant_search : gmap string KB.Point -> KB.SearchRequest -> list KB.Hit.

(** The snippet [context_builder_node] formats for one search result. *)
Definition format_snippet (r : KB.KBSearchResult.t) : string :=
  let snippet := "[" ++ KB.KBSearchResult.source r in
  let snippet :=
    match KB.KBSearchResult.title r with
    | Some t => if Py.truthy t then snippet ++ " - " ++ t else snippet
    | None => snippet
    end in
  snippet ++ "] " ++ KB.KBSearchResult.content r.

(** [context_builder_node]: the [context_snippets] it stores.  When
    [search_kb] raises, the [except Exception] resets the snippets to
    [[]]. *)
Definition context_builder_node (w : KB.World) (message_summary : string)
    (workspace_id : option string) : KB.World * list string :=
  match workspace_id with
  | Some ws =>
      if Py.truthy ws then
        match KB.search_kb embed_batch qdrant_search w message_summary ws 5
                false None with
        | (w', inr search_results) => (w', map format_snippet search_results)
        | (w', inl _) => (w', [])
        end
      else (w, [])
  | None => (w, [])
  end.

End Context.

(** [drafter_node] after [llm.invoke] returned [content]: the
    [draft_html] it stores, with the markdown fence clean-up. *)
Definition drafter_node (content : string) : string :=
  let draft_html := Py.strip content in
  if String.prefix "```html" draft_html
  then Py.strip (PyStr.replace (PyStr.replace draft_html "```html" "") "```" "")
  else draft_html.

(** A [WorkspaceSettings] row ([app/models/workspace_settings.py]). *)
Record WorkspaceSettings := mkWorkspaceSettings {
  ws_workspace_id : string;
  ws_tone_level : Z;
  ws_style_json : Classifier.json;
  ws_blocklist_json : list string;
  ws_approval_threshold : option Q;
}.

(** [WorkspaceConfig] *)
Record WorkspaceConfig := mkWorkspaceConfig {
  workspace_id : string;
  tone_level : Z;
  style_json : Classifier.json;
  blocklist : list string;
  approval_threshold : option Q;
}.

Definition default_settings : WorkspaceSettings :=
  mkWorkspaceSettings "default" 3 (Classifier.JObj [])
    ["free trial"; "money back guarantee"; "limited time offer"]
    (Some (85 # 100)).

Definition test_settings : WorkspaceSettings :=
  mkWorkspaceSettings "ws-test" 2
    (Classifier.JObj [("brand_voice", Classifier.JStr "formal and professional")])
    ["click here"; "act now"; "special offer"] (Some (90 # 100)).

(** [DEFAULT_WORKSPACE_SETTINGS] *)
Definition DEFAULT_WORKSPACE_SETTINGS : list WorkspaceSettings :=
  [default_settings; test_settings].

(** [select(WorkspaceSettings).where(workspace_id == ws)] then [.first()]. *)
Definition find_settings (rows : list WorkspaceSettings) (ws : string)
    : option WorkspaceSettings :=
  List.find (fun r => String.eqb (ws_workspace_id r) ws) rows.

(** [get_workspace_settings]: [db] is the table, [None] when the session
    raises. *)
Definition get_workspace_settings (db : option (list WorkspaceSettings))
    (workspace_id : option string) : WorkspaceConfig :=
  let ws := match workspace_id with
            | Some s => if Py.truthy s then s else "default"
            | None => "default"
            end in
  let from_db :=
    match db with
    | None => None
    | Some rows =>
        match find_settings rows ws with
        | Some r =>
            Some (mkWorkspaceConfig (ws_workspace_id r) (ws_tone_level r)
                    (ws_style_json r) (ws_blocklist_json r)
                    (ws_approval_threshold r))
        | None =>
            if negb (String.eqb ws "default") then
              match find_settings rows "default" with
              | Some r =>
                  Some (mkWorkspaceConfig "default" (ws_tone_level r)
                          (ws_style_json r) (ws_blocklist_json r)
                          (ws_approval_threshold r))
              | None => None
              end
            else None
        end
    end in
  match from_db with
  | Some c => c
  | None =>
      let stub := match find_settings DEFAULT_WORKSPACE_SETTINGS ws with
                  | Some s => s
                  | None => default_settings
                  end in
      mkWorkspaceConfig (ws_workspace_id stub) (ws_tone_level stub)
        (ws_style_json stub) (ws_blocklist_json stub) (ws_approval_threshold stub)
  end.

End Crew.

(* ================================================================= *)
(** ** The other review routes ([app/api/routes/reploom.py]) *)

Module ReviewRoutes.
Import Review.

Definition HTTP_500 : Z := 500.

(** [redact_user_info(user)] over a user dict of strings. *)
Definition redact_user_info (user : gmap string string) : gmap string string :=
  if decide (user = ∅) then ∅
  else {[ "sub" := string_of_list_ascii
                     (Py.slice (list_ascii_of_string (default "" (user !! "sub"))) 0 12)
                   ++ "...";
          "email" := "***@***" ]}.

(** [user.get("sub", "unknown")] *)
Definition user_sub (user : gmap string string) : string :=
  default "unknown" (user !! "sub").

(** [ORDER BY updated_at DESC]: insertion of one row. *)
Fixpoint insert_by_updated (r : DraftReview) (l : list DraftReview)
    : list DraftReview :=
  match l with
  | [] => [r]
  | x :: l' =>
      if (updated_at x <? updated_at r)%Z then r :: l
      else x :: insert_by_updated r l'
  end.

Definition order_by_updated_desc (l : list DraftReview) : list DraftReview :=
  foldr insert_by_updated [] l.

Section Routes.

Variable parse_uuid : string -> option string.

(** [create_review]: [new_id] is [uuid.uuid4()]; a taken id makes the
    commit raise. *)
Definition create_review (db : session) (new_id : string)
    (user : gmap string string) (thread_id draft_html : string)
    (violations : list string) (now : Z) : Z + (session * DraftReview) :=
  let r := mkReview (user_sub user) thread_id draft_html 1 violations
             "pending" None None now None in
  match db !! new_id with
  | Some _ => inl HTTP_500
  | None => inr (<[new_id := r]> db, r)
  end.

(** [get_review] *)
Definition get_review (db : session) (review_id : string)
    (user : gmap string string) : Z + DraftReview :=
  match load_review parse_uuid db review_id (user_sub user) with
  | inl code => inl code
  | inr (_, r) => inr r
  end.

(** The [intent] column of a review, not carried by the record. *)
Variable review_intent : DraftReview -> option string.

(** [list_reviews] *)
Definition list_reviews (db : session) (user : gmap string string)
    (status intent : option string) : list DraftReview :=
  let uid := user_sub user in
  let matches (r : DraftReview) : bool :=
    String.eqb (user_id r) uid &&
    match status with
    | Some s => if Py.truthy s then String.eqb (Review.status r) s else true
    | None => true
    end &&
    match intent with
    | Some i =>
        if Py.truthy i then
          match review_intent r with
          | Some i' => String.eqb i' i
          | None => false
          end
        else true
    | None => true
    end in
  order_by_updated_desc (List.filter matches (map snd (map_to_list db))).

End Routes.

End ReviewRoutes.

(* ================================================================= *)
(** ** KB routes ([app/api/routes/kb.py]) *)

Module KBRoutes.

Definition ALLOWED_FILE_TYPES : list string :=
  ["text/plain"; "application/pdf"; "text/markdown"].
Definition MAX_FILE_SIZE_MB : Z := 10.
Definition MAX_FILE_SIZE : Z := MAX_FILE_SIZE_MB * 1024 * 1024.

Definition HTTP_400 : Z := 400.
Definition HTTP_422 : Z := 422.
Definition HTTP_500 : Z := 500.

(** The tag parsing of [upload_kb_document]:
    [[t.strip() for t in tags.split(",") if t.strip()]]. *)
Definition parse_tags (tags : option string) : list string :=
  match tags with
  | Some t =>
      if Py.truthy t then
        flat_map (fun t => if Py.truthy (Py.strip t) then [Py.strip t] else [])
          (PyStr.split_char t (ascii_of_nat 44))
      else []
  | None => []
  end.

Section Endpoints.

Variable sha256_hex : string -> string.
Variable tiktoken : option Chunker.Encoding.
Variable uuid5_dns : string -> string.
Variable embed_batch : list KB.call -> list string -> option (list KB.vector).
Variable qdrant_search : gmap string KB.Point -> KB.SearchRequest -> list KB.Hit.

(** [upload_kb_document]: [file_type] is [file.content_type], [size] is
    [len(binary_content)], [extracted] the text extraction (PDF pages or
    UTF-8 decoding), [None] when it raises.  The result is the world and
    either the error status or the statistics; [None] when the upload does
    not return.  An exception of [upsert_document] becomes a 500. *)
Definition upload_kb_document (w : KB.World) (file_type : option string)
    (size : Z) (extracted : option string) (filename : option string)
    (workspace_id : string) (title url tags : option string)
    (now : nat -> string) : option (KB.World * (Z + KB.UploadStats)) :=
  let file_name := match filename with
                   | Some n => if Py.truthy n then n else "untitled"
                   | None => "untitled"
                   end in
  let allowed := match file_type with
                 | Some t => existsb (String.eqb t) ALLOWED_FILE_TYPES
                 | None => false
                 end in
  if negb allowed then Some (w, inl HTTP_400)
  else if (MAX_FILE_SIZE <? size)%Z then Some (w, inl HTTP_400)
  else
    match extracted with
    | None => Some (w, inl HTTP_400)
    | Some file_text =>
        if negb (Py.truthy (Py.strip file_text)) then Some (w, inl HTTP_400)
        else
          let tag_list := parse_tags tags in
          let title' := match title with
                        | Some t => if Py.truthy t then t else file_name
                        | None => file_name
                        end in
          match KB.upsert_document sha256_hex tiktoken uuid5_dns embed_batch w
                  file_text workspace_id "upload" (Some title') url
                  (Some tag_list) None now with
          | (w', Py.Returns stats) => Some (w', inr stats)
          | (w', Py.Raises _) => Some (w', inl HTTP_500)
          | (_, Py.Loops) => None
          end
    end.

(** [search_kb_endpoint], with FastAPI's validation of [k] ([ge=1, le=50],
    a 422 otherwise); any exception of [search_kb] becomes a 500. *)
Definition search_kb_endpoint (w : KB.World) (q workspace_id : string) (k : Z)
    (with_vectors : bool) : KB.World * (Z + list KB.KBSearchResult.t) :=
  if ((1 <=? k) && (k <=? 50))%Z then
    match KB.search_kb embed_batch qdrant_search w q workspace_id k with_vectors
            None with
    | (w', inr results) => (w', inr results)
    | (w', inl _) => (w', inl HTTP_500)
    end
  else (w, inl HTTP_422).

End Endpoints.

End KBRoutes.

(* ================================================================= *)
(** ** Sample inputs *)

Module Samples.
Import Classifier.

Definition dq : string := String (ascii_of_nat 34) EmptyString.

(** The model response [{"intent": "billing", "confidence": 0.9}]. *)
Definition billing_response : string :=
  "{" ++ dq ++ "intent" ++ dq ++ ": " ++ dq ++ "billing" ++ dq ++ ", "
  ++ dq ++ "confidence" ++ dq ++ ": 0.9}".

(** The model response [{"intent": "support", "confidence": "high"}]. *)
Definition high_response : string :=
  "{" ++ dq ++ "intent" ++ dq ++ ": " ++ dq ++ "support" ++ dq ++ ", "
  ++ dq ++ "confidence" ++ dq ++ ": " ++ dq ++ "high" ++ dq ++ "}".

Definition billing_obj : json :=
  JObj [("intent", JStr "billing"); ("confidence", JNum (9 # 10))].

Definition high_obj : json :=
  JObj [("intent", JStr "support"); ("confidence", JStr "high")].

(** [json.loads] on the three sample responses. *)
Definition sample_loads (s : string) : option json :=
  if String.eqb s billing_response then Some billing_obj
  else if String.eqb s high_response then Some high_obj
  else None.

(** A review owned by ["alice"]. *)
Definition review_with_status (st : string) : Review.DraftReview :=
  Review.mkReview "alice" "thread-1" "<p>Hi</p>" 1 [] st None None 0 None.

(** The special token tiktoken refuses in a text by default. *)
Definition endoftext : string := "<|endoftext|>".

(** A character-level encoding: one token per character; like tiktoken,
    it raises on a text holding [<|endoftext|>]. *)
Definition char_encoding : Chunker.Encoding :=
  Chunker.mkEncoding ascii
    (fun t => if Py.contains endoftext t then None
              else Some (list_ascii_of_string t))
    string_of_list_ascii.

(** A filtering search engine: the stored points passing the filter,
    score 0, the first [limit] of them. *)
Definition filter_search (pts : gmap string KB.Point) (req : KB.SearchRequest)
    : list KB.Hit :=
  take (Z.to_nat (KB.limit req))
    (map (fun ip => KB.mkHit ip.1 0 (KB.point_payload ip.2))
       (List.filter (fun ip => forallb (KB.condition_holds (KB.point_payload ip.2))
                                  (KB.query_filter req))
          (map_to_list pts))).

(** An endpoint that always answers, one vector per text. *)
Definition unit_embed (history : list KB.call) (batch : list string)
    : option (list KB.vector) :=
  Some (map (fun _ => [1%Q]) batch).

(** An endpoint that fails from the second request on. *)
Definition flaky_embed (history : list KB.call) (batch : list string)
    : option (list KB.vector) :=
  if existsb (fun c => match c with KB.EmbeddingsCreate _ => true | _ => false end)
       history
  then None else Some (map (fun _ => [1%Q]) batch).

(** A clock whose [i]-th reading is the digit [i] (for [i < 10]). *)
Definition clock (i : nat) : string := String (ascii_of_nat (48 + i)) EmptyString.

Definition empty_world : KB.World := KB.mkWorld ∅ [].

(** A collection holding one point of workspace ["ws-a"] and one of
    ["ws-b"]. *)
Definition payload_of (ws : string) : KB.Payload.t :=
  KB.Payload.mk ws "upload" None None [] ("doc of " ++ ws) ws "t0".

Definition mixed_world : KB.World :=
  KB.mkWorld {[ KB.QDRANT_COLLECTION_NAME :=
                  {[ "p-a" := KB.mkPoint "p-a" [1%Q] (payload_of "ws-a");
                     "p-b" := KB.mkPoint "p-b" [1%Q] (payload_of "ws-b") ]} ]} [].

End Samples.

(* ================================================================= *)
(** ** Proofs *)

Module PolicyGuardFacts.
Import PolicyGuard.

Lemma check_blocklist_acc (dl : string) (bl acc : list string) :
  check_blocklist dl bl acc =
  (acc ++ map violation_msg (List.filter (phrase_hits dl) bl))%list.
Proof.
  revert acc; induction bl as [|p bl IH]; intros acc; simpl.
  - by rewrite app_nil_r.
  - rewrite IH. destruct (phrase_hits dl p); simpl.
    + by rewrite <- app_assoc.
    + done.
Qed.

Lemma policy_guard_node_eq (draft : string) (bl : list string) :
  policy_guard_node draft bl =
  map violation_msg (List.filter (phrase_hits (Py.lower draft)) bl).
Proof. unfold policy_guard_node. by rewrite check_blocklist_acc. Qed.

Lemma filter_nil_iff {A} (f : A -> bool) (l : list A) :
  List.filter f l = [] <-> (forall x, In x l -> f x = false).
Proof.
  induction l as [|x l IH]; simpl; [split; [intros _ y []|done]|].
  destruct (f x) eqn:Hx; split.
  - done.
  - intros H. by rewrite (H x (or_introl eq_refl)) in Hx.
  - intros H y [<-|Hy]; [done|]. by apply IH.
  - intros H. apply IH. intros y Hy. apply H. by right.
Qed.

(** The counterexample input of C1: a whitespace-only entry. *)
Example guard_space_entry :
  policy_guard_node "a b" [" "] = [].
Proof. reflexivity. Qed.

Example guard_two_phrases :
  policy_guard_node "<p>Our FREE Trial has a Money Back Guarantee.</p>"
    ["free trial"; "money back guarantee"] =
  ["Blocklisted phrase detected: 'free trial'";
   "Blocklisted phrase detected: 'money back guarantee'"].
Proof. reflexivity. Qed.

End PolicyGuardFacts.

Module DedupFacts.
Import Chunker.

Lemma dedup_go_sublist (seen : gset string) (l : list Chunk) :
  dedup_go seen l `sublist_of` l.
Proof.
  revert seen; induction l as [|c l IH]; intros seen; simpl; [constructor|].
  case_decide; [apply sublist_cons|apply sublist_skip]; apply IH.
Qed.

Lemma dedup_go_fresh (seen : gset string) (l : list Chunk) (c : Chunk) :
  c ∈ dedup_go seen l -> content_hash c ∉ seen.
Proof.
  revert seen; induction l as [|c0 l IH]; intros seen; simpl;
    [by rewrite elem_of_nil|].
  case_decide as Hin; [apply IH|].
  rewrite elem_of_cons. intros [->|Hc]; [done|].
  apply IH in Hc. set_solver.
Qed.

Lemma dedup_go_nodup (seen : gset string) (l : list Chunk) :
  NoDup (map content_hash (dedup_go seen l)).
Proof.
  revert seen; induction l as [|c l IH]; intros seen; simpl;
    [constructor|].
  case_decide as Hin; [apply IH|].
  simpl. apply NoDup_cons. split; [|apply IH].
  intros Hm. apply list_elem_of_fmap in Hm as (c' & Heq & Hc').
  apply dedup_go_fresh in Hc'. set_solver.
Qed.

Lemma dedup_go_cover (seen : gset string) (l : list Chunk) (h : string) :
  h ∈ map content_hash l -> h ∉ seen ->
  h ∈ map content_hash (dedup_go seen l).
Proof.
  revert seen; induction l as [|c l IH]; intros seen; simpl;
    [by rewrite elem_of_nil|].
  rewrite elem_of_cons. intros Hh Hs.
  case_decide as Hin.
  - destruct Hh as [->|Hh]; [done|]. by apply IH.
  - simpl. rewrite elem_of_cons.
    destruct (decide (h = content_hash c)) as [->|Hne]; [by left|right].
    destruct Hh as [->|Hh]; [done|]. apply IH; [done|]. set_solver.
Qed.

Lemma dedup_go_first (seen : gset string) (l : list Chunk) (c : Chunk) :
  c ∈ dedup_go seen l <->
  exists l1 l2, (l = (l1 ++ c :: l2)%list) /\ (content_hash c ∉ seen) /\
    (content_hash c ∉ map content_hash l1).
Proof.
  revert seen; induction l as [|c0 l IH]; intros seen; simpl.
  - rewrite elem_of_nil. split; [done|].
    intros (l1 & l2 & Hl & _). by destruct l1.
  - case_decide as Hin.
    + rewrite IH. split.
      * intros (l1 & l2 & -> & Hs & Hm). exists (c0 :: l1), l2.
        split; [done|]. split; [done|]. simpl. rewrite elem_of_cons.
        intros [Heq|Hm']; [rewrite Heq in Hs; done|done].
      * intros ([|c1 l1] & l2 & Hl & Hs & Hm); simpl in Hl.
        -- injection Hl as -> ->. done.
        -- injection Hl as -> ->. exists l1, l2. split; [done|].
           split; [done|]. intros Hm'. apply Hm. simpl.
           by apply elem_of_cons; right.
    + rewrite elem_of_cons, IH. split.
      * intros [->|(l1 & l2 & -> & Hs & Hm)].
        -- exists [], l. split; [done|]. split; [done|]. simpl.
           set_solver.
        -- exists (c0 :: l1), l2. split; [done|]. split; [set_solver|].
           simpl. rewrite elem_of_cons. intros [Heq|Hm']; [|done].
           rewrite Heq in Hs. set_solver.
      * intros ([|c1 l1] & l2 & Hl & Hs & Hm); simpl in Hl.
        -- injection Hl as -> ->. by left.
        -- injection Hl as -> ->. right. exists l1, l2. split; [done|].
           simpl in Hm. rewrite elem_of_cons in Hm. split; [set_solver|].
           intros Hm'. apply Hm. by right.
Qed.

End DedupFacts.

Module ChunkerFacts.
Import Chunker.

(** A window [[start_idx, end_idx)] inside [0, len]. *)
Definition window_ok (len : Z) (c : Chunk) : Prop :=
  (0 <= start_idx c < end_idx c /\ end_idx c <= len)%Z.

Section Loop.
Variable sha256_hex : string -> string.
Context {T : Type}.
Variable dec : list T -> string.
Variable tokens : list T.
Variables chunk_size chunk_overlap : Z.

Lemma window_loop_terminates :
  (chunk_overlap < chunk_size)%Z ->
  forall (n : nat) (start : Z) (acc : list Chunk),
  (Z.to_nat (Z.of_nat (length tokens) - start) <= n)%nat ->
  exists r, window_loop sha256_hex dec (S n) tokens chunk_size chunk_overlap
              start acc = Some r.
Proof.
  intros Hstep n. induction n as [|n IH]; intros start acc Hn;
    cbn [window_loop].
  - destruct (Z.ltb_spec start (Z.of_nat (length tokens))); [lia|eauto].
  - destruct (Z.ltb_spec start (Z.of_nat (length tokens))); [|eauto].
    destruct (Z.eqb _ _); [eauto|]. apply IH. lia.
Qed.

Lemma window_loop_bounds :
  (0 < chunk_size)%Z -> (chunk_overlap < chunk_size)%Z ->
  forall (fuel : nat) (start : Z) (acc r : list Chunk),
  (0 <= start)%Z ->
  Forall (window_ok (Z.of_nat (length tokens))) acc ->
  window_loop sha256_hex dec fuel tokens chunk_size chunk_overlap start acc
    = Some r ->
  Forall (window_ok (Z.of_nat (length tokens))) r.
Proof.
  intros Hsize Hstep fuel. induction fuel as [|fuel IH];
    intros start acc r Hstart Hacc Hrun; cbn [window_loop] in Hrun;
    [discriminate|].
  destruct (Z.ltb_spec start (Z.of_nat (length tokens)));
    [|by injection Hrun as <-].
  assert (Hacc' : Forall (window_ok (Z.of_nat (length tokens)))
     (if Py.truthy (Py.strip (dec (Py.slice tokens start
            (Z.min (start + chunk_size) (Z.of_nat (length tokens))))))
      then (acc ++ [mkChunk (dec (Py.slice tokens start
                (Z.min (start + chunk_size) (Z.of_nat (length tokens)))))
              (compute_content_hash sha256_hex (dec (Py.slice tokens start
                (Z.min (start + chunk_size) (Z.of_nat (length tokens))))))
              start (Z.min (start + chunk_size) (Z.of_nat (length tokens)))])%list
      else acc)).
  { destruct (Py.truthy _); [|done].
    apply Forall_app; split; [done|]. apply Forall_singleton.
    unfold window_ok; simpl; lia. }
  destruct (Z.eqb _ _).
  - injection Hrun as <-. exact Hacc'.
  - eapply IH; [|exact Hacc'|exact Hrun]. lia.
Qed.

End Loop.

Lemma slice_all {A} (xs : list A) :
  Py.slice xs 0 (Z.of_nat (length xs)) = xs.
Proof.
  unfold Py.slice, Py.norm_index.
  destruct (Z.ltb_spec 0 0); [lia|].
  destruct (Z.ltb_spec (Z.of_nat (length xs)) 0); [lia|].
  rewrite take_ge.
  - replace (Z.to_nat (Z.max 0 (Z.min 0 (Z.of_nat (length xs))))) with 0%nat
      by lia. done.
  - rewrite length_drop. lia.
Qed.

(** With [chunk_overlap >= chunk_size] the start never moves forward, so
    the window end never reaches [len(tokens)] once it starts short of
    it. *)
Lemma window_loop_diverges (sha256_hex : string -> string) {T}
    (dec : list T -> string) (tokens : list T) (size overlap : Z) :
  (size <= overlap)%Z ->
  forall fuel start acc,
  (start < Z.of_nat (length tokens))%Z ->
  (start + size < Z.of_nat (length tokens))%Z ->
  window_loop sha256_hex dec fuel tokens size overlap start acc = None.
Proof.
  intros Hs fuel. induction fuel as [|fuel IH]; intros start acc Hlt Hend;
    cbn [window_loop]; [done|].
  destruct (Z.ltb_spec start (Z.of_nat (length tokens))); [|lia].
  destruct (Z.eqb_spec (Z.min (start + size) (Z.of_nat (length tokens)))
              (Z.of_nat (length tokens))); [lia|].
  apply IH; lia.
Qed.

Lemma window_loop_one (sha256_hex : string -> string) {T}
    (dec : list T -> string) (tokens : list T) (size overlap : Z)
    (fuel : nat) :
  (0 < length tokens)%nat -> (Z.of_nat (length tokens) <= size)%Z ->
  window_loop sha256_hex dec (S fuel) tokens size overlap 0 [] =
  Some (if Py.truthy (Py.strip (dec tokens))
        then [mkChunk (dec tokens) (sha256_hex (dec tokens)) 0
                (Z.of_nat (length tokens))]
        else []).
Proof.
  intros Hpos Hle. cbn [window_loop].
  destruct (Z.ltb_spec 0 (Z.of_nat (length tokens))); [|lia].
  replace (Z.min (0 + size) (Z.of_nat (length tokens)))
    with (Z.of_nat (length tokens)) by lia.
  rewrite slice_all, Z.eqb_refl.
  destruct (Py.truthy _); reflexivity.
Qed.

End ChunkerFacts.

Module KBFacts.
Import KB Chunker.

Lemma ensure_collections (w : World) (c : string) :
  collections (ensure_collection_exists w c) =
  match collections w !! c with
  | Some _ => collections w
  | None => <[c := ∅]> (collections w)
  end.
Proof.
  unfold ensure_collection_exists, log. simpl.
  destruct (collections w !! c); reflexivity.
Qed.

Lemma ensure_calls (w : World) (c : string) :
  calls (ensure_collection_exists w c) =
  (calls w ++ GetCollections ::
     match collections w !! c with
     | Some _ => []
     | None => [CreateCollection c 1536]
     end)%list.
Proof.
  unfold ensure_collection_exists, log. simpl.
  destruct (collections w !! c); simpl; [done|].
  by rewrite <- app_assoc.
Qed.

Lemma ensure_present (w : World) (c : string) :
  is_Some (collections (ensure_collection_exists w c) !! c).
Proof.
  rewrite ensure_collections. destruct (collections w !! c) eqn:E.
  - by rewrite E.
  - by rewrite lookup_insert_eq.
Qed.

Lemma ensure_existing (w : World) (c : string) :
  is_Some (collections w !! c) ->
  collections (ensure_collection_exists w c) = collections w.
Proof. intros [P HP]. by rewrite ensure_collections, HP. Qed.

Lemma embed_batches_collections
    (eb : list call -> list string -> option (list vector))
    (bs : list (list string)) :
  forall w, collections (embed_batches eb w bs).1 = collections w.
Proof.
  induction bs as [|b bs IH]; intros w; simpl; [done|].
  destruct (eb (calls w) b); simpl; [|done].
  destruct (embed_batches eb _ bs) as [w2 r] eqn:E. simpl.
  specialize (IH (log w (EmbeddingsCreate b))). rewrite E in IH. exact IH.
Qed.

Lemma generate_embeddings_collections
    (eb : list call -> list string -> option (list vector))
    (w : World) (texts : list string) (n : nat) :
  collections (generate_embeddings eb w texts n).1 = collections w.
Proof.
  unfold generate_embeddings. destruct texts as [|t texts]; [done|].
  apply embed_batches_collections.
Qed.

Lemma dom_upsert_points (P : gmap string Point) (pts : list Point) :
  dom (upsert_points P pts) = dom P ∪ list_to_set (map point_id pts).
Proof.
  unfold upsert_points. revert P.
  induction pts as [|p pts IH]; intros P; simpl; [set_solver|].
  rewrite IH, dom_insert_L. set_solver.
Qed.

(** The ids of the points do not depend on the clock nor on the vectors,
    only on how many vectors there are. *)
Lemma make_points_ids (uuid5_dns : string -> string) (ws src : string)
    (title url : option string) (tags : list string) (now : nat -> string)
    (i : nat) (cs : list Chunk) (es : list vector) :
  map point_id (make_points uuid5_dns ws src title url tags now i cs es) =
  map (chunk_point_id uuid5_dns) (take (length es) cs).
Proof.
  revert i es. induction cs as [|c cs IH]; intros i [|e es]; simpl; try done.
  by rewrite IH.
Qed.

Lemma dedup_nil (cs : list Chunk) : deduplicate_chunks cs = [] -> cs = [].
Proof.
  destruct cs as [|c cs]; [done|]. unfold deduplicate_chunks. simpl.
  case_decide as Hin; [set_solver|done].
Qed.

(** The chunker with the sizes [upsert_document] uses never loops. *)
Lemma chunk_text_800_200 (sha256_hex : string -> string)
    (enc : option Encoding) (text : string) :
  chunk_text sha256_hex enc (S (n_units enc text)) text 800 200 <> Py.Loops.
Proof.
  destruct enc as [e|]; unfold chunk_text, chunk_by_chars, n_units.
  - destruct (encode e text) as [tokens|]; [|discriminate].
    destruct (ChunkerFacts.window_loop_terminates sha256_hex (decode e) tokens
                800 200 ltac:(lia) (length tokens) 0 [] ltac:(lia)) as [r ->].
    discriminate.
  - destruct (ChunkerFacts.window_loop_terminates sha256_hex string_of_list_ascii
                (list_ascii_of_string text) (800 * 4) (200 * 4) ltac:(lia)
                (length (list_ascii_of_string text)) 0 [] ltac:(lia)) as [r ->].
    discriminate.
Qed.

Lemma window_loop_hashes (sha256_hex : string -> string) {T}
    (dec : list T -> string) (tokens : list T) (size overlap : Z) :
  forall fuel start acc r,
  Forall (fun c => content_hash c = sha256_hex (content c)) acc ->
  window_loop sha256_hex dec fuel tokens size overlap start acc = Some r ->
  Forall (fun c => content_hash c = sha256_hex (content c)) r.
Proof.
  intros fuel. induction fuel as [|fuel IH]; intros start acc r Hacc Hrun;
    cbn [window_loop] in Hrun; [discriminate|].
  destruct (start <? _)%Z; [|by injection Hrun as <-].
  match type of Hrun with
  | (if _ then Some ?a else _) = _ =>
      assert (Ha : Forall (fun c => content_hash c = sha256_hex (content c)) a)
  end.
  { destruct (Py.truthy _); [|done].
    apply Forall_app; split; [done|]. by apply Forall_singleton. }
  destruct (Z.eqb _ _); [by injection Hrun as <-|].
  eapply IH; [exact Ha|exact Hrun].
Qed.

Lemma chunk_text_hashes (sha256_hex : string -> string)
    (enc : option Encoding) (fuel : nat) (text : string) (size overlap : Z)
    (chunks : list Chunk) :
  chunk_text sha256_hex enc fuel text size overlap = Py.Returns chunks ->
  Forall (fun c => content_hash c = sha256_hex (content c)) chunks.
Proof.
  destruct enc as [e|]; unfold chunk_text, chunk_by_chars.
  - destruct (encode e text) as [tokens|]; [|discriminate].
    destruct (window_loop _ _ _ _ _ _ _ _) eqn:H; [|discriminate].
    intros [= <-]. eapply window_loop_hashes; [constructor|exact H].
  - destruct (window_loop _ _ _ _ _ _ _ _) eqn:H; [|discriminate].
    intros [= <-]. eapply window_loop_hashes; [constructor|exact H].
Qed.

Lemma filter_search_contract : qdrant_contract Samples.filter_search.
Proof.
  intros pts req. unfold Samples.filter_search. split.
  - rewrite length_take. lia.
  - intros h Hh. apply elem_of_take in Hh as (i & Hi & _).
    apply list_elem_of_lookup_2 in Hi.
    apply list_elem_of_fmap in Hi as ([id p] & -> & Hin).
    apply list_elem_of_In, filter_In in Hin as [Hin Hf].
    apply list_elem_of_In, elem_of_map_to_list in Hin.
    exists p. simpl. split; [done|]. split; [done|].
    apply Forall_forall. intros fc Hfc.
    apply forallb_forall with (x := fc) in Hf; [done|].
    by apply list_elem_of_In.
Qed.

End KBFacts.

Module KBMore.
Import KB Chunker.

Lemma batches_go_spec (n : nat) (fuel : nat) (l : list string) :
  (0 < n)%nat -> (length l <= fuel)%nat ->
  let bs := batches_go fuel n l in
  concat bs = l /\ Forall (fun b => (0 < length b <= n)%nat) bs /\
  (forall i b, bs !! i = Some b -> (S i < length bs)%nat -> length b = n).
Proof.
  intros Hn. revert l. induction fuel as [|fuel IH]; intros l Hl; simpl.
  - destruct l; [|simpl in Hl; lia]. split; [done|]. split; [constructor|].
    intros i b Hb. done.
  - destruct l as [|t l']; simpl.
    + split; [done|]. split; [constructor|]. done.
    + destruct (IH (drop n (t :: l'))) as (Hc & Hf & Hfull).
      { rewrite length_drop. simpl in *. lia. }
      split; [|split].
      * rewrite Hc. apply take_drop.
      * constructor; [|exact Hf]. rewrite length_take. simpl. lia.
      * intros [|i] b Hb Hi; simpl in Hb, Hi.
        -- injection Hb as <-. rewrite length_take.
           destruct (batches_go fuel n (drop n (t :: l'))) as [|b' bs'] eqn:E;
             simpl in Hi; [lia|].
           assert (Hb' : (0 < length b')%nat) by (inversion Hf; lia).
           assert (Hlen : (length b' <= length (drop n (t :: l')))%nat).
           { rewrite <- Hc. simpl. rewrite length_app. lia. }
           rewrite length_drop in Hlen. lia.
        -- apply (Hfull i b Hb). lia.
Qed.

Lemma batches_spec (n : nat) (l : list string) :
  (0 < n)%nat ->
  concat (batches n l) = l /\
  Forall (fun b => (0 < length b <= n)%nat) (batches n l) /\
  (forall i b, batches n l !! i = Some b -> (S i < length (batches n l))%nat ->
     length b = n).
Proof. intros Hn. apply batches_go_spec; [done|lia]. Qed.

(** The loop of [generate_embeddings]: the [i]-th batch is requested after
    the requests of the batches before it; the vectors are those of the
    batches, concatenated, or the loop stops at the first failing
    request. *)
Lemma embed_batches_spec
    (eb : list call -> list string -> option (list vector))
    (bs : list (list string)) :
  forall w w' r, embed_batches eb w bs = (w', r) ->
  collections w' = collections w /\
  (forall vs, r = Some vs ->
     calls w' = (calls w ++ map EmbeddingsCreate bs)%list /\
     exists ess, length ess = length bs /\ vs = concat ess /\
       forall i b es, bs !! i = Some b -> ess !! i = Some es ->
         eb (calls w ++ map EmbeddingsCreate (take i bs))%list b = Some es) /\
  (r = None ->
     exists i b, bs !! i = Some b /\
       eb (calls w ++ map EmbeddingsCreate (take i bs))%list b = None /\
       (forall j b', (j < i)%nat -> bs !! j = Some b' ->
          is_Some (eb (calls w ++ map EmbeddingsCreate (take j bs))%list b')) /\
       calls w' = (calls w ++ map EmbeddingsCreate (take (S i) bs))%list).
Proof.
  induction bs as [|b bs IH]; intros w w' r H; simpl in H.
  - injection H as <- <-. split; [done|]. split; [|discriminate].
    intros vs [= <-]. split; [by rewrite app_nil_r|].
    exists []. split; [done|]. split; [done|]. intros i b es Hb. done.
  - destruct (eb (calls w) b) as [es|] eqn:Hb.
    + destruct (embed_batches eb (log w (EmbeddingsCreate b)) bs) as [w2 r2] eqn:E.
      injection H as <- <-.
      destruct (IH _ _ _ E) as (Hcol & Hsome & Hnone).
      split; [done|]. split.
      * intros vs Hvs. destruct r2 as [rest|]; [|discriminate].
        injection Hvs as <-.
        destruct (Hsome rest eq_refl) as (Hcalls & ess & Hlen & -> & Hess).
        split; [rewrite Hcalls; simpl; by rewrite <- app_assoc|].
        exists (es :: ess). split; [simpl; lia|]. split; [done|].
        intros [|i] b' es' Hb' Hes'; simpl in Hb', Hes'.
        -- injection Hb' as <-. injection Hes' as <-. by rewrite app_nil_r.
        -- rewrite <- (Hess i b' es' Hb' Hes'). simpl. by rewrite <- app_assoc.
      * intros Hr. destruct r2 as [rest|]; [discriminate|].
        destruct (Hnone eq_refl) as (i & b' & Hb' & Hfail & Hok & Hcalls).
        exists (S i), b'. split; [done|].
        split; [rewrite <- Hfail; simpl; by rewrite <- app_assoc|].
        split.
        -- intros [|j] b'' Hj Hb''; simpl in Hb''.
           ++ injection Hb'' as <-. simpl. rewrite app_nil_r, Hb. by eexists.
           ++ simpl. replace (calls w ++ EmbeddingsCreate b ::
                                map EmbeddingsCreate (take j bs))%list
                with (calls (log w (EmbeddingsCreate b)) ++
                        map EmbeddingsCreate (take j bs))%list
                by (simpl; by rewrite <- app_assoc).
              apply Hok; [lia|done].
        -- rewrite Hcalls. simpl. by rewrite <- app_assoc.
    + injection H as <- <-. split; [done|]. split; [discriminate|].
      intros _. exists 0%nat, b. simpl. rewrite app_nil_r.
      split; [done|]. split; [done|]. split; [intros; lia|]. done.
Qed.

Lemma generate_embeddings_batches_eq
    (eb : list call -> list string -> option (list vector)) (w : World)
    (texts : list string) (n : nat) :
  generate_embeddings eb w texts n = embed_batches eb w (batches n texts).
Proof. by destruct texts. Qed.

Lemma embed_batches_length
    (eb : list call -> list string -> option (list vector))
    (bs : list (list string)) :
  embeddings_contract eb ->
  forall w w' vs, embed_batches eb w bs = (w', Some vs) ->
  length vs = length (concat bs).
Proof.
  intros Hc. induction bs as [|b bs IH]; intros w w' vs H; simpl in H.
  - by injection H as <- <-.
  - destruct (eb (calls w) b) as [es|] eqn:Hb; [|discriminate].
    destruct (embed_batches eb (log w (EmbeddingsCreate b)) bs) as [w2 [rest|]]
      eqn:E; [|discriminate].
    injection H as <- <-. simpl. rewrite !length_app, (Hc _ _ _ Hb).
    by rewrite (IH _ _ _ E).
Qed.

Lemma generate_embeddings_length
    (eb : list call -> list string -> option (list vector)) (w w' : World)
    (texts : list string) (n : nat) (vs : list vector) :
  embeddings_contract eb -> (0 < n)%nat ->
  generate_embeddings eb w texts n = (w', Some vs) ->
  length vs = length texts.
Proof.
  intros Hc Hn H. rewrite generate_embeddings_batches_eq in H.
  rewrite (embed_batches_length eb _ Hc w w' vs H).
  by rewrite (proj1 (batches_spec n texts Hn)).
Qed.

Lemma generate_single_embedding_eq
    (eb : list call -> list string -> option (list vector)) (w : World)
    (text : string) :
  generate_single_embedding eb w text =
  (log w (EmbeddingsCreate [text]), option_map (hd []) (eb (calls w) [text])).
Proof.
  unfold generate_single_embedding, generate_embeddings. simpl.
  destruct (eb (calls w) [text]); simpl; [|done]. by rewrite app_nil_r.
Qed.

Lemma upsert_points_lookup (P : gmap string Point) (pts : list Point)
    (id : string) (p : Point) :
  upsert_points P pts !! id = Some p ->
  P !! id = Some p \/ (In p pts /\ point_id p = id).
Proof.
  unfold upsert_points. revert P. induction pts as [|q pts IH]; intros P; simpl.
  - by left.
  - intros H. destruct (IH _ H) as [Hq|[Hin Hid]]; [|right; tauto].
    destruct (decide (point_id q = id)) as [<-|Hne].
    + rewrite lookup_insert_eq in Hq. injection Hq as ->. right. tauto.
    + rewrite lookup_insert_ne in Hq by done. by left.
Qed.

Lemma upsert_points_keep (P : gmap string Point) (pts : list Point) (id : string) :
  is_Some (P !! id) -> is_Some (upsert_points P pts !! id).
Proof.
  unfold upsert_points. revert P. induction pts as [|q pts IH]; intros P; simpl;
    [done|].
  intros H. apply IH. destruct (decide (point_id q = id)) as [<-|Hne].
  - by rewrite lookup_insert_eq.
  - by rewrite lookup_insert_ne.
Qed.

Lemma upsert_points_has (P : gmap string Point) (pts : list Point) (p : Point) :
  In p pts -> exists q, upsert_points P pts !! point_id p = Some q /\
                        In q pts /\ point_id q = point_id p.
Proof.
  unfold upsert_points. induction pts as [|r pts IH] using rev_ind; [done|].
  intros Hin. rewrite foldl_app. cbn [foldl].
  destruct (decide (point_id r = point_id p)) as [Heq|Hne].
  - rewrite Heq, lookup_insert_eq. exists r.
    split; [done|]. split; [|done]. apply in_or_app. right. by left.
  - rewrite lookup_insert_ne by done.
    apply in_app_or in Hin as [Hin|[->|[]]]; [|done].
    destruct (IH Hin) as (q & Hq & Hinq & Hid). exists q.
    split; [done|]. split; [|done]. apply in_or_app. by left.
Qed.

End KBMore.

Module KBMore2.
Import KB Chunker.

Lemma ensure_default (w : World) (c : string) :
  default ∅ (collections (ensure_collection_exists w c) !! c) =
  default ∅ (collections w !! c).
Proof.
  rewrite KBFacts.ensure_collections. destruct (collections w !! c) eqn:E.
  - by rewrite E.
  - by rewrite lookup_insert_eq.
Qed.

Lemma ensure_insert (w : World) (c : string) (P : gmap string Point) :
  <[c := P]> (collections (ensure_collection_exists w c)) = <[c := P]> (collections w).
Proof.
  rewrite KBFacts.ensure_collections. destruct (collections w !! c); [done|].
  by rewrite insert_insert_eq.
Qed.

Lemma ensure_as_insert (w : World) (c : string) :
  collections (ensure_collection_exists w c) =
  <[c := default ∅ (collections w !! c)]> (collections w).
Proof.
  rewrite KBFacts.ensure_collections. destruct (collections w !! c) eqn:E; [|done].
  simpl. by rewrite insert_id.
Qed.

Section Points.
Variables (uuid5_dns : string -> string) (ws src : string)
  (title url : option string) (tags : list string) (now : nat -> string).

(** The [j]-th point of the loop is built from the [j]-th chunk and vector
    with the [j]-th clock reading. *)
Lemma make_points_in (cs : list Chunk) :
  forall i es p, In p (make_points uuid5_dns ws src title url tags now i cs es) ->
  exists j c e, cs !! j = Some c /\ es !! j = Some e /\
    p = make_point uuid5_dns ws src title url tags (now (i + j)%nat) c e.
Proof.
  induction cs as [|c cs IH]; intros i [|e es] p; simpl; try tauto.
  intros [<-|Hp].
  - exists 0%nat, c, e. by rewrite Nat.add_0_r.
  - destruct (IH (S i) es p Hp) as (j & c' & e' & Hc & He & ->).
    exists (S j), c', e'. split; [done|]. split; [done|].
    by replace (i + S j)%nat with (S i + j)%nat by lia.
Qed.

Lemma make_points_has (cs : list Chunk) :
  forall i es j c, cs !! j = Some c -> (j < length es)%nat ->
  exists e, es !! j = Some e /\
    In (make_point uuid5_dns ws src title url tags (now (i + j)%nat) c e)
       (make_points uuid5_dns ws src title url tags now i cs es).
Proof.
  induction cs as [|c0 cs IH]; intros i es j c Hc Hj; [done|].
  destruct es as [|e es]; simpl in Hj; [lia|].
  destruct j as [|j]; simpl in Hc.
  - injection Hc as <-. exists e. rewrite Nat.add_0_r. split; [done|]. by left.
  - destruct (IH (S i) es j c Hc ltac:(lia)) as (e' & He & Hin).
    exists e'. split; [done|]. right.
    by replace (i + S j)%nat with (S i + j)%nat by lia.
Qed.

End Points.

(** What a returning [upsert_document] did: the chunks, the vectors of the
    deduplicated ones (none when there is no chunk left), the calls and
    the store, the statistics. *)
Lemma upsert_document_returns (sha256_hex : string -> string)
    (tiktoken : option Encoding) (uuid5_dns : string -> string)
    (embed_batch : list call -> list string -> option (list vector)) (w : World)
    (text ws source : string) (title url : option string)
    (tags : option (list string)) (cn : option string) (now : nat -> string)
    (w' : World) (st : UploadStats) :
  upsert_document sha256_hex tiktoken uuid5_dns embed_batch w text ws source
    title url tags cn now = (w', Py.Returns st) ->
  let coll := collection_or_default cn in
  let tags' := match tags with Some t => t | None => [] end in
  exists chunks es,
    chunk_text sha256_hex tiktoken (S (n_units tiktoken text)) text 800 200
      = Py.Returns chunks /\
    ((deduplicate_chunks chunks = [] /\ es = [] /\
      w' = ensure_collection_exists w coll) \/
     (exists w2, deduplicate_chunks chunks <> [] /\
        generate_embeddings embed_batch (ensure_collection_exists w coll)
          (map content (deduplicate_chunks chunks)) 100 = (w2, Some es) /\
        calls w' =
          (calls w2 ++ [UpsertPoints coll (map point_id
             (make_points uuid5_dns ws source title url tags' now 0
                (deduplicate_chunks chunks) es))])%list)) /\
    collections w' =
      <[coll := upsert_points (default ∅ (collections w !! coll))
                  (make_points uuid5_dns ws source title url tags' now 0
                     (deduplicate_chunks chunks) es)]> (collections w) /\
    st = mkStats (Z.of_nat (length chunks))
           (Z.of_nat (length (deduplicate_chunks chunks)))
           (Z.of_nat (length chunks) -
            Z.of_nat (length (deduplicate_chunks chunks))).
Proof.
  intros H coll tags'. unfold upsert_document in H. fold coll tags' in H.
  destruct (chunk_text _ _ _ _ _ _) as [chunks|e|] eqn:Hch; try discriminate.
  exists chunks.
  destruct (deduplicate_chunks chunks) as [|d ds] eqn:Hd.
  - injection H as <- <-. exists []. split; [done|].
    split; [by left|]. split; [apply ensure_as_insert|].
    apply KBFacts.dedup_nil in Hd. by subst chunks.
  - destruct (generate_embeddings embed_batch (ensure_collection_exists w coll)
                (map content (d :: ds)) 100) as [w2 [es|]] eqn:Hge;
      [|discriminate].
    injection H as <- <-. exists es. split; [done|].
    split; [right; exists w2; by split|].
    split; [|done].
    pose proof (KBFacts.generate_embeddings_collections embed_batch
      (ensure_collection_exists w coll) (map content (d :: ds)) 100) as Hc.
    rewrite Hge in Hc. simpl in Hc. cbn [collections log].
    by rewrite Hc, ensure_default, ensure_insert.
Qed.

(** A raising [upsert_document] leaves the store as
    [ensure_collection_exists] made it: the exception is [encode]'s or an
    embedding request's. *)
Lemma upsert_document_raises (sha256_hex : string -> string)
    (tiktoken : option Encoding) (uuid5_dns : string -> string)
    (embed_batch : list call -> list string -> option (list vector)) (w : World)
    (text ws source : string) (title url : option string)
    (tags : option (list string)) (cn : option string) (now : nat -> string)
    (w' : World) (e : Py.exn) :
  upsert_document sha256_hex tiktoken uuid5_dns embed_batch w text ws source
    title url tags cn now = (w', Py.Raises e) ->
  collections w' = collections (ensure_collection_exists w (collection_or_default cn)) /\
  (chunk_text sha256_hex tiktoken (S (n_units tiktoken text)) text 800 200
     = Py.Raises e \/
   (e = Py.APIError /\ exists chunks,
      chunk_text sha256_hex tiktoken (S (n_units tiktoken text)) text 800 200
        = Py.Returns chunks)).
Proof.
  unfold upsert_document.
  destruct (chunk_text _ _ _ _ _ _) as [chunks|e'|] eqn:Hch; try discriminate.
  - destruct (deduplicate_chunks chunks) as [|d ds]; [discriminate|].
    destruct (generate_embeddings _ _ _ _) as [w2 [es|]] eqn:Hge; [discriminate|].
    intros [= <- <-]. split.
    + pose proof (KBFacts.generate_embeddings_collections embed_batch
        (ensure_collection_exists w (collection_or_default cn))
        (map content (d :: ds)) 100) as Hc.
      by rewrite Hge in Hc.
    + right. split; [done|]. by exists chunks.
  - intros [= <- <-]. split; [done|]. by left.
Qed.

(** [upsert_document] never loops: its chunking always ends. *)
Lemma upsert_document_not_loops (sha256_hex : string -> string)
    (tiktoken : option Encoding) (uuid5_dns : string -> string)
    (embed_batch : list call -> list string -> option (list vector)) (w : World)
    (text ws source : string) (title url : option string)
    (tags : option (list string)) (cn : option string) (now : nat -> string) :
  (upsert_document sha256_hex tiktoken uuid5_dns embed_batch w text ws source
     title url tags cn now).2 <> Py.Loops.
Proof.
  unfold upsert_document.
  pose proof (KBFacts.chunk_text_800_200 sha256_hex tiktoken text) as Hnl.
  destruct (chunk_text _ _ _ _ _ _) as [chunks|e|]; [|discriminate|done].
  destruct (deduplicate_chunks chunks); [discriminate|].
  by destruct (generate_embeddings _ _ _ _) as [? [?|]].
Qed.

End KBMore2.

Module RouteFacts.
Import KB.

Lemma contract_results (qdrant_search : gmap string Point -> SearchRequest -> list Hit)
    (P : gmap string Point) (qv : vector) (ws : string) (k : Z) (wv : bool) :
  qdrant_contract qdrant_search ->
  (length (map to_result (qdrant_search P (search_request qv ws k wv)))
     <= Z.to_nat k)%nat /\
  Forall (fun r => KBSearchResult.workspace_id r = ws)
    (map to_result (qdrant_search P (search_request qv ws k wv))).
Proof.
  intros Hc. destruct (Hc P (search_request qv ws k wv)) as [Hlen Hhits].
  split; [by rewrite length_map|].
  apply Forall_forall. intros r Hr. apply list_elem_of_fmap in Hr as (h & -> & Hh).
  destruct (Hhits h Hh) as (p & _ & Hpay & Hf).
  simpl in Hf. inversion Hf as [|? ? Hf1 _]; subst.
  unfold condition_holds, payload_keyword in Hf1. simpl in Hf1.
  apply String.eqb_eq in Hf1. unfold to_result. simpl. by rewrite Hpay.
Qed.

(** [search_kb], step by step. *)
Lemma search_kb_eq
    (embed_batch : list call -> list string -> option (list vector))
    (qdrant_search : gmap string Point -> SearchRequest -> list Hit)
    (w : World) (query ws : string) (k : Z) (wv : bool) (cn : option string) :
  search_kb embed_batch qdrant_search w query ws k wv cn =
  match embed_batch (calls w) [query] with
  | None => (log w (EmbeddingsCreate [query]), inl Py.APIError)
  | Some es =>
      let req := search_request (hd [] es) ws k wv in
      (log (log w (EmbeddingsCreate [query])) (SearchPoints (collection_or_default cn) req),
       match collections w !! collection_or_default cn with
       | None => inl Py.UnexpectedResponse
       | Some P => inr (map to_result (qdrant_search P req))
       end)
  end.
Proof.
  unfold search_kb. rewrite KBMore.generate_single_embedding_eq.
  destruct (embed_batch (calls w) [query]); simpl; [|reflexivity].
  by destruct (collections w !! collection_or_default cn).
Qed.

Lemma search_kb_collections
    (embed_batch : list call -> list string -> option (list vector))
    (qdrant_search : gmap string Point -> SearchRequest -> list Hit)
    (w : World) (query ws : string) (k : Z) (wv : bool) (cn : option string) :
  collections (search_kb embed_batch qdrant_search w query ws k wv cn).1 =
  collections w.
Proof.
  rewrite search_kb_eq. by destruct (embed_batch (calls w) [query]).
Qed.

(** The results of a [search_kb] that returns come from Qdrant's search
    of the collection. *)
Lemma search_kb_inr
    (embed_batch : list call -> list string -> option (list vector))
    (qdrant_search : gmap string Point -> SearchRequest -> list Hit)
    (w w' : World) (query ws : string) (k : Z) (wv : bool) (cn : option string)
    (results : list KBSearchResult.t) :
  search_kb embed_batch qdrant_search w query ws k wv cn = (w', inr results) ->
  exists P qv, collections w !! collection_or_default cn = Some P /\
    collections w' = collections w /\
    results = map to_result (qdrant_search P (search_request qv ws k wv)).
Proof.
  rewrite search_kb_eq. destruct (embed_batch (calls w) [query]) as [es|];
    [|discriminate].
  destruct (collections w !! collection_or_default cn) as [P|]; [|discriminate].
  intros [= <- <-]. by exists P, (hd [] es).
Qed.

End RouteFacts.


(* ================================================================= *)
(** ** Claims *)

(** C1 (counterexample).  A non-empty blocklist entry that occurs in the
    draft yields no violation when it is whitespace only, and an entry
    that does not occur yields one when its stripped form does. *)
Lemma policy_guard_strip_cex :
  " " <> "" /\
  Py.contains (Py.lower " ") (Py.lower "a b") = true /\
  PolicyGuard.policy_guard_node "a b" [" "] = [] /\
  Py.contains (Py.lower " trial") (Py.lower "xtrial") = false /\
  PolicyGuard.policy_guard_node "xtrial" [" trial"] =
    ["Blocklisted phrase detected: 'trial'"].
Proof. repeat split; [discriminate|reflexivity..]. Qed.

(** C1 (amended).  The violations are, in blocklist order, one message
    ["Blocklisted phrase detected: '<p.strip()>'"] per blocklist entry [p]
    whose stripped form is non-empty and occurs case-insensitively in the
    draft; they are empty exactly when no entry hits, and the routing is
    ["halt"] exactly when they are non-empty, ["continue"] otherwise. *)
Theorem policy_guard_violations_spec (draft : string) (blocklist : list string) :
  let v := PolicyGuard.policy_guard_node draft blocklist in
  v = map PolicyGuard.violation_msg
        (List.filter (PolicyGuard.phrase_hits (Py.lower draft)) blocklist) /\
  (forall p, PolicyGuard.phrase_hits (Py.lower draft) p = true <->
     Py.strip p <> "" /\
     Py.contains (Py.lower (Py.strip p)) (Py.lower draft) = true) /\
  (v = [] <-> forall p, In p blocklist ->
     PolicyGuard.phrase_hits (Py.lower draft) p = false) /\
  (PolicyGuard.should_halt v = "halt" <-> v <> []) /\
  (PolicyGuard.should_halt v = "continue" <-> v = []).
Proof.
  cbv zeta. rewrite PolicyGuardFacts.policy_guard_node_eq.
  split; [done|]. split; [|split; [|split]].
  - intros p. unfold PolicyGuard.phrase_hits.
    destruct (Py.strip p) as [|c s'] eqn:Hs; simpl.
    + split; [discriminate|]. intros [[] _]. done.
    + split; [intros H; split; [discriminate|exact H]|intros [_ H]; exact H].
  - rewrite <- PolicyGuardFacts.filter_nil_iff.
    destruct (List.filter _ blocklist); simpl; split; done.
  - destruct (map _ _); simpl; split; intros H; done.
  - destruct (map _ _); simpl; split; intros H; done.
Qed.

(** C2 (counterexample).  [approve_review] moves a ["rejected"] review to
    ["approved"], and [reject_review] an ["approved"] one to ["rejected"]. *)
Lemma review_terminal_states_cex :
  (match Review.approve_review Some
           {[ "u1" := Samples.review_with_status "rejected" ]}
           "u1" "alice" None 5 5 with
   | inr (_, r') => Review.status r'
   | inl _ => "" end) = "approved" /\
  (match Review.reject_review Some
           {[ "u1" := Samples.review_with_status "approved" ]}
           "u1" "alice" None 5 5 with
   | inr (_, r') => Review.status r'
   | inl _ => "" end) = "rejected".
Proof. split; reflexivity. Qed.

(** C2 (amended).  For the owner of an existing review, whatever its
    current status: [approve] stores status ["approved"] with the feedback
    and [reviewed_at]; [reject] stores ["rejected"] likewise; both keep
    [draft_html] and [draft_version]; [request_edit] stores ["editing"],
    the new [draft_html], [draft_version + 1] and empty violations. *)
Theorem review_transitions_from_any_status
    (parse_uuid : string -> option string) (db : Review.session)
    (review_id uid u : string) (r : Review.DraftReview)
    (fb notes : option string) (new_html : string) (t1 t2 : Z) :
  parse_uuid review_id = Some u ->
  db !! u = Some r ->
  Review.user_id r = uid ->
  (exists r', Review.approve_review parse_uuid db review_id uid fb t1 t2
                = inr (<[u := r']> db, r') /\
     Review.status r' = "approved" /\ Review.feedback r' = fb /\
     Review.reviewed_at r' = Some t1 /\
     Review.draft_html r' = Review.draft_html r /\
     Review.draft_version r' = Review.draft_version r) /\
  (exists r', Review.reject_review parse_uuid db review_id uid fb t1 t2
                = inr (<[u := r']> db, r') /\
     Review.status r' = "rejected" /\ Review.feedback r' = fb /\
     Review.reviewed_at r' = Some t1 /\
     Review.draft_html r' = Review.draft_html r /\
     Review.draft_version r' = Review.draft_version r) /\
  (exists r', Review.request_edit parse_uuid db review_id uid new_html notes t2
                = inr (<[u := r']> db, r') /\
     Review.status r' = "editing" /\ Review.draft_html r' = new_html /\
     Review.draft_version r' = (Review.draft_version r + 1)%Z /\
     Review.violations r' = []).
Proof.
  intros Hp Hdb Hown.
  assert (Hl : Review.load_review parse_uuid db review_id uid = inr (u, r)).
  { unfold Review.load_review. rewrite Hp, Hdb, Hown, String.eqb_refl. done. }
  unfold Review.approve_review, Review.reject_review, Review.review_action,
    Review.request_edit.
  rewrite Hl. repeat split; eexists; repeat split; reflexivity.
Qed.

Lemma review_transitions_from_any_status_witness :
  Some "u1" = Some "u1" /\
  ({[ "u1" := Samples.review_with_status "approved" ]} : Review.session)
    !! "u1" = Some (Samples.review_with_status "approved") /\
  Review.user_id (Samples.review_with_status "approved") = "alice" /\
  ((exists r', Review.approve_review Some
       {[ "u1" := Samples.review_with_status "approved" ]} "u1" "alice" None 3 4
       = inr (<[ "u1" := r' ]> {[ "u1" := Samples.review_with_status "approved" ]}, r') /\
     Review.status r' = "approved" /\ Review.feedback r' = None /\
     Review.reviewed_at r' = Some 3%Z /\
     Review.draft_html r' = Review.draft_html (Samples.review_with_status "approved") /\
     Review.draft_version r' = Review.draft_version (Samples.review_with_status "approved")) /\
   (exists r', Review.reject_review Some
       {[ "u1" := Samples.review_with_status "approved" ]} "u1" "alice" None 3 4
       = inr (<[ "u1" := r' ]> {[ "u1" := Samples.review_with_status "approved" ]}, r') /\
     Review.status r' = "rejected" /\ Review.feedback r' = None /\
     Review.reviewed_at r' = Some 3%Z /\
     Review.draft_html r' = Review.draft_html (Samples.review_with_status "approved") /\
     Review.draft_version r' = Review.draft_version (Samples.review_with_status "approved")) /\
   (exists r', Review.request_edit Some
       {[ "u1" := Samples.review_with_status "approved" ]} "u1" "alice" "<p>v2</p>" None 4
       = inr (<[ "u1" := r' ]> {[ "u1" := Samples.review_with_status "approved" ]}, r') /\
     Review.status r' = "editing" /\ Review.draft_html r' = "<p>v2</p>" /\
     Review.draft_version r' =
       (Review.draft_version (Samples.review_with_status "approved") + 1)%Z /\
     Review.violations r' = [])).
Proof.
  split; [reflexivity|]. split; [reflexivity|]. split; [reflexivity|].
  apply (review_transitions_from_any_status Some
           {[ "u1" := Samples.review_with_status "approved" ]}
           "u1" "alice" "u1" (Samples.review_with_status "approved")
           None None "<p>v2</p>" 3 4); reflexivity.
Defined.

(** C3 (code bug).  A parsed response whose intent is outside the
    category set is passed through unchanged, and a non-numeric
    confidence makes the log line raise outside the [try]; only a
    response [json.loads] rejects falls back to [other]/0.5. *)
Theorem classifier_out_of_set_and_raise
    (json_loads : string -> option Classifier.json) :
  json_loads Samples.billing_response = Some Samples.billing_obj ->
  json_loads Samples.high_response = Some Samples.high_obj ->
  json_loads "invalid json" = None ->
  Classifier.classifier_node json_loads Samples.billing_response
    = inr (Classifier.JStr "billing", Classifier.JNum (9 # 10)) /\
  Classifier.in_categories (Classifier.JStr "billing") = false /\
  Classifier.classifier_node json_loads Samples.high_response
    = inl Classifier.ValueError /\
  Classifier.classifier_node json_loads "invalid json"
    = inr (Classifier.JStr "other", Classifier.JNum Classifier.half).
Proof.
  intros Hb Hh Hi. unfold Classifier.classifier_node.
  rewrite Hb, Hh, Hi. repeat split; reflexivity.
Qed.

Lemma classifier_out_of_set_and_raise_witness :
  Samples.sample_loads Samples.billing_response = Some Samples.billing_obj /\
  Samples.sample_loads Samples.high_response = Some Samples.high_obj /\
  Samples.sample_loads "invalid json" = None /\
  Classifier.classifier_node Samples.sample_loads Samples.billing_response
    = inr (Classifier.JStr "billing", Classifier.JNum (9 # 10)) /\
  Classifier.in_categories (Classifier.JStr "billing") = false /\
  Classifier.classifier_node Samples.sample_loads Samples.high_response
    = inl Classifier.ValueError /\
  Classifier.classifier_node Samples.sample_loads "invalid json"
    = inr (Classifier.JStr "other", Classifier.JNum Classifier.half).
Proof.
  split; [vm_compute; reflexivity|]. split; [vm_compute; reflexivity|].
  split; [vm_compute; reflexivity|].
  apply classifier_out_of_set_and_raise; vm_compute; reflexivity.
Defined.

(** C4 (counterexample).  With [chunk_overlap = chunk_size] and a text
    longer than one window, the loop never stops: no amount of iterations
    returns, whatever the hash, on the tiktoken path (here a
    character-level encoding) and on the character fallback. *)
Lemma chunk_loop_diverges_cex :
  ~ (exists (h : string -> string) (fuel : nat),
       Chunker.chunk_text h (Some Samples.char_encoding) fuel "hello" 2 2
         <> Py.Loops) /\
  ~ (exists (h : string -> string) (fuel : nat),
       Chunker.chunk_text h None fuel "hello" 1 1 <> Py.Loops).
Proof.
  split; intros (h & fuel & Hne); apply Hne;
    unfold Chunker.chunk_text, Chunker.chunk_by_chars; simpl;
    rewrite ChunkerFacts.window_loop_diverges; simpl; try lia; done.
Qed.

(** C4 (amended).  Whenever [chunk_overlap < chunk_size] the loop stops:
    one iteration per token (or character) plus one is enough, and
    [chunk_text] either returns or raises [ValueError] because tiktoken
    refuses the text; when moreover [chunk_size > 0] every emitted chunk
    is a non-empty window [start_idx < end_idx <= len] of the token
    stream.  Whenever [chunk_overlap >= chunk_size] and the token stream
    (characters on the fallback, with both sizes times four) is non-empty
    and longer than one window, no amount of iterations returns. *)
Theorem chunk_text_terminates (sha256_hex : string -> string)
    (enc : option Chunker.Encoding) (text : string)
    (chunk_size chunk_overlap : Z) :
  ((chunk_overlap < chunk_size)%Z ->
   (exists r, Chunker.chunk_text sha256_hex enc
                (S (Chunker.n_units enc text)) text chunk_size chunk_overlap
              = Py.Returns r) \/
   (Chunker.chunk_text sha256_hex enc (S (Chunker.n_units enc text)) text
      chunk_size chunk_overlap = Py.Raises Py.ValueError /\
    exists e, enc = Some e /\ Chunker.encode e text = None)) /\
  ((chunk_overlap < chunk_size)%Z -> (0 < chunk_size)%Z ->
   forall fuel r, Chunker.chunk_text sha256_hex enc fuel text chunk_size
                    chunk_overlap = Py.Returns r ->
   Forall (ChunkerFacts.window_ok (Z.of_nat (Chunker.n_units enc text))) r) /\
  ((chunk_size <= chunk_overlap)%Z ->
   forall fuel,
   (forall e tokens, enc = Some e -> Chunker.encode e text = Some tokens ->
    (Z.max 0 chunk_size < Z.of_nat (length tokens))%Z ->
    Chunker.chunk_text sha256_hex enc fuel text chunk_size chunk_overlap
      = Py.Loops) /\
   (enc = None ->
    (Z.max 0 (chunk_size * 4) < Z.of_nat (length (list_ascii_of_string text)))%Z ->
    Chunker.chunk_text sha256_hex enc fuel text chunk_size chunk_overlap
      = Py.Loops)).
Proof.
  split; [|split].
  - intros Hstep. destruct enc as [e|];
      unfold Chunker.chunk_text, Chunker.chunk_by_chars, Chunker.n_units.
    + destruct (Chunker.encode e text) as [tokens|] eqn:He.
      * left. destruct (ChunkerFacts.window_loop_terminates sha256_hex
          (Chunker.decode e) tokens chunk_size chunk_overlap Hstep
          (length tokens) 0 [] ltac:(lia)) as [r ->]. eauto.
      * right. eauto.
    + left. destruct (ChunkerFacts.window_loop_terminates sha256_hex
          string_of_list_ascii (list_ascii_of_string text) (chunk_size * 4)
          (chunk_overlap * 4) ltac:(lia) (length (list_ascii_of_string text))
          0 [] ltac:(lia)) as [r ->]. eauto.
  - intros Hstep Hsize fuel r. destruct enc as [e|];
      unfold Chunker.chunk_text, Chunker.chunk_by_chars, Chunker.n_units.
    + destruct (Chunker.encode e text) as [tokens|]; [|discriminate].
      destruct (Chunker.window_loop _ _ _ _ _ _ _ _) eqn:Hr; [|discriminate].
      intros [= <-].
      eapply ChunkerFacts.window_loop_bounds; [..|exact Hr]; try done.
    + destruct (Chunker.window_loop _ _ _ _ _ _ _ _) eqn:Hr; [|discriminate].
      intros [= <-].
      eapply ChunkerFacts.window_loop_bounds; [..|exact Hr]; try done; lia.
  - intros Hstep fuel. split.
    + intros e tokens -> He Hlen.
      unfold Chunker.chunk_text. rewrite He.
      rewrite ChunkerFacts.window_loop_diverges; [done|lia|lia|lia].
    + intros -> Hlen. unfold Chunker.chunk_text, Chunker.chunk_by_chars.
      rewrite ChunkerFacts.window_loop_diverges; [done|lia|lia|lia].
Qed.

Lemma chunk_text_terminates_witness :
  (exists r, Chunker.chunk_text (fun s => s) (Some Samples.char_encoding)
               (S (Chunker.n_units (Some Samples.char_encoding) "hello world"))
               "hello world" 4 1 = Py.Returns r) /\
  Chunker.chunk_text (fun s => s) None 7 "hello" 1 1 = Py.Loops.
Proof.
  split.
  - destruct (proj1 (chunk_text_terminates (fun s => s)
      (Some Samples.char_encoding) "hello world" 4 1) ltac:(lia))
      as [H|[H _]]; [exact H|].
    vm_compute in H. discriminate.
  - apply (proj2 (proj2 (proj2 (chunk_text_terminates (fun s => s) None
      "hello" 1 1)) ltac:(lia) 7)); [reflexivity|].
    vm_compute. reflexivity.
Defined.

(** C7 (counterexample).  A non-empty whitespace-only text shorter than
    [chunk_size] gives no chunk; and a short text holding tiktoken's
    special token [<|endoftext|>] makes [encode], hence [chunk_text],
    raise [ValueError]. *)
Lemma chunk_text_short_input_cex :
  "  " <> "" /\
  (Z.of_nat (Chunker.n_units None "  ") < 100)%Z /\
  Chunker.chunk_text (fun s => s) None 1 "  " 100 10 = Py.Returns [] /\
  (Z.of_nat (Chunker.n_units (Some Samples.char_encoding) "  ") < 100)%Z /\
  Chunker.chunk_text (fun s => s) (Some Samples.char_encoding) 1 "  " 100 10
    = Py.Returns [] /\
  (String.length Samples.endoftext < 100)%nat /\
  Chunker.chunk_text (fun s => s) (Some Samples.char_encoding) 1
    Samples.endoftext 100 10 = Py.Raises Py.ValueError.
Proof. repeat split; try discriminate; try reflexivity. vm_compute. lia. Qed.

(** C7 (amended).  The empty text gives no chunk; a text tiktoken refuses
    makes [chunk_text] raise [ValueError]; any other non-empty text of
    fewer tokens than [chunk_size] gives exactly one chunk, equal to the
    text, spanning [0, len], when it has a non-whitespace character, and
    none when it is whitespace only. *)
Theorem chunk_text_short_input (sha256_hex : string -> string)
    (enc : option Chunker.Encoding) (chunk_size chunk_overlap : Z)
    (fuel : nat) :
  Chunker.encoding_ok enc -> (0 < fuel)%nat ->
  Chunker.chunk_text sha256_hex enc fuel "" chunk_size chunk_overlap
    = Py.Returns [] /\
  (forall e text, enc = Some e -> Chunker.encode e text = None ->
   Chunker.chunk_text sha256_hex enc fuel text chunk_size chunk_overlap
     = Py.Raises Py.ValueError) /\
  (forall text, text <> "" ->
   (forall e, enc = Some e -> Chunker.encode e text <> None) ->
   (Z.of_nat (Chunker.n_units enc text) < chunk_size)%Z ->
   Chunker.chunk_text sha256_hex enc fuel text chunk_size chunk_overlap =
   Py.Returns (if Py.truthy (Py.strip text)
               then [Chunker.mkChunk text (sha256_hex text) 0
                       (Z.of_nat (Chunker.n_units enc text))]
               else [])).
Proof.
  intros Henc Hfuel. destruct fuel as [|fuel]; [lia|].
  destruct enc as [e|];
    unfold Chunker.chunk_text, Chunker.chunk_by_chars, Chunker.n_units.
  - destruct Henc as [Hnil Hrt]. split; [|split].
    + rewrite Hnil. reflexivity.
    + intros e' text [= <-] He. rewrite He. reflexivity.
    + intros text Hne Hok Hlt.
      destruct (Chunker.encode e text) as [tokens|] eqn:He;
        [|by destruct (Hok e eq_refl)].
      assert (Hpos : (0 < length tokens)%nat).
      { destruct tokens; simpl; [|lia].
        exfalso. apply Hne. rewrite <- (Hrt text [] He), <- (Hrt "" [] Hnil).
        reflexivity. }
      rewrite ChunkerFacts.window_loop_one; [|done|lia].
      rewrite (Hrt text tokens He). reflexivity.
  - split; [reflexivity|]. split; [discriminate|].
    intros text Hne _ Hlt.
    assert (Hpos : (0 < length (list_ascii_of_string text))%nat).
    { destruct text; simpl; [done|lia]. }
    rewrite ChunkerFacts.window_loop_one; [|done|lia].
    rewrite string_of_list_ascii_of_string. reflexivity.
Qed.

Lemma chunk_text_short_input_witness :
  Chunker.chunk_text (fun s => s) (Some Samples.char_encoding) 1 "" 100 10
    = Py.Returns [] /\
  Chunker.chunk_text (fun s => s) (Some Samples.char_encoding) 1 "hi" 100 10
    = Py.Returns [Chunker.mkChunk "hi" "hi" 0 2].
Proof.
  assert (Hok : Chunker.encoding_ok (Some Samples.char_encoding)).
  { split; [reflexivity|]. intros t tokens Ht. simpl in Ht.
    destruct (Py.contains _ _); [discriminate|].
    injection Ht as <-. apply string_of_list_ascii_of_string. }
  destruct (chunk_text_short_input (fun s => s) (Some Samples.char_encoding)
              100 10 1 Hok ltac:(lia)) as (H1 & _ & H3).
  split; [exact H1|].
  rewrite (H3 "hi"); [reflexivity|discriminate| |vm_compute; reflexivity].
  intros e [= <-]. vm_compute. discriminate.
Defined.

(** C9.  [deduplicate_chunks] returns a sublist of its input (order
    kept), with pairwise distinct hashes, covering every hash of the
    input; a chunk is kept exactly when it occurs at a position where no
    earlier chunk has its hash; the result is no longer than the input. *)
Theorem deduplicate_chunks_spec (chunks : list Chunker.Chunk) :
  let d := Chunker.deduplicate_chunks chunks in
  d `sublist_of` chunks /\
  NoDup (map Chunker.content_hash d) /\
  (forall h, h ∈ map Chunker.content_hash chunks ->
             h ∈ map Chunker.content_hash d) /\
  (forall c, c ∈ d <->
     exists l1 l2, (chunks = (l1 ++ c :: l2)%list) /\
       Chunker.content_hash c ∉ map Chunker.content_hash l1) /\
  (length d <= length chunks)%nat.
Proof.
  cbv zeta. unfold Chunker.deduplicate_chunks.
  split; [apply DedupFacts.dedup_go_sublist|].
  split; [apply DedupFacts.dedup_go_nodup|].
  split; [intros h Hh; apply DedupFacts.dedup_go_cover; set_solver|].
  split.
  - intros c. rewrite DedupFacts.dedup_go_first. split.
    + intros (l1 & l2 & Hl & _ & Hm). eauto.
    + intros (l1 & l2 & Hl & Hm). exists l1, l2. split; [done|].
      split; [set_solver|done].
  - apply sublist_length, DedupFacts.dedup_go_sublist.
Qed.

(** C5 (counterexample).  Ingesting the empty text returns zero counts,
    but [ensure_collection_exists] has already listed the collections and
    created the missing one. *)
Lemma upsert_empty_contacts_index_cex :
  KB.upsert_document (fun s => s) (Some Samples.char_encoding) (fun s => s)
    Samples.unit_embed Samples.empty_world "" "ws-a" "upload" None None None
    None Samples.clock =
  (KB.mkWorld {[ KB.QDRANT_COLLECTION_NAME := ∅ ]}
     [KB.GetCollections; KB.CreateCollection KB.QDRANT_COLLECTION_NAME 1536],
   Py.Returns (KB.mkStats 0 0 0)).
Proof. vm_compute. reflexivity. Qed.

(** C5 (amended).  When the chunked and deduplicated set is empty,
    [upsert_document] returns zero counts, makes no embedding call and no
    upsert: its only effect is [ensure_collection_exists] on the target
    collection (one [get_collections] call, plus the creation of the
    collection when it is missing). *)
Theorem upsert_document_empty_short_circuit (sha256_hex : string -> string)
    (tiktoken : option Chunker.Encoding) (uuid5_dns : string -> string)
    (embed_batch : list KB.call -> list string -> option (list KB.vector))
    (w : KB.World) (text workspace_id source : string)
    (title url : option string) (tags : option (list string))
    (collection_name : option string) (now : nat -> string)
    (chunks : list Chunker.Chunk) :
  Chunker.chunk_text sha256_hex tiktoken (S (Chunker.n_units tiktoken text))
    text 800 200 = Py.Returns chunks ->
  Chunker.deduplicate_chunks chunks = [] ->
  let coll := KB.collection_or_default collection_name in
  KB.upsert_document sha256_hex tiktoken uuid5_dns embed_batch w text
    workspace_id source title url tags collection_name now =
  (KB.ensure_collection_exists w coll, Py.Returns (KB.mkStats 0 0 0)) /\
  KB.calls (KB.ensure_collection_exists w coll) =
  (KB.calls w ++ KB.GetCollections ::
     match KB.collections w !! coll with
     | Some _ => []
     | None => [KB.CreateCollection coll 1536]
     end)%list /\
  KB.collections (KB.ensure_collection_exists w coll) =
  match KB.collections w !! coll with
  | Some _ => KB.collections w
  | None => <[coll := ∅]> (KB.collections w)
  end.
Proof.
  intros Hc Hd coll. split; [|split].
  - unfold KB.upsert_document. fold coll. rewrite Hc, Hd. reflexivity.
  - apply KBFacts.ensure_calls.
  - apply KBFacts.ensure_collections.
Qed.

Lemma upsert_document_empty_short_circuit_witness :
  Chunker.chunk_text (fun s => s) (Some Samples.char_encoding)
    (S (Chunker.n_units (Some Samples.char_encoding) "   ")) "   " 800 200
    = Py.Returns [] /\
  Chunker.deduplicate_chunks [] = [] /\
  (let coll := KB.collection_or_default None in
   KB.upsert_document (fun s => s) (Some Samples.char_encoding) (fun s => s)
     Samples.unit_embed Samples.mixed_world "   " "ws-a" "upload" None None
     None None Samples.clock =
   (KB.ensure_collection_exists Samples.mixed_world coll,
    Py.Returns (KB.mkStats 0 0 0)) /\
   KB.calls (KB.ensure_collection_exists Samples.mixed_world coll) =
   (KB.calls Samples.mixed_world ++ KB.GetCollections ::
      match KB.collections Samples.mixed_world !! coll with
      | Some _ => []
      | None => [KB.CreateCollection coll 1536]
      end)%list /\
   KB.collections (KB.ensure_collection_exists Samples.mixed_world coll) =
   match KB.collections Samples.mixed_world !! coll with
   | Some _ => KB.collections Samples.mixed_world
   | None => <[coll := ∅]> (KB.collections Samples.mixed_world)
   end).
Proof.
  split; [vm_compute; reflexivity|]. split; [reflexivity|].
  apply (upsert_document_empty_short_circuit (fun s => s)
           (Some Samples.char_encoding) (fun s => s) Samples.unit_embed
           Samples.mixed_world "   " "ws-a" "upload" None None None None
           Samples.clock []);
    vm_compute; reflexivity.
Defined.

(** C6.  For any search engine that honours the [must] filter and the
    [limit] (the Qdrant contract), every result [search_kb] returns for
    workspace [A] carries [workspace_id = A], there are at most [k] of
    them, and the one search request it sends has exactly the filter
    [workspace_id == A], [limit = k] and the requested [with_vectors]. *)
Theorem search_kb_workspace_isolation
    (embed_batch : list KB.call -> list string -> option (list KB.vector))
    (qdrant_search : gmap string KB.Point -> KB.SearchRequest -> list KB.Hit)
    (w : KB.World) (query A : string) (k : Z) (with_vectors : bool)
    (collection_name : option string) :
  KB.qdrant_contract qdrant_search ->
  match KB.search_kb embed_batch qdrant_search w query A k with_vectors
          collection_name with
  | (w', inl _) => True
  | (w', inr results) =>
      (forall r, r ∈ results -> KB.KBSearchResult.workspace_id r = A) /\
      (length results <= Z.to_nat k)%nat /\
      exists pre req,
        KB.calls w' =
          (pre ++ [KB.SearchPoints (KB.collection_or_default collection_name) req])%list /\
        KB.query_filter req = [KB.mkFieldCondition "workspace_id" A] /\
        KB.limit req = k /\ KB.with_vectors req = with_vectors
  end.
Proof.
  intros Hq. unfold KB.search_kb.
  destruct (KB.generate_single_embedding embed_batch w query) as [w1 [qv|]];
    [|done].
  destruct (KB.collections w1 !! _) as [pts|]; [|done].
  destruct (Hq pts (KB.search_request qv A k with_vectors)) as [Hlen Hmem].
  split; [|split].
  - intros r Hr. apply list_elem_of_fmap in Hr as (h & -> & Hh).
    destruct (Hmem h Hh) as (p & _ & Hpay & Hf).
    simpl in Hf. apply Forall_inv in Hf.
    unfold KB.to_result. simpl. rewrite Hpay.
    unfold KB.condition_holds in Hf. simpl in Hf.
    by apply String.eqb_eq in Hf.
  - rewrite length_map. exact Hlen.
  - exists (KB.calls w1), (KB.search_request qv A k with_vectors).
    repeat split.
Qed.

Lemma search_kb_workspace_isolation_witness :
  KB.qdrant_contract Samples.filter_search /\
  match KB.search_kb Samples.unit_embed Samples.filter_search
          Samples.mixed_world "refund policy" "ws-a" 5 false None with
  | (w', inl _) => True
  | (w', inr results) =>
      (forall r, r ∈ results -> KB.KBSearchResult.workspace_id r = "ws-a") /\
      (length results <= Z.to_nat 5)%nat /\
      exists pre req,
        KB.calls w' =
          (pre ++ [KB.SearchPoints (KB.collection_or_default None) req])%list /\
        KB.query_filter req = [KB.mkFieldCondition "workspace_id" "ws-a"] /\
        KB.limit req = 5%Z /\ KB.with_vectors req = false
  end.
Proof.
  split; [exact KBFacts.filter_search_contract|].
  apply search_kb_workspace_isolation. exact KBFacts.filter_search_contract.
Defined.

(** C8.  The point id of a chunk is [uuid5(NAMESPACE_DNS, content_hash)],
    and the chunker sets [content_hash] to the SHA-256 of the content, so
    chunks with equal content get equal ids.  With an embedding endpoint
    that answers one vector per text, once [upsert_document] has returned,
    running it a second time with the same text and workspace on the
    resulting store always ends (it returns, or raises the endpoint's
    error and then writes nothing), and leaves the target collection with
    the same set of point ids, hence the same point count. *)
Theorem upsert_document_idempotent (sha256_hex : string -> string)
    (tiktoken : option Chunker.Encoding) (uuid5_dns : string -> string)
    (embed_batch : list KB.call -> list string -> option (list KB.vector))
    (w : KB.World) (text workspace_id source : string)
    (title url : option string) (tags : option (list string))
    (collection_name : option string) (now1 now2 : nat -> string)
    (w1 : KB.World) (s1 : KB.UploadStats) :
  KB.embeddings_contract embed_batch ->
  KB.upsert_document sha256_hex tiktoken uuid5_dns embed_batch w text
    workspace_id source title url tags collection_name now1 = (w1, Py.Returns s1) ->
  let coll := KB.collection_or_default collection_name in
  (forall c : Chunker.Chunk,
     KB.chunk_point_id uuid5_dns c = uuid5_dns (Chunker.content_hash c)) /\
  (exists chunks,
     Chunker.chunk_text sha256_hex tiktoken (S (Chunker.n_units tiktoken text))
       text 800 200 = Py.Returns chunks /\
     forall c1 c2, c1 ∈ chunks -> c2 ∈ chunks ->
       Chunker.content c1 = Chunker.content c2 ->
       KB.chunk_point_id uuid5_dns c1 = KB.chunk_point_id uuid5_dns c2) /\
  let '(w2, r2) :=
    KB.upsert_document sha256_hex tiktoken uuid5_dns embed_batch w1 text
      workspace_id source title url tags collection_name now2 in
  ((exists s2, r2 = Py.Returns s2) \/
   (r2 = Py.Raises Py.APIError /\ KB.collections w2 = KB.collections w1)) /\
  dom (default ∅ (KB.collections w2 !! coll)) =
    dom (default ∅ (KB.collections w1 !! coll)) /\
  size (default ∅ (KB.collections w2 !! coll)) =
    size (default ∅ (KB.collections w1 !! coll)).
Proof.
  intros Hcon H1 coll.
  destruct (KBMore2.upsert_document_returns _ _ _ _ _ _ _ _ _ _ _ _ _ _ _ H1)
    as (chunks & es1 & Hc & Hcase & Hcol1 & _).
  set (tags' := match tags with Some t => t | None => [] end) in *.
  split; [reflexivity|]. split.
  { exists chunks. split; [done|]. intros c1 c2 H1' H2 Heq.
    pose proof (KBFacts.chunk_text_hashes _ _ _ _ _ _ _ Hc) as Hh.
    rewrite Forall_forall in Hh. unfold KB.chunk_point_id.
    by rewrite (Hh c1 H1'), (Hh c2 H2), Heq. }
  assert (Hw1 : KB.collections w1 !! coll =
                Some (KB.upsert_points (default ∅ (KB.collections w !! coll))
                        (KB.make_points uuid5_dns workspace_id source title url
                           tags' now1 0 (Chunker.deduplicate_chunks chunks) es1))).
  { rewrite Hcol1. apply lookup_insert_eq. }
  assert (Hens : KB.collections (KB.ensure_collection_exists w1 coll) =
                 KB.collections w1).
  { apply KBFacts.ensure_existing. by rewrite Hw1. }
  unfold KB.upsert_document. fold coll tags'. rewrite Hc.
  destruct (Chunker.deduplicate_chunks chunks) as [|d ds] eqn:Hd.
  { split; [left; by eexists|]. by rewrite Hens. }
  destruct Hcase as [(Hd' & _)|(w2 & _ & Hge1 & _)]; [done|].
  destruct (KB.generate_embeddings embed_batch
              (KB.ensure_collection_exists w1 coll) (map Chunker.content (d :: ds))
              100) as [w3 [es2|]] eqn:Hge2.
  2:{ pose proof (KBFacts.generate_embeddings_collections embed_batch
        (KB.ensure_collection_exists w1 coll) (map Chunker.content (d :: ds)) 100)
        as Hcol3. rewrite Hge2 in Hcol3. simpl in Hcol3.
      split; [right; split; [done|]; by rewrite Hcol3|].
      by rewrite Hcol3, Hens. }
  pose proof (KBFacts.generate_embeddings_collections embed_batch
    (KB.ensure_collection_exists w1 coll) (map Chunker.content (d :: ds)) 100)
    as Hcol3. rewrite Hge2 in Hcol3. simpl in Hcol3.
  rewrite ?Hd in Hge1.
  pose proof (KBMore.generate_embeddings_length _ _ _ _ 100 _ Hcon ltac:(lia) Hge1)
    as Hl1.
  pose proof (KBMore.generate_embeddings_length _ _ _ _ 100 _ Hcon ltac:(lia) Hge2)
    as Hl2.
  rewrite length_map in Hl1, Hl2.
  split; [left; by eexists|].
  unfold KB.log. cbn [KB.collections].
  rewrite lookup_insert_eq, Hcol3, Hens, Hw1. cbn [default id].
  assert (Hdom : dom (KB.upsert_points (KB.upsert_points
              (default ∅ (KB.collections w !! coll))
              (KB.make_points uuid5_dns workspace_id source title url tags' now1 0
                 (d :: ds) es1))
              (KB.make_points uuid5_dns workspace_id source title url tags' now2 0
                 (d :: ds) es2)) =
            dom (KB.upsert_points (default ∅ (KB.collections w !! coll))
              (KB.make_points uuid5_dns workspace_id source title url tags' now1 0
                 (d :: ds) es1))).
  { rewrite !KBFacts.dom_upsert_points, !KBFacts.make_points_ids, Hl1, Hl2.
    set_solver. }
  split; [exact Hdom|].
  by rewrite <- !size_dom, Hdom.
Qed.

Lemma upsert_document_idempotent_witness :
  KB.embeddings_contract Samples.unit_embed /\
  exists w1 s1,
  KB.upsert_document (fun s => s) (Some Samples.char_encoding) (fun s => s)
    Samples.unit_embed Samples.mixed_world "refund policy" "ws-a" "upload"
    None None None None Samples.clock = (w1, Py.Returns s1) /\
  let coll := KB.collection_or_default None in
  (forall c : Chunker.Chunk,
     KB.chunk_point_id (fun s => s) c = Chunker.content_hash c) /\
  (exists chunks,
     Chunker.chunk_text (fun s => s) (Some Samples.char_encoding)
       (S (Chunker.n_units (Some Samples.char_encoding) "refund policy"))
       "refund policy" 800 200 = Py.Returns chunks /\
     forall c1 c2, c1 ∈ chunks -> c2 ∈ chunks ->
       Chunker.content c1 = Chunker.content c2 ->
       KB.chunk_point_id (fun s => s) c1 = KB.chunk_point_id (fun s => s) c2) /\
  let '(w2, r2) :=
    KB.upsert_document (fun s => s) (Some Samples.char_encoding) (fun s => s)
      Samples.unit_embed w1 "refund policy" "ws-a" "upload" None None None None
      Samples.clock in
  ((exists s2, r2 = Py.Returns s2) \/
   (r2 = Py.Raises Py.APIError /\ KB.collections w2 = KB.collections w1)) /\
  dom (default ∅ (KB.collections w2 !! coll)) =
    dom (default ∅ (KB.collections w1 !! coll)) /\
  size (default ∅ (KB.collections w2 !! coll)) =
    size (default ∅ (KB.collections w1 !! coll)).
Proof.
  assert (Hcon : KB.embeddings_contract Samples.unit_embed).
  { intros h b es [= <-]. apply length_map. }
  split; [exact Hcon|].
  do 2 eexists. split; [vm_compute; reflexivity|].
  eapply (upsert_document_idempotent (fun s => s) (Some Samples.char_encoding)
    (fun s => s) Samples.unit_embed Samples.mixed_world "refund policy" "ws-a"
    "upload" None None None None Samples.clock Samples.clock); [exact Hcon|].
  vm_compute. reflexivity.
Defined.

(** C10.  Whenever [upsert_document] returns, its statistics satisfy
    [chunks_total = chunks_uploaded + duplicates_skipped], all three are
    non-negative, [chunks_total] is the number of chunks produced and
    [chunks_uploaded] the number left after deduplication. *)
Theorem upsert_document_counts (sha256_hex : string -> string)
    (tiktoken : option Chunker.Encoding) (uuid5_dns : string -> string)
    (embed_batch : list KB.call -> list string -> option (list KB.vector))
    (w : KB.World) (text workspace_id source : string)
    (title url : option string) (tags : option (list string))
    (collection_name : option string) (now : nat -> string)
    (w' : KB.World) (st : KB.UploadStats) :
  KB.upsert_document sha256_hex tiktoken uuid5_dns embed_batch w text
    workspace_id source title url tags collection_name now = (w', Py.Returns st) ->
  exists chunks,
    Chunker.chunk_text sha256_hex tiktoken (S (Chunker.n_units tiktoken text))
      text 800 200 = Py.Returns chunks /\
    KB.chunks_total st = (KB.chunks_uploaded st + KB.duplicates_skipped st)%Z /\
    (0 <= KB.chunks_total st)%Z /\ (0 <= KB.chunks_uploaded st)%Z /\
    (0 <= KB.duplicates_skipped st)%Z /\
    KB.chunks_total st = Z.of_nat (length chunks) /\
    KB.chunks_uploaded st = Z.of_nat (length (Chunker.deduplicate_chunks chunks)).
Proof.
  intros H.
  destruct (KBMore2.upsert_document_returns _ _ _ _ _ _ _ _ _ _ _ _ _ _ _ H)
    as (chunks & _ & Hc & _ & _ & ->).
  assert (Hle : (length (Chunker.deduplicate_chunks chunks) <= length chunks)%nat).
  { apply sublist_length, DedupFacts.dedup_go_sublist. }
  exists chunks. split; [done|]. simpl. repeat split; lia.
Qed.

Lemma upsert_document_counts_witness :
  exists w' st,
  KB.upsert_document (fun s => s) (Some Samples.char_encoding) (fun s => s)
    Samples.unit_embed Samples.mixed_world "refund policy" "ws-a" "upload"
    None None None None Samples.clock = (w', Py.Returns st) /\
  exists chunks,
    Chunker.chunk_text (fun s => s) (Some Samples.char_encoding)
      (S (Chunker.n_units (Some Samples.char_encoding) "refund policy"))
      "refund policy" 800 200 = Py.Returns chunks /\
    KB.chunks_total st = (KB.chunks_uploaded st + KB.duplicates_skipped st)%Z /\
    (0 <= KB.chunks_total st)%Z /\ (0 <= KB.chunks_uploaded st)%Z /\
    (0 <= KB.duplicates_skipped st)%Z /\
    KB.chunks_total st = Z.of_nat (length chunks) /\
    KB.chunks_uploaded st = Z.of_nat (length (Chunker.deduplicate_chunks chunks)).
Proof.
  do 2 eexists. split; [vm_compute; reflexivity|].
  eapply (upsert_document_counts (fun s => s) (Some Samples.char_encoding)
    (fun s => s) Samples.unit_embed Samples.mixed_world "refund policy" "ws-a"
    "upload" None None None None Samples.clock).
  vm_compute. reflexivity.
Defined.

(* ================================================================= *)
(** ** Further properties of the code *)

Module StrFacts.

Lemma lasc_app (s1 s2 : string) :
  list_ascii_of_string (s1 ++ s2) =
  (list_ascii_of_string s1 ++ list_ascii_of_string s2)%list.
Proof. induction s1 as [|c s1 IH]; simpl; [done|]. by rewrite IH. Qed.

Lemma length_lasc (s : string) :
  String.length s = length (list_ascii_of_string s).
Proof. induction s as [|c s IH]; simpl; lia. Qed.

Lemma substring_take (n : nat) (s : string) :
  substring 0 n s = string_of_list_ascii (take n (list_ascii_of_string s)).
Proof.
  revert s. induction n as [|n IH]; intros [|c s]; simpl; try done.
  by rewrite IH.
Qed.

Lemma drop_space_suffix (l : list ascii) :
  exists p, l = (p ++ Py.drop_space l)%list.
Proof.
  induction l as [|c l IH]; simpl; [by exists []|].
  destruct (Py.isspace c); [|by exists []].
  destruct IH as [p Hp]. exists (c :: p). simpl. by rewrite <- Hp.
Qed.

Lemma drop_space_head (l : list ascii) (c : ascii) (r : list ascii) :
  Py.drop_space l = c :: r -> Py.isspace c = false.
Proof.
  induction l as [|d l IH]; simpl; [done|].
  destruct (Py.isspace d) eqn:Hd; [done|]. by intros [= -> _].
Qed.

Lemma drop_space_id (l : list ascii) :
  (forall c r, l = c :: r -> Py.isspace c = false) -> Py.drop_space l = l.
Proof.
  destruct l as [|c r]; simpl; [done|]. intros H. by rewrite (H c r).
Qed.

Lemma drop_space_idem (l : list ascii) :
  Py.drop_space (Py.drop_space l) = Py.drop_space l.
Proof. apply drop_space_id. apply drop_space_head. Qed.

(** The characters [Py.strip] keeps. *)
Definition strip_l (l : list ascii) : list ascii :=
  rev (Py.drop_space (rev (Py.drop_space l))).

Lemma lasc_strip (s : string) :
  list_ascii_of_string (Py.strip s) = strip_l (list_ascii_of_string s).
Proof. unfold Py.strip. by rewrite list_ascii_of_string_of_list_ascii. Qed.

Lemma strip_l_infix (l : list ascii) :
  exists p q, l = (p ++ strip_l l ++ q)%list.
Proof.
  unfold strip_l. set (a := Py.drop_space l).
  destruct (drop_space_suffix l) as [p Hp]. fold a in Hp.
  destruct (drop_space_suffix (rev a)) as [q Hq].
  assert (Ha : a = (rev (Py.drop_space (rev a)) ++ rev q)%list).
  { rewrite <- (rev_involutive a) at 1. rewrite Hq at 1.
    by rewrite rev_app_distr. }
  exists p, (rev q). rewrite Hp. f_equal. exact Ha.
Qed.

Lemma strip_l_idem (l : list ascii) : strip_l (strip_l l) = strip_l l.
Proof.
  unfold strip_l.
  set (a := Py.drop_space l). set (b := Py.drop_space (rev a)).
  assert (Ha : forall c r, a = c :: r -> Py.isspace c = false).
  { intros c r. apply drop_space_head. }
  destruct (drop_space_suffix (rev a)) as [p Hp]. fold b in Hp.
  assert (Hr : Py.drop_space (rev b) = rev b).
  { apply drop_space_id. intros c r Hbr. apply (Ha c (r ++ rev p)%list).
    rewrite <- (rev_involutive a), Hp, rev_app_distr, Hbr. done. }
  rewrite Hr, rev_involutive. unfold b. by rewrite drop_space_idem.
Qed.

Lemma strip_idem (s : string) : Py.strip (Py.strip s) = Py.strip s.
Proof.
  unfold Py.strip at 1. rewrite lasc_strip. fold (strip_l (strip_l (list_ascii_of_string s))).
  rewrite strip_l_idem. unfold Py.strip, strip_l. done.
Qed.

Lemma prefix_iff (n h : string) :
  String.prefix n h = true <->
  exists b, list_ascii_of_string h = (list_ascii_of_string n ++ b)%list.
Proof.
  revert h. induction n as [|c n IH]; intros [|d h]; simpl.
  - split; [by exists []|done].
  - split; [by eexists|done].
  - split; [done|]. by intros [b Hb].
  - destruct (ascii_dec c d) as [->|Hne].
    + rewrite IH. split; intros [b Hb]; exists b; [by rewrite Hb|].
      by injection Hb.
    + split; [done|]. intros [b Hb]. by injection Hb.
Qed.

Lemma contains_iff (n h : string) :
  Py.contains n h = true <->
  exists a b, list_ascii_of_string h =
              (a ++ list_ascii_of_string n ++ b)%list.
Proof.
  induction h as [|d h IH].
  all: match goal with
       | |- Py.contains ?n' ?h' = true <-> _ =>
           change (Py.contains n' h') with
             (String.prefix n' h' || match h' with
                                     | EmptyString => false
                                     | String _ t => Py.contains n' t
                                     end)
       end.
  all: rewrite orb_true_iff, prefix_iff.
  - split.
    + intros [[b Hb]|Hf]; [exists [], b; exact Hb|discriminate].
    + intros (a & b & Hab). left. exists b.
      destruct a; [done|]. simpl in Hab. discriminate.
  - rewrite IH. split.
    + intros [[b Hb]|(a & b & Hab)]; [exists [], b; exact Hb|].
      exists (d :: a), b. simpl. by rewrite <- Hab.
    + intros ([|x a] & b & Hab); [left; by exists b|right].
      simpl in Hab. injection Hab as _ Hab. by exists a, b.
Qed.

Lemma list_prefix_iff (p l : list ascii) :
  PyStr.list_prefix p l = true <-> exists r, l = (p ++ r)%list.
Proof.
  revert l. induction p as [|c p IH]; intros [|d l]; simpl.
  - split; [by exists []|done].
  - split; [by eexists|done].
  - split; [done|]. by intros [r Hr].
  - rewrite andb_true_iff, IH. destruct (Ascii.eqb_spec c d) as [->|Hne].
    + split; [intros [_ [r Hr]]; exists r; by rewrite Hr|].
      intros [r Hr]. injection Hr as Hr. split; [done|]. by exists r.
    + split; [by intros [? _]|]. intros [r Hr]. by injection Hr.
Qed.

(** The fence [```] and its removal by [s.replace("```", "")]. *)
Definition bt : ascii := ascii_of_nat 96.
Definition fence : list ascii := [bt; bt; bt].

Lemma fence_eq : list_ascii_of_string "```" = fence.
Proof. reflexivity. Qed.

Lemma unfence_head (f : nat) (s : list ascii) :
  (forall r, s <> bt :: r) -> forall r, PyStr.replace_go f fence [] s <> bt :: r.
Proof.
  intros Hs r. destruct f as [|f]; cbn [PyStr.replace_go]; [apply Hs|].
  destruct s as [|c s']; [done|].
  destruct (PyStr.list_prefix fence (c :: s')) eqn:E.
  - apply list_prefix_iff in E as [r' Hr']. exfalso. exact (Hs _ Hr').
  - intros [= -> _]. by apply (Hs s').
Qed.

Lemma unfence_head2 (f : nat) (s : list ascii) :
  (forall r, s <> bt :: bt :: r) ->
  forall r, PyStr.replace_go f fence [] s <> bt :: bt :: r.
Proof.
  intros Hs r. destruct f as [|f]; cbn [PyStr.replace_go]; [apply Hs|].
  destruct s as [|c s']; [done|].
  destruct (PyStr.list_prefix fence (c :: s')) eqn:E.
  - apply list_prefix_iff in E as [r' Hr']. exfalso. exact (Hs _ Hr').
  - intros [= -> Hr]. revert Hr. apply unfence_head. intros r' ->. by apply (Hs r').
Qed.

Lemma unfence_no_fence (f : nat) (s : list ascii) :
  (length s <= f)%nat ->
  forall a b, PyStr.replace_go f fence [] s <> (a ++ fence ++ b)%list.
Proof.
  revert s. induction f as [|f IH]; intros s Hlen a b; cbn [PyStr.replace_go].
  - destruct s; [|simpl in Hlen; lia]. destruct a; discriminate.
  - destruct s as [|c s']; [destruct a; discriminate|].
    destruct (PyStr.list_prefix fence (c :: s')) eqn:E.
    + apply list_prefix_iff in E as [r Hr]. rewrite Hr. simpl.
      apply IH. assert (Hl : length (c :: s') = (3 + length r)%nat)
        by (rewrite Hr; reflexivity). simpl in Hl, Hlen. rewrite drop_0. lia.
    + destruct a as [|x a].
      * simpl. intros [= -> Hr]. revert Hr. apply unfence_head2.
        intros r ->.
        assert (Ht : PyStr.list_prefix fence (bt :: bt :: bt :: r) = true)
          by (apply list_prefix_iff; by exists r).
        congruence.
      * simpl. intros [= _ Hr]. revert Hr. apply IH. simpl in Hlen. lia.
Qed.

End StrFacts.

Module MoreFacts.

Lemma slice_prefix {A} (xs : list A) (m : Z) :
  (0 <= m)%Z -> Py.slice xs 0 m = take (Z.to_nat (Z.min m (Z.of_nat (length xs)))) xs.
Proof.
  intros Hm. unfold Py.slice, Py.norm_index.
  destruct (Z.ltb_spec 0 0); [lia|]. destruct (Z.ltb_spec m 0); [lia|].
  replace (Z.to_nat (Z.max 0 (Z.min 0 (Z.of_nat (length xs))))) with 0%nat by lia.
  rewrite drop_0. f_equal. lia.
Qed.

Lemma split_go_nosep (sep : ascii) (l cur x : list ascii) :
  ~ In sep cur -> In x (PyStr.split_go sep l cur) -> ~ In sep x.
Proof.
  revert cur. induction l as [|c l IH]; intros cur Hcur; simpl.
  - intros [<-|[]] Hin. apply Hcur. apply in_rev in Hin. exact Hin.
  - destruct (Ascii.eqb_spec c sep) as [->|Hne].
    + intros [<-|Hx]; [intros Hin; apply Hcur; apply in_rev in Hin; exact Hin|]. apply (IH []); [intros []|exact Hx].
    + apply IH. intros [->|Hin]; [done|]. by apply Hcur.
Qed.

End MoreFacts.

(** X1.  [redact_pii] with a non-negative [max_length] keeps a text of at
    most [max_length] characters as it is and cuts a longer one to its
    first [max_length] characters followed by ["...[REDACTED]"], so the
    logged text never exceeds [max_length + 13] characters. *)
Theorem redact_pii_truncates (text : string) (max_length : Z) :
  (0 <= max_length)%Z ->
  (String.length text <= Z.to_nat max_length ->
   Crew.redact_pii text max_length = text) /\
  (Z.to_nat max_length < String.length text ->
   Crew.redact_pii text max_length =
     substring 0 (Z.to_nat max_length) text ++ "...[REDACTED]" /\
   String.length (Crew.redact_pii text max_length) =
     (Z.to_nat max_length + 13)%nat).
Proof.
  intros Hm. unfold Crew.redact_pii. rewrite StrFacts.length_lasc.
  split; intros Hl.
  - destruct (Z.ltb_spec max_length
      (Z.of_nat (length (list_ascii_of_string text)))); [lia|done].
  - destruct (Z.ltb_spec max_length
      (Z.of_nat (length (list_ascii_of_string text)))); [|lia].
    rewrite MoreFacts.slice_prefix by done.
    replace (Z.to_nat (Z.min max_length
               (Z.of_nat (length (list_ascii_of_string text)))))
      with (Z.to_nat max_length) by lia.
    rewrite StrFacts.substring_take. split; [done|].
    rewrite StrFacts.length_lasc, StrFacts.lasc_app, length_app,
      list_ascii_of_string_of_list_ascii, length_take.
    simpl. lia.
Qed.

Lemma redact_pii_truncates_witness :
  (0 <= 5)%Z /\
  Z.to_nat 5 < String.length "alice@example.com" /\
  Crew.redact_pii "alice@example.com" 5 = "alice...[REDACTED]".
Proof.
  split; [lia|]. split; [simpl; lia|].
  destruct (redact_pii_truncates "alice@example.com" 5) as [_ H]; [lia|].
  destruct H as [-> _]; [simpl; lia|]. reflexivity.
Defined.

(** X2.  When the model's reply, once stripped, starts with ["```html"],
    the [draft_html] [drafter_node] stores contains no ["```"] fence at
    all: removing the fences left to right never creates a new one. *)
Theorem drafter_node_strips_fences (content : string) :
  String.prefix "```html" (Py.strip content) = true ->
  Py.contains "```" (Crew.drafter_node content) = false.
Proof.
  intros Hp. unfold Crew.drafter_node. rewrite Hp.
  destruct (Py.contains _ _) eqn:Hc; [|done]. exfalso.
  apply StrFacts.contains_iff in Hc as (a & b & Hab).
  rewrite StrFacts.lasc_strip, StrFacts.fence_eq in Hab.
  unfold PyStr.replace at 1 in Hab.
  rewrite list_ascii_of_string_of_list_ascii, StrFacts.fence_eq in Hab.
  cbn [list_ascii_of_string StrFacts.fence] in Hab.
  set (L := list_ascii_of_string
              (PyStr.replace (Py.strip content) "```html" "")) in Hab.
  destruct (StrFacts.strip_l_infix
              (PyStr.replace_go (length L) StrFacts.fence [] L)) as (p & q & Hpq).
  rewrite Hab in Hpq.
  apply (StrFacts.unfence_no_fence (length L) L (le_n _) (p ++ a) (b ++ q)).
  rewrite Hpq. by rewrite <- !app_assoc.
Qed.

Lemma drafter_node_strips_fences_witness :
  String.prefix "```html" (Py.strip "  ```html<p>Hi</p>```") = true /\
  Py.contains "```" (Crew.drafter_node "  ```html<p>Hi</p>```") = false.
Proof.
  split; [reflexivity|]. apply drafter_node_strips_fences. reflexivity.
Defined.

(** X3.  Every tag [upload_kb_document] parses from the comma-separated
    [tags] is non-empty, has no surrounding whitespace and holds no
    comma. *)
Theorem parse_tags_clean (tags : option string) :
  Forall (fun t => t <> "" /\ Py.strip t = t /\
                   ~ In (ascii_of_nat 44) (list_ascii_of_string t))
    (KBRoutes.parse_tags tags).
Proof.
  destruct tags as [s|]; [|constructor]. unfold KBRoutes.parse_tags.
  destruct (Py.truthy s); [|constructor].
  apply Forall_forall. intros t Ht. apply list_elem_of_In, in_flat_map in Ht
    as (piece & Hpiece & Ht).
  destruct (Py.truthy (Py.strip piece)) eqn:Htr; [|destruct Ht].
  destruct Ht as [<-|[]]. split; [|split].
  - intros He. rewrite He in Htr. discriminate.
  - apply StrFacts.strip_idem.
  - unfold PyStr.split_char in Hpiece. apply in_map_iff in Hpiece as (x & <- & Hx).
    apply MoreFacts.split_go_nosep in Hx; [|intros []].
    rewrite StrFacts.lasc_strip, list_ascii_of_string_of_list_ascii.
    destruct (StrFacts.strip_l_infix x) as (p & q & Hpq).
    intros Hin. apply Hx. rewrite Hpq. apply in_or_app. right.
    apply in_or_app. by left.
Qed.

Module ReviewFacts.
Import Review.

Lemma load_review_inr (parse_uuid : string -> option string) (db : session)
    (review_id uid u : string) (r : DraftReview) :
  load_review parse_uuid db review_id uid = inr (u, r) <->
  parse_uuid review_id = Some u /\ db !! u = Some r /\ user_id r = uid.
Proof.
  unfold load_review. destruct (parse_uuid review_id) as [u'|]; [|split; [done|]; by intros [? _]].
  destruct (db !! u') as [r'|] eqn:E; [|split; [done|]; intros (Hu & Hr & _); congruence].
  destruct (String.eqb_spec (user_id r') uid) as [Heq|Hne].
  - split; [intros [= -> ->]; done|]. intros ([= ->] & Hr & _). congruence.
  - split; [done|]. intros ([= ->] & Hr & Hid). congruence.
Qed.

(** The three actions write back the record they loaded, keeping its
    owner. *)
Lemma action_shape (parse_uuid : string -> option string) (db db' : session)
    (review_id uid : string) (r' : DraftReview) (fb notes : option string)
    (new_html : string) (t1 t2 : Z) :
  (approve_review parse_uuid db review_id uid fb t1 t2 = inr (db', r') \/
   reject_review parse_uuid db review_id uid fb t1 t2 = inr (db', r') \/
   request_edit parse_uuid db review_id uid new_html notes t2 = inr (db', r')) ->
  exists u r, load_review parse_uuid db review_id uid = inr (u, r) /\
    db' = <[u := r']> db /\ user_id r' = user_id r.
Proof.
  unfold approve_review, reject_review, review_action, request_edit.
  intros [H|[H|H]];
    destruct (load_review parse_uuid db review_id uid) as [c|[u r]] eqn:E;
    try discriminate; injection H as <- <-; by exists u, r.
Qed.

Lemma insert_in (x : DraftReview) (m : list DraftReview) (z : DraftReview) :
  In z (ReviewRoutes.insert_by_updated x m) <-> x = z \/ In z m.
Proof.
  induction m as [|y m IHm]; simpl; [tauto|].
  destruct (updated_at y <? updated_at x)%Z; simpl; [tauto|].
  rewrite IHm. tauto.
Qed.

Lemma order_in (l : list DraftReview) (r : DraftReview) :
  In r (ReviewRoutes.order_by_updated_desc l) <-> In r l.
Proof.
  unfold ReviewRoutes.order_by_updated_desc.
  induction l as [|x l IH]; simpl; [done|]. by rewrite insert_in, IH.
Qed.

Definition newer (a b : DraftReview) : Prop := (updated_at b <= updated_at a)%Z.

Lemma insert_sorted (x : DraftReview) (m : list DraftReview) :
  StronglySorted newer m -> StronglySorted newer (ReviewRoutes.insert_by_updated x m).
Proof.
  induction m as [|y m IHm]; simpl; intros Hs.
  - repeat constructor.
  - inversion Hs as [|? ? Hm Hy]; subst.
    destruct (Z.ltb_spec (updated_at y) (updated_at x)).
    + constructor; [done|]. constructor.
      * unfold newer. lia.
      * eapply Forall_impl; [exact Hy|]. unfold newer. intros z Hz. lia.
    + constructor; [by apply IHm|].
      rewrite Forall_forall in Hy |- *. intros z Hz.
      apply list_elem_of_In, insert_in in Hz as [<-|Hz]; [unfold newer; lia|].
      apply Hy. by apply list_elem_of_In.
Qed.

Lemma order_sorted (l : list DraftReview) :
  StronglySorted newer (ReviewRoutes.order_by_updated_desc l).
Proof.
  unfold ReviewRoutes.order_by_updated_desc.
  induction l as [|x l IH]; simpl; [constructor|]. by apply insert_sorted.
Qed.

Lemma truthy_true (s : string) : Py.truthy s = true <-> s <> "".
Proof. destruct s; simpl; split; done. Qed.

End ReviewFacts.

(** X4.  The review lifecycle through the routes: [create_review] under a
    fresh id stores a ["pending"] review at version 1; [request_edit] by
    its creator moves it to ["editing"] at version 2 with the new HTML;
    [approve_review] then moves it to ["approved"], keeping version 2 and
    recording [reviewed_at]; and [get_review] returns that record. *)
Theorem review_lifecycle (parse_uuid : string -> option string)
    (db : Review.session) (new_id review_id : string)
    (user : gmap string string) (thread_id draft_html new_html : string)
    (violations : list string) (fb notes : option string) (t0 t1 t2 t3 : Z) :
  db !! new_id = None -> parse_uuid review_id = Some new_id ->
  exists db1 r1 db2 r2 db3 r3,
    ReviewRoutes.create_review db new_id user thread_id draft_html violations t0
      = inr (db1, r1) /\
    Review.status r1 = "pending" /\ Review.draft_version r1 = 1%Z /\
    Review.reviewed_at r1 = None /\
    Review.request_edit parse_uuid db1 review_id (ReviewRoutes.user_sub user)
      new_html notes t1 = inr (db2, r2) /\
    Review.status r2 = "editing" /\ Review.draft_version r2 = 2%Z /\
    Review.approve_review parse_uuid db2 review_id (ReviewRoutes.user_sub user)
      fb t2 t3 = inr (db3, r3) /\
    Review.status r3 = "approved" /\ Review.draft_version r3 = 2%Z /\
    Review.draft_html r3 = new_html /\ Review.reviewed_at r3 = Some t2 /\
    ReviewRoutes.get_review parse_uuid db3 review_id user = inr r3.
Proof.
  intros Hfresh Hp. unfold ReviewRoutes.create_review. rewrite Hfresh.
  do 6 eexists. split; [reflexivity|]. do 3 (split; [reflexivity|]).
  unfold Review.request_edit, Review.load_review. rewrite Hp, lookup_insert_eq.
  simpl. rewrite String.eqb_refl. split; [reflexivity|].
  do 2 (split; [reflexivity|]).
  unfold Review.approve_review, Review.review_action, Review.load_review.
  rewrite Hp, lookup_insert_eq. simpl. rewrite String.eqb_refl.
  split; [reflexivity|]. do 4 (split; [reflexivity|]).
  unfold ReviewRoutes.get_review, Review.load_review.
  rewrite Hp, lookup_insert_eq. simpl. by rewrite String.eqb_refl.
Qed.

Lemma review_lifecycle_witness :
  exists db1 r1 db2 r2 db3 r3,
    ReviewRoutes.create_review ∅ "u1" {[ "sub" := "alice" ]} "thread-1"
      "<p>Hi</p>" [] 0 = inr (db1, r1) /\
    Review.status r1 = "pending" /\ Review.draft_version r1 = 1%Z /\
    Review.reviewed_at r1 = None /\
    Review.request_edit Some db1 "u1" (ReviewRoutes.user_sub {[ "sub" := "alice" ]})
      "<p>Hello</p>" None 1 = inr (db2, r2) /\
    Review.status r2 = "editing" /\ Review.draft_version r2 = 2%Z /\
    Review.approve_review Some db2 "u1"
      (ReviewRoutes.user_sub {[ "sub" := "alice" ]}) None 2 3 = inr (db3, r3) /\
    Review.status r3 = "approved" /\ Review.draft_version r3 = 2%Z /\
    Review.draft_html r3 = "<p>Hello</p>" /\ Review.reviewed_at r3 = Some 2%Z /\
    ReviewRoutes.get_review Some db3 "u1" {[ "sub" := "alice" ]} = inr r3.
Proof. apply review_lifecycle; reflexivity. Defined.

(** X5.  After a successful [approve_review], [reject_review] or
    [request_edit], [get_review] by the same user returns the record the
    action returned, any user with another [sub] gets 403, and every other
    review of the store is unchanged. *)
Theorem review_action_then_get (parse_uuid : string -> option string)
    (db db' : Review.session) (review_id : string) (user : gmap string string)
    (r' : Review.DraftReview) (fb notes : option string) (new_html : string)
    (t1 t2 : Z) :
  (Review.approve_review parse_uuid db review_id (ReviewRoutes.user_sub user)
     fb t1 t2 = inr (db', r') \/
   Review.reject_review parse_uuid db review_id (ReviewRoutes.user_sub user)
     fb t1 t2 = inr (db', r') \/
   Review.request_edit parse_uuid db review_id (ReviewRoutes.user_sub user)
     new_html notes t2 = inr (db', r')) ->
  ReviewRoutes.get_review parse_uuid db' review_id user = inr r' /\
  (forall user', ReviewRoutes.user_sub user' <> ReviewRoutes.user_sub user ->
     ReviewRoutes.get_review parse_uuid db' review_id user' = inl Review.HTTP_403) /\
  exists u, parse_uuid review_id = Some u /\ forall k, k <> u -> db' !! k = db !! k.
Proof.
  intros H. apply ReviewFacts.action_shape in H as (u & r & Hl & -> & Hown).
  apply ReviewFacts.load_review_inr in Hl as (Hp & Hr & Hid).
  unfold ReviewRoutes.get_review, Review.load_review.
  rewrite Hp, lookup_insert_eq, Hown, Hid, String.eqb_refl. split; [done|].
  split.
  - intros user' Hne. destruct (String.eqb_spec (ReviewRoutes.user_sub user)
                                  (ReviewRoutes.user_sub user')); [congruence|done].
  - exists u. split; [done|]. intros k Hk. by rewrite lookup_insert_ne.
Qed.

Lemma review_action_then_get_witness :
  (Review.approve_review Some {[ "u1" := Samples.review_with_status "pending" ]}
     "u1" (ReviewRoutes.user_sub {[ "sub" := "alice" ]}) None 1 2 =
   inr (<[ "u1" := Review.mkReview "alice" "thread-1" "<p>Hi</p>" 1 [] "approved"
                    None None 2 (Some 1%Z) ]> {[ "u1" := Samples.review_with_status "pending" ]},
        Review.mkReview "alice" "thread-1" "<p>Hi</p>" 1 [] "approved" None None 2
          (Some 1%Z))) /\
  ReviewRoutes.get_review Some
    (<[ "u1" := Review.mkReview "alice" "thread-1" "<p>Hi</p>" 1 [] "approved"
                  None None 2 (Some 1%Z) ]> {[ "u1" := Samples.review_with_status "pending" ]})
    "u1" {[ "sub" := "alice" ]} =
  inr (Review.mkReview "alice" "thread-1" "<p>Hi</p>" 1 [] "approved" None None 2
         (Some 1%Z)).
Proof.
  split; [reflexivity|].
  refine (proj1 (review_action_then_get Some
    {[ "u1" := Samples.review_with_status "pending" ]} _ "u1"
    {[ "sub" := "alice" ]} _ None None "" 1 2 _)).
  left. reflexivity.
Defined.

(** X6.  [list_reviews] returns exactly the stored reviews of the calling
    user that match the [status] and [intent] filters given (an empty
    filter is ignored), most recently updated first. *)
Theorem list_reviews_spec (review_intent : Review.DraftReview -> option string)
    (db : Review.session) (user : gmap string string)
    (status intent : option string) :
  let l := ReviewRoutes.list_reviews review_intent db user status intent in
  (forall r, In r l <->
     (exists k, db !! k = Some r) /\
     Review.user_id r = ReviewRoutes.user_sub user /\
     (forall s, status = Some s -> s <> "" -> Review.status r = s) /\
     (forall i, intent = Some i -> i <> "" -> review_intent r = Some i)) /\
  StronglySorted (fun a b => (Review.updated_at b <= Review.updated_at a)%Z) l.
Proof.
  intros l. split; [|apply ReviewFacts.order_sorted].
  intros r. unfold l, ReviewRoutes.list_reviews. rewrite ReviewFacts.order_in.
  rewrite filter_In, in_map_iff.
  assert (Hmem : (exists x, x.2 = r /\ In x (map_to_list db)) <->
                 exists k, db !! k = Some r).
  { split.
    - intros ([k r'] & <- & Hin). exists k.
      by apply elem_of_map_to_list, list_elem_of_In.
    - intros [k Hk]. exists (k, r). split; [done|].
      by apply list_elem_of_In, elem_of_map_to_list. }
  rewrite Hmem. apply and_iff_compat_l.
  rewrite !andb_true_iff, String.eqb_eq, Logic.and_assoc. apply and_iff_compat_l.
  split.
  - intros [Hs Hi]. split.
    + intros s -> Hne. apply ReviewFacts.truthy_true in Hne. rewrite Hne in Hs.
      by apply String.eqb_eq.
    + intros i -> Hne. apply ReviewFacts.truthy_true in Hne. rewrite Hne in Hi.
      destruct (review_intent r) as [i'|]; [|done]. apply String.eqb_eq in Hi.
      by subst.
  - intros [Hs Hi]. split.
    + destruct status as [s|]; [|done].
      destruct (Py.truthy s) eqn:Ht; [|done]. apply String.eqb_eq.
      apply Hs; [done|]. by apply ReviewFacts.truthy_true.
    + destruct intent as [i|]; [|done].
      destruct (Py.truthy i) eqn:Ht; [|done].
      rewrite (Hi i); [|done|by apply ReviewFacts.truthy_true].
      apply String.eqb_refl.
Qed.

(** X7.  [redact_user_info] maps an empty user to [{}] and any other user
    to a dict with exactly the keys ["sub"] (at most 15 characters) and
    ["email"] (always ["***@***"]); two non-empty users with the same
    [sub] entry get the same result, whatever their email or other
    fields. *)
Theorem redact_user_info_hides (u1 u2 : gmap string string) :
  ReviewRoutes.redact_user_info ∅ = ∅ /\
  (u1 <> ∅ ->
   dom (ReviewRoutes.redact_user_info u1) = {[ "sub"; "email" ]} /\
   ReviewRoutes.redact_user_info u1 !! "email" = Some "***@***" /\
   exists s, ReviewRoutes.redact_user_info u1 !! "sub" = Some s /\
             (String.length s <= 15)%nat) /\
  (u1 <> ∅ -> u2 <> ∅ -> u1 !! "sub" = u2 !! "sub" ->
   ReviewRoutes.redact_user_info u1 = ReviewRoutes.redact_user_info u2).
Proof.
  unfold ReviewRoutes.redact_user_info. split; [done|]. split.
  - intros Hne. destruct (decide (u1 = ∅)) as [|_]; [done|].
    split; [|split].
    + rewrite dom_insert_L, dom_singleton_L. set_solver.
    + by rewrite lookup_insert_ne, lookup_singleton_eq.
    + eexists. split; [by rewrite lookup_insert_eq|].
      rewrite StrFacts.length_lasc, StrFacts.lasc_app, length_app,
        list_ascii_of_string_of_list_ascii, MoreFacts.slice_prefix by lia.
      rewrite length_take. simpl. lia.
  - intros H1 H2 Hs. destruct (decide (u1 = ∅)); [done|].
    destruct (decide (u2 = ∅)); [done|]. by rewrite Hs.
Qed.


(** X8.  [ensure_collection_exists] never drops or changes a collection
    that exists, leaves the named one present (empty when it was missing),
    and a second call only lists the collections. *)
Theorem ensure_collection_exists_frame (w : KB.World) (name : string) :
  (forall c P, KB.collections w !! c = Some P ->
     KB.collections (KB.ensure_collection_exists w name) !! c = Some P) /\
  KB.collections (KB.ensure_collection_exists w name) !! name =
    Some (default ∅ (KB.collections w !! name)) /\
  KB.ensure_collection_exists (KB.ensure_collection_exists w name) name =
    KB.log (KB.ensure_collection_exists w name) KB.GetCollections.
Proof.
  split; [|split].
  - intros c P HP. rewrite KBMore2.ensure_as_insert.
    destruct (decide (c = name)) as [->|Hne].
    + by rewrite lookup_insert_eq, HP.
    + by rewrite lookup_insert_ne.
  - rewrite KBMore2.ensure_as_insert. by rewrite lookup_insert_eq.
  - destruct (KBFacts.ensure_present w name) as [P HP].
    set (w1 := KB.ensure_collection_exists w name) in *.
    unfold KB.ensure_collection_exists.
    replace (KB.collections (KB.log w1 KB.GetCollections))
      with (KB.collections w1) by done.
    rewrite HP. reflexivity.
Qed.

(** X9.  [generate_embeddings] with a positive batch size cuts the texts,
    in order, into consecutive batches of at most [batch_size] texts, all
    full but the last, and never touches the collections.  When it
    returns, it has sent one [embeddings.create] call per batch, in
    order, and returns the concatenation of the answers, the [i]-th batch
    answered after the calls of the batches before it; when it raises,
    some batch failed after all the batches before it were answered, and
    no later batch was sent.  With an endpoint that answers one vector
    per text, it returns one vector per text. *)
Theorem generate_embeddings_batches
    (embed_batch : list KB.call -> list string -> option (list KB.vector))
    (w : KB.World) (texts : list string) (batch_size : nat) :
  (0 < batch_size)%nat ->
  exists bs,
    concat bs = texts /\
    Forall (fun b => (0 < length b <= batch_size)%nat) bs /\
    (forall i b, bs !! i = Some b -> (S i < length bs)%nat ->
       length b = batch_size) /\
    let '(w', r) := KB.generate_embeddings embed_batch w texts batch_size in
    KB.collections w' = KB.collections w /\
    (forall vs, r = Some vs ->
       KB.calls w' = (KB.calls w ++ map KB.EmbeddingsCreate bs)%list /\
       exists ess, length ess = length bs /\ vs = concat ess /\
         forall i b es, bs !! i = Some b -> ess !! i = Some es ->
           embed_batch (KB.calls w ++ map KB.EmbeddingsCreate (take i bs))%list b
             = Some es) /\
    (r = None ->
       exists i b, bs !! i = Some b /\
         embed_batch (KB.calls w ++ map KB.EmbeddingsCreate (take i bs))%list b
           = None /\
         (forall j b', (j < i)%nat -> bs !! j = Some b' ->
            is_Some (embed_batch (KB.calls w ++
                                  map KB.EmbeddingsCreate (take j bs))%list b')) /\
         KB.calls w' = (KB.calls w ++ map KB.EmbeddingsCreate (take (S i) bs))%list) /\
    (KB.embeddings_contract embed_batch ->
     forall vs, r = Some vs -> length vs = length texts).
Proof.
  intros Hn. exists (KB.batches batch_size texts).
  destruct (KBMore.batches_spec batch_size texts Hn) as (Hc & Hf & Hfull).
  split; [done|]. split; [done|]. split; [done|].
  destruct (KB.generate_embeddings embed_batch w texts batch_size) as [w' r] eqn:E.
  pose proof E as E'. rewrite KBMore.generate_embeddings_batches_eq in E'.
  destruct (KBMore.embed_batches_spec _ _ _ _ _ E') as (Hcol & Hsome & Hnone).
  split; [done|]. split; [done|]. split; [done|].
  intros Hcon vs ->. exact (KBMore.generate_embeddings_length _ _ _ _ _ _ Hcon Hn E).
Qed.

Lemma generate_embeddings_batches_witness :
  (0 < 2)%nat /\
  exists bs,
    concat bs = ["a"; "b"; "c"] /\
    Forall (fun b => (0 < length b <= 2)%nat) bs /\
    (forall i b, bs !! i = Some b -> (S i < length bs)%nat -> length b = 2%nat) /\
    let '(w', r) := KB.generate_embeddings Samples.flaky_embed Samples.empty_world
                      ["a"; "b"; "c"] 2 in
    KB.collections w' = KB.collections Samples.empty_world /\
    (forall vs, r = Some vs ->
       KB.calls w' = (KB.calls Samples.empty_world ++ map KB.EmbeddingsCreate bs)%list /\
       exists ess, length ess = length bs /\ vs = concat ess /\
         forall i b es, bs !! i = Some b -> ess !! i = Some es ->
           Samples.flaky_embed (KB.calls Samples.empty_world ++
                                map KB.EmbeddingsCreate (take i bs))%list b
             = Some es) /\
    (r = None ->
       exists i b, bs !! i = Some b /\
         Samples.flaky_embed (KB.calls Samples.empty_world ++
                              map KB.EmbeddingsCreate (take i bs))%list b = None /\
         (forall j b', (j < i)%nat -> bs !! j = Some b' ->
            is_Some (Samples.flaky_embed (KB.calls Samples.empty_world ++
                                  map KB.EmbeddingsCreate (take j bs))%list b')) /\
         KB.calls w' = (KB.calls Samples.empty_world ++
                        map KB.EmbeddingsCreate (take (S i) bs))%list) /\
    (KB.embeddings_contract Samples.flaky_embed ->
     forall vs, r = Some vs -> length vs = length ["a"; "b"; "c"]).
Proof.
  split; [lia|].
  apply (generate_embeddings_batches Samples.flaky_embed Samples.empty_world
           ["a"; "b"; "c"] 2). lia.
Defined.

(** X10.  [upsert_document] never loops.  When it returns, it has changed
    only the target collection, which it leaves present; it never removes
    a point id already there; and every point it adds or replaces has the
    payload the call asked for, a [created_at] read from the clock, the id
    [uuid5(content_hash)] and the hash the SHA-256 of its content.  When it
    raises, the store is as [ensure_collection_exists] left it. *)
Theorem upsert_document_writes (sha256_hex : string -> string)
    (tiktoken : option Chunker.Encoding) (uuid5_dns : string -> string)
    (embed_batch : list KB.call -> list string -> option (list KB.vector))
    (w : KB.World) (text ws source : string) (title url : option string)
    (tags : option (list string)) (cn : option string) (now : nat -> string) :
  let coll := KB.collection_or_default cn in
  let '(w', r) := KB.upsert_document sha256_hex tiktoken uuid5_dns embed_batch w
                    text ws source title url tags cn now in
  match r with
  | Py.Loops => False
  | Py.Raises _ =>
      KB.collections w' = KB.collections (KB.ensure_collection_exists w coll)
  | Py.Returns _ =>
      (forall c, c <> coll -> KB.collections w' !! c = KB.collections w !! c) /\
      exists P', KB.collections w' !! coll = Some P' /\
        (forall id, is_Some (default ∅ (KB.collections w !! coll) !! id) ->
                    is_Some (P' !! id)) /\
        (forall id p, P' !! id = Some p ->
           default ∅ (KB.collections w !! coll) !! id = Some p \/
           (KB.point_id p = id /\
            id = uuid5_dns (KB.Payload.content_hash (KB.point_payload p)) /\
            KB.Payload.content_hash (KB.point_payload p) =
              sha256_hex (KB.Payload.content (KB.point_payload p)) /\
            KB.Payload.workspace_id (KB.point_payload p) = ws /\
            KB.Payload.source (KB.point_payload p) = source /\
            KB.Payload.title (KB.point_payload p) = title /\
            KB.Payload.url (KB.point_payload p) = url /\
            KB.Payload.tags (KB.point_payload p) =
              match tags with Some t => t | None => [] end /\
            exists i, KB.Payload.created_at (KB.point_payload p) = now i))
  end.
Proof.
  intros coll.
  destruct (KB.upsert_document sha256_hex tiktoken uuid5_dns embed_batch w text
              ws source title url tags cn now) as [w' [st|e|]] eqn:H.
  - destruct (KBMore2.upsert_document_returns _ _ _ _ _ _ _ _ _ _ _ _ _ _ _ H)
      as (chunks & es & Hch & _ & Hw' & _).
    fold coll in Hw'. rewrite Hw'. split.
    { intros c Hc. by rewrite lookup_insert_ne. }
    eexists. rewrite lookup_insert_eq. split; [reflexivity|]. split.
    { intros id. apply KBMore.upsert_points_keep. }
    intros id p Hp. apply KBMore.upsert_points_lookup in Hp as [Hp|[Hin Hid]].
    { by left. }
    right. apply KBMore2.make_points_in in Hin as (j & c & e & Hc & _ & ->).
    assert (Hh : Chunker.content_hash c = sha256_hex (Chunker.content c)).
    { pose proof (KBFacts.chunk_text_hashes _ _ _ _ _ _ _ Hch) as Hall.
      rewrite Forall_forall in Hall. apply Hall.
      apply (elem_of_sublist _ _ _ (list_elem_of_lookup_2 _ _ _ Hc)
               (DedupFacts.dedup_go_sublist ∅ chunks)). }
    simpl in Hid |- *. unfold KB.chunk_point_id in Hid.
    subst id. repeat split; try done. by eexists.
  - exact (proj1 (KBMore2.upsert_document_raises _ _ _ _ _ _ _ _ _ _ _ _ _ _ _ H)).
  - pose proof (KBMore2.upsert_document_not_loops sha256_hex tiktoken uuid5_dns
      embed_batch w text ws source title url tags cn now) as Hnl.
    by rewrite H in Hnl.
Qed.

(** X11.  With an endpoint that answers one vector per text, every chunk
    the chunker cuts from the document ends up stored once
    [upsert_document] returns: the target collection holds a point of the
    requested workspace and source under the id [uuid5(sha256(content))]
    of that chunk, with a [created_at] read from the clock. *)
Theorem upsert_document_stores (sha256_hex : string -> string)
    (tiktoken : option Chunker.Encoding) (uuid5_dns : string -> string)
    (embed_batch : list KB.call -> list string -> option (list KB.vector))
    (w : KB.World) (text ws source : string) (title url : option string)
    (tags : option (list string)) (cn : option string) (now : nat -> string)
    (w' : KB.World) (st : KB.UploadStats) :
  KB.embeddings_contract embed_batch ->
  KB.upsert_document sha256_hex tiktoken uuid5_dns embed_batch w text ws source
    title url tags cn now = (w', Py.Returns st) ->
  exists chunks,
    Chunker.chunk_text sha256_hex tiktoken (S (Chunker.n_units tiktoken text))
      text 800 200 = Py.Returns chunks /\
    forall c, In c chunks ->
      exists P' p, KB.collections w' !! KB.collection_or_default cn = Some P' /\
        P' !! uuid5_dns (sha256_hex (Chunker.content c)) = Some p /\
        KB.Payload.workspace_id (KB.point_payload p) = ws /\
        KB.Payload.source (KB.point_payload p) = source /\
        exists i, KB.Payload.created_at (KB.point_payload p) = now i.
Proof.
  intros Hcon H.
  destruct (KBMore2.upsert_document_returns _ _ _ _ _ _ _ _ _ _ _ _ _ _ _ H)
    as (chunks & es & Hch & Hcase & Hw' & _).
  exists chunks. split; [done|]. intros c Hc.
  rewrite Hw', lookup_insert_eq.
  set (ds := Chunker.deduplicate_chunks chunks) in *.
  pose proof (KBFacts.chunk_text_hashes _ _ _ _ _ _ _ Hch) as Hall.
  rewrite Forall_forall in Hall.
  assert (Hcov : Chunker.content_hash c ∈ map Chunker.content_hash ds).
  { apply DedupFacts.dedup_go_cover; [|set_solver].
    apply list_elem_of_fmap. exists c. split; [done|]. by apply list_elem_of_In. }
  apply list_elem_of_fmap in Hcov as (c' & Hhash & Hc').
  assert (Hlen : length es = length ds).
  { destruct Hcase as [(Hd & _)|(w2 & _ & Hge & _)].
    - rewrite Hd in Hc'. set_solver.
    - rewrite (KBMore.generate_embeddings_length _ _ _ _ 100 _ Hcon ltac:(lia) Hge).
      apply length_map. }
  apply list_elem_of_lookup in Hc' as [j Hj].
  assert (Hjl : (j < length es)%nat).
  { rewrite Hlen. by apply lookup_lt_Some in Hj. }
  destruct (KBMore2.make_points_has uuid5_dns ws source title url
              (match tags with Some t => t | None => [] end) now ds 0 es j c'
              Hj Hjl) as (e & _ & Hin).
  destruct (KBMore.upsert_points_has (default ∅ (KB.collections w
              !! KB.collection_or_default cn)) _ _ Hin) as (q & Hq & Hinq & _).
  eexists _, q. split; [done|]. split.
  - rewrite <- Hq. simpl. unfold KB.chunk_point_id.
    rewrite <- Hhash. rewrite (Hall c) by (by apply list_elem_of_In). done.
  - apply KBMore2.make_points_in in Hinq as (j' & x & y & _ & _ & ->). simpl.
    split; [done|]. split; [done|]. by eexists.
Qed.

Lemma upsert_document_stores_witness :
  KB.embeddings_contract Samples.unit_embed /\
  exists w' st,
  KB.upsert_document (fun s => s) (Some Samples.char_encoding) (fun s => s)
    Samples.unit_embed Samples.mixed_world "refund policy" "ws-a" "upload"
    None None None None Samples.clock = (w', Py.Returns st) /\
  exists chunks,
    Chunker.chunk_text (fun s => s) (Some Samples.char_encoding)
      (S (Chunker.n_units (Some Samples.char_encoding) "refund policy"))
      "refund policy" 800 200 = Py.Returns chunks /\
    forall c, In c chunks ->
      exists P' p, KB.collections w' !! KB.collection_or_default None = Some P' /\
        P' !! Chunker.content c = Some p /\
        KB.Payload.workspace_id (KB.point_payload p) = "ws-a" /\
        KB.Payload.source (KB.point_payload p) = "upload" /\
        exists i, KB.Payload.created_at (KB.point_payload p) = Samples.clock i.
Proof.
  assert (Hcon : KB.embeddings_contract Samples.unit_embed).
  { intros h b es [= <-]. apply length_map. }
  split; [exact Hcon|].
  do 2 eexists. split; [vm_compute; reflexivity|].
  eapply (upsert_document_stores (fun s => s) (Some Samples.char_encoding)
    (fun s => s) Samples.unit_embed Samples.mixed_world "refund policy" "ws-a"
    "upload" None None None None Samples.clock); [exact Hcon|].
  vm_compute. reflexivity.
Defined.

(** X12.  [search_kb] sends one [embeddings.create] call on [[query]];
    when it fails, [search_kb] raises that error and sends nothing else;
    otherwise it sends one search to the collection with the first
    returned vector, and raises Qdrant's error when the collection is
    missing or returns the converted hits.  It never changes the
    collections. *)
Theorem search_kb_effects
    (embed_batch : list KB.call -> list string -> option (list KB.vector))
    (qdrant_search : gmap string KB.Point -> KB.SearchRequest -> list KB.Hit)
    (w : KB.World) (query ws : string) (k : Z) (wv : bool) (cn : option string) :
  let coll := KB.collection_or_default cn in
  let '(w', r) := KB.search_kb embed_batch qdrant_search w query ws k wv cn in
  KB.collections w' = KB.collections w /\
  match embed_batch (KB.calls w) [query] with
  | None =>
      KB.calls w' = (KB.calls w ++ [KB.EmbeddingsCreate [query]])%list /\
      r = inl Py.APIError
  | Some es =>
      let req := KB.search_request (hd [] es) ws k wv in
      KB.calls w' =
        (KB.calls w ++ [KB.EmbeddingsCreate [query]; KB.SearchPoints coll req])%list /\
      r = match KB.collections w !! coll with
          | None => inl Py.UnexpectedResponse
          | Some P => inr (map KB.to_result (qdrant_search P req))
          end
  end.
Proof.
  intros coll. rewrite RouteFacts.search_kb_eq.
  destruct (embed_batch (KB.calls w) [query]) as [es|]; simpl; [|done].
  split; [done|]. split; [by rewrite <- app_assoc|done].
Qed.

(** X13.  [upload_kb_document] never loops.  It answers 400 and leaves
    the store untouched exactly when the content type is not one of the
    three allowed ones, the file is over 10 MiB, the text extraction
    fails or the extracted text is blank; otherwise it runs
    [upsert_document] on the extracted text with source ["upload"], no
    collection name and the parsed tags, and returns its statistics when
    it returns, or answers 500 when it raises. *)
Theorem upload_kb_document_outcome (sha256_hex : string -> string)
    (tiktoken : option Chunker.Encoding) (uuid5_dns : string -> string)
    (embed_batch : list KB.call -> list string -> option (list KB.vector))
    (w : KB.World) (file_type : option string) (size : Z)
    (extracted filename : option string) (ws : string)
    (title url tags : option string) (now : nat -> string) :
  let good := (exists t, file_type = Some t /\ In t KBRoutes.ALLOWED_FILE_TYPES) /\
              (size <= KBRoutes.MAX_FILE_SIZE)%Z in
  match KBRoutes.upload_kb_document sha256_hex tiktoken uuid5_dns embed_batch w
          file_type size extracted filename ws title url tags now with
  | None => False
  | Some (w', inl code) =>
      (w' = w /\ code = KBRoutes.HTTP_400 /\
       ((forall t, file_type = Some t -> ~ In t KBRoutes.ALLOWED_FILE_TYPES) \/
        (KBRoutes.MAX_FILE_SIZE < size)%Z \/ extracted = None \/
        (exists t, extracted = Some t /\ Py.truthy (Py.strip t) = false))) \/
      (code = KBRoutes.HTTP_500 /\ good /\
       exists text title' e,
         extracted = Some text /\ Py.truthy (Py.strip text) = true /\
         KB.upsert_document sha256_hex tiktoken uuid5_dns embed_batch w text ws
           "upload" (Some title') url (Some (KBRoutes.parse_tags tags)) None now
           = (w', Py.Raises e))
  | Some (w', inr stats) =>
      good /\
      exists text title',
        extracted = Some text /\ Py.truthy (Py.strip text) = true /\
        KB.upsert_document sha256_hex tiktoken uuid5_dns embed_batch w text ws
          "upload" (Some title') url (Some (KBRoutes.parse_tags tags)) None now
          = (w', Py.Returns stats)
  end.
Proof.
  intros good. unfold KBRoutes.upload_kb_document.
  destruct (match file_type with
            | Some t => existsb (String.eqb t) KBRoutes.ALLOWED_FILE_TYPES
            | None => false
            end) eqn:Hallowed; cbn [negb].
  2:{ left. split; [done|]. split; [done|]. left. intros t -> Hin.
      assert (existsb (String.eqb t) KBRoutes.ALLOWED_FILE_TYPES = true) as Ht.
      { apply existsb_exists. exists t. split; [done|]. apply String.eqb_refl. }
      congruence. }
  assert (Hft : exists t, file_type = Some t /\ In t KBRoutes.ALLOWED_FILE_TYPES).
  { destruct file_type as [t|]; [|discriminate].
    apply existsb_exists in Hallowed as (t' & Hin & Heq).
    apply String.eqb_eq in Heq. subst t'. by exists t. }
  destruct (Z.ltb_spec KBRoutes.MAX_FILE_SIZE size) as [Hsz|Hsz].
  { left. split; [done|]. split; [done|]. right. by left. }
  assert (Hgood : good) by (split; done).
  destruct extracted as [text|].
  2:{ left. split; [done|]. split; [done|]. right. right. by left. }
  destruct (Py.truthy (Py.strip text)) eqn:Htext; cbn [negb].
  2:{ left. split; [done|]. split; [done|]. right. right. right. by exists text. }
  match goal with
  | |- match match KB.upsert_document _ _ _ _ _ _ _ _ (Some ?tt) _ _ _ _ with _ => _ end
       with _ => _ end => set (title' := tt)
  end.
  destruct (KB.upsert_document sha256_hex tiktoken uuid5_dns embed_batch w text ws
              "upload" (Some title') url (Some (KBRoutes.parse_tags tags)) None now)
    as [w' [stats|e|]] eqn:Hup.
  - split; [done|]. exists text, title'. done.
  - right. split; [done|]. split; [done|]. by exists text, title', e.
  - pose proof (KBMore2.upsert_document_not_loops sha256_hex tiktoken uuid5_dns
      embed_batch w text ws "upload" (Some title') url
      (Some (KBRoutes.parse_tags tags)) None now) as Hnl.
    by rewrite Hup in Hnl.
Qed.

(** X14.  [search_kb_endpoint] answers 422 without any call when [k] is
    outside [1, 50], and 500 exactly when [search_kb] raises; it never
    changes the collections; with a search engine that honours the Qdrant
    contract it returns at most [k] results, all of the requested
    workspace. *)
Theorem search_kb_endpoint_outcome
    (embed_batch : list KB.call -> list string -> option (list KB.vector))
    (qdrant_search : gmap string KB.Point -> KB.SearchRequest -> list KB.Hit)
    (w : KB.World) (q ws : string) (k : Z) (wv : bool) :
  KB.qdrant_contract qdrant_search ->
  match KBRoutes.search_kb_endpoint embed_batch qdrant_search w q ws k wv with
  | (w', inl code) =>
      (code = KBRoutes.HTTP_422 /\ w' = w /\ ~ (1 <= k <= 50)%Z) \/
      (code = KBRoutes.HTTP_500 /\ (1 <= k <= 50)%Z /\
       (exists e, KB.search_kb embed_batch qdrant_search w q ws k wv None
                  = (w', inl e)) /\
       KB.collections w' = KB.collections w)
  | (w', inr results) =>
      (1 <= k <= 50)%Z /\
      KB.search_kb embed_batch qdrant_search w q ws k wv None = (w', inr results) /\
      KB.collections w' = KB.collections w /\
      (length results <= Z.to_nat k)%nat /\
      Forall (fun r => KB.KBSearchResult.workspace_id r = ws) results
  end.
Proof.
  intros Hc. unfold KBRoutes.search_kb_endpoint.
  destruct (Z.leb_spec 1 k); destruct (Z.leb_spec k 50); cbn [andb];
    try (left; split; [done|]; split; [done|]; lia).
  pose proof (RouteFacts.search_kb_collections embed_batch qdrant_search w q ws k
                wv None) as Hcol.
  destruct (KB.search_kb embed_batch qdrant_search w q ws k wv None)
    as [w' [e|results]] eqn:Hs.
  - right. split; [done|]. split; [lia|]. split; [by exists e|done].
  - destruct (RouteFacts.search_kb_inr _ _ _ _ _ _ _ _ _ _ Hs)
      as (P & qv & _ & _ & ->).
    split; [lia|]. split; [done|]. split; [done|].
    by apply RouteFacts.contract_results.
Qed.

Lemma search_kb_endpoint_outcome_witness :
  KB.qdrant_contract Samples.filter_search /\
  match KBRoutes.search_kb_endpoint Samples.unit_embed Samples.filter_search
          Samples.mixed_world "refund policy" "ws-a" 3 false with
  | (w', inl code) =>
      (code = KBRoutes.HTTP_422 /\ w' = Samples.mixed_world /\ ~ (1 <= 3 <= 50)%Z) \/
      (code = KBRoutes.HTTP_500 /\ (1 <= 3 <= 50)%Z /\
       (exists e, KB.search_kb Samples.unit_embed Samples.filter_search
                    Samples.mixed_world "refund policy" "ws-a" 3 false None
                  = (w', inl e)) /\
       KB.collections w' = KB.collections Samples.mixed_world)
  | (w', inr results) =>
      (1 <= 3 <= 50)%Z /\
      KB.search_kb Samples.unit_embed Samples.filter_search Samples.mixed_world
        "refund policy" "ws-a" 3 false None = (w', inr results) /\
      KB.collections w' = KB.collections Samples.mixed_world /\
      (length results <= Z.to_nat 3)%nat /\
      Forall (fun r => KB.KBSearchResult.workspace_id r = "ws-a") results
  end.
Proof.
  split; [exact KBFacts.filter_search_contract|].
  apply search_kb_endpoint_outcome. exact KBFacts.filter_search_contract.
Defined.

(** X15.  [context_builder_node] never changes the collections and, with
    a search engine that honours the Qdrant contract, stores at most five
    snippets, each the formatting of a search result of the requested
    workspace, which is non-empty; without a workspace it makes no call. *)
Theorem context_builder_node_snippets
    (embed_batch : list KB.call -> list string -> option (list KB.vector))
    (qdrant_search : gmap string KB.Point -> KB.SearchRequest -> list KB.Hit)
    (w : KB.World) (message_summary : string) (workspace_id : option string) :
  KB.qdrant_contract qdrant_search ->
  let '(w', snippets) :=
    Crew.context_builder_node embed_batch qdrant_search w message_summary
      workspace_id in
  KB.collections w' = KB.collections w /\
  (length snippets <= 5)%nat /\
  Forall (fun s => exists r, s = Crew.format_snippet r /\
            workspace_id = Some (KB.KBSearchResult.workspace_id r) /\
            Py.truthy (KB.KBSearchResult.workspace_id r) = true) snippets /\
  (w' = w \/ exists ws, workspace_id = Some ws /\ Py.truthy ws = true).
Proof.
  intros Hc. unfold Crew.context_builder_node.
  destruct workspace_id as [ws|];
    [|split; [done|]; split; [simpl; lia|]; split; [constructor|]; by left].
  destruct (Py.truthy ws) eqn:Hws;
    [|split; [done|]; split; [simpl; lia|]; split; [constructor|]; by left].
  pose proof (RouteFacts.search_kb_collections embed_batch qdrant_search w
                message_summary ws 5 false None) as Hcol.
  destruct (KB.search_kb embed_batch qdrant_search w message_summary ws 5 false None)
    as [w' [e|results]] eqn:Hs.
  - split; [done|]. split; [simpl; lia|]. split; [constructor|].
    right. by exists ws.
  - destruct (RouteFacts.search_kb_inr _ _ _ _ _ _ _ _ _ _ Hs)
      as (P & qv & _ & _ & ->).
    destruct (RouteFacts.contract_results qdrant_search P qv ws 5 false Hc)
      as [Hlen Hall].
    split; [done|]. split; [rewrite length_map; simpl in Hlen; lia|].
    split; [|right; by exists ws].
    apply Forall_forall. intros s Hs'. apply list_elem_of_fmap in Hs' as (r & -> & Hr).
    rewrite Forall_forall in Hall. exists r. split; [done|].
    rewrite (Hall r Hr). done.
Qed.

Lemma context_builder_node_snippets_witness :
  KB.qdrant_contract Samples.filter_search /\
  let '(w', snippets) :=
    Crew.context_builder_node Samples.unit_embed Samples.filter_search
      Samples.mixed_world "refund policy" (Some "ws-a") in
  KB.collections w' = KB.collections Samples.mixed_world /\
  (length snippets <= 5)%nat /\
  Forall (fun s => exists r, s = Crew.format_snippet r /\
            Some "ws-a" = Some (KB.KBSearchResult.workspace_id r) /\
            Py.truthy (KB.KBSearchResult.workspace_id r) = true) snippets /\
  (w' = Samples.mixed_world \/ exists ws, Some "ws-a" = Some ws /\ Py.truthy ws = true).
Proof.
  split; [exact KBFacts.filter_search_contract|].
  apply (context_builder_node_snippets Samples.unit_embed Samples.filter_search
           Samples.mixed_world "refund policy" (Some "ws-a")).
  exact KBFacts.filter_search_contract.
Defined.

Module WorkspaceFacts.
Import Crew.

Lemma find_settings_some (rows : list WorkspaceSettings) (ws : string)
    (r : WorkspaceSettings) :
  find_settings rows ws = Some r -> In r rows /\ ws_workspace_id r = ws.
Proof.
  unfold find_settings. intros H. apply List.find_some in H as [Hin Heq].
  apply String.eqb_eq in Heq. done.
Qed.

Lemma stub_in (ws : string) :
  In (match find_settings DEFAULT_WORKSPACE_SETTINGS ws with
      | Some s => s
      | None => default_settings
      end) DEFAULT_WORKSPACE_SETTINGS /\
  (ws_workspace_id (match find_settings DEFAULT_WORKSPACE_SETTINGS ws with
                    | Some s => s
                    | None => default_settings
                    end) = ws \/
   ws_workspace_id (match find_settings DEFAULT_WORKSPACE_SETTINGS ws with
                    | Some s => s
                    | None => default_settings
                    end) = "default").
Proof.
  destruct (find_settings DEFAULT_WORKSPACE_SETTINGS ws) as [s|] eqn:E.
  - apply find_settings_some in E as [Hin Hid]. tauto.
  - split; [by left|]. by right.
Qed.


End WorkspaceFacts.



(** X17.  When the settings table cannot be read, or holds neither a row
    for the requested workspace (["default"] when none is given) nor a
    ["default"] row, whatever other rows it holds,
    [get_workspace_settings] returns one of the two built-in stubs, so its
    blocklist is never empty. *)
Theorem get_workspace_settings_stub
    (db : option (list Crew.WorkspaceSettings)) (workspace_id : option string) :
  let ws := match workspace_id with
            | Some s => if Py.truthy s then s else "default"
            | None => "default"
            end in
  (forall rows, db = Some rows ->
     Crew.find_settings rows ws = None /\ Crew.find_settings rows "default" = None) ->
  exists s, In s Crew.DEFAULT_WORKSPACE_SETTINGS /\
    Crew.get_workspace_settings db workspace_id =
      Crew.mkWorkspaceConfig (Crew.ws_workspace_id s) (Crew.ws_tone_level s)
        (Crew.ws_style_json s) (Crew.ws_blocklist_json s)
        (Crew.ws_approval_threshold s) /\
    Crew.blocklist (Crew.get_workspace_settings db workspace_id) <> [].
Proof.
  intros ws Hnone. unfold Crew.get_workspace_settings. cbv zeta. fold ws.
  assert (Hdb : match db with
                | None => None
                | Some rows =>
                    match Crew.find_settings rows ws with
                    | Some r =>
                        Some (Crew.mkWorkspaceConfig (Crew.ws_workspace_id r)
                          (Crew.ws_tone_level r) (Crew.ws_style_json r)
                          (Crew.ws_blocklist_json r) (Crew.ws_approval_threshold r))
                    | None =>
                        if negb (String.eqb ws "default") then
                          match Crew.find_settings rows "default" with
                          | Some r =>
                              Some (Crew.mkWorkspaceConfig "default"
                                (Crew.ws_tone_level r) (Crew.ws_style_json r)
                                (Crew.ws_blocklist_json r)
                                (Crew.ws_approval_threshold r))
                          | None => None
                          end
                        else None
                    end
                end = None).
  { destruct db as [rows|]; [|done].
    destruct (Hnone rows eq_refl) as [-> Hd].
    destruct (negb _); [|done]. by rewrite Hd. }
  rewrite Hdb. clear Hdb.
  destruct (WorkspaceFacts.stub_in ws) as [Hin _].
  eexists. split; [exact Hin|]. split; [reflexivity|].
  cbn [Crew.blocklist].
  destruct Hin as [<-|[<-|[]]]; discriminate.
Qed.

Lemma get_workspace_settings_stub_witness :
  let other := Crew.mkWorkspaceSettings "ws-other" 4 (Classifier.JObj []) []
                 None in
  (forall rows, Some [other] = Some rows ->
     Crew.find_settings rows "ws-a" = None /\
     Crew.find_settings rows "default" = None) /\
  exists s, In s Crew.DEFAULT_WORKSPACE_SETTINGS /\
    Crew.get_workspace_settings (Some [other]) (Some "ws-a") =
      Crew.mkWorkspaceConfig (Crew.ws_workspace_id s) (Crew.ws_tone_level s)
        (Crew.ws_style_json s) (Crew.ws_blocklist_json s)
        (Crew.ws_approval_threshold s) /\
    Crew.blocklist (Crew.get_workspace_settings (Some [other]) (Some "ws-a")) <> [].
Proof.
  intros other.
  assert (H : forall rows, Some [other] = Some rows ->
     Crew.find_settings rows "ws-a" = None /\
     Crew.find_settings rows "default" = None).
  { intros rows [= <-]. split; reflexivity. }
  split; [exact H|].
  exact (get_workspace_settings_stub (Some [other]) (Some "ws-a") H).
Defined.

Module MiscFacts.

Lemma dedup_go_id (seen : gset string) (l : list Chunker.Chunk) :
  NoDup (map Chunker.content_hash l) ->
  (forall c, c ∈ l -> Chunker.content_hash c ∉ seen) ->
  Chunker.dedup_go seen l = l.
Proof.
  revert seen. induction l as [|c l IH]; intros seen Hnd Hfresh; simpl; [done|].
  simpl in Hnd. apply NoDup_cons in Hnd as [Hc Hnd].
  case_decide as Hin.
  { exfalso. apply (Hfresh c); [apply elem_of_cons; by left|done]. }
  f_equal. apply IH; [done|].
  intros c' Hc'. apply not_elem_of_union. split.
  - rewrite not_elem_of_singleton. intros Heq. apply Hc.
    apply list_elem_of_fmap. exists c'. done.
  - apply Hfresh. apply elem_of_cons. by right.
Qed.

Lemma lower_char_idem (c : ascii) : Py.lower_char (Py.lower_char c) = Py.lower_char c.
Proof. destruct c as [[] [] [] [] [] [] [] []]; reflexivity. Qed.

Lemma lower_idem (s : string) : Py.lower (Py.lower s) = Py.lower s.
Proof. induction s as [|c s IH]; simpl; [done|]. by rewrite lower_char_idem, IH. Qed.

End MiscFacts.

(** X18.  [deduplicate_chunks] is idempotent: deduplicating its output
    changes nothing. *)
Theorem deduplicate_chunks_idem (chunks : list Chunker.Chunk) :
  Chunker.deduplicate_chunks (Chunker.deduplicate_chunks chunks) =
  Chunker.deduplicate_chunks chunks.
Proof.
  unfold Chunker.deduplicate_chunks at 1. apply MiscFacts.dedup_go_id.
  - apply DedupFacts.dedup_go_nodup.
  - intros c _. set_solver.
Qed.

(** X19.  [policy_guard_node] over a concatenated blocklist reports the
    violations of the first part followed by those of the second. *)
Theorem policy_guard_node_app (draft : string) (bl1 bl2 : list string) :
  PolicyGuard.policy_guard_node draft (bl1 ++ bl2) =
  (PolicyGuard.policy_guard_node draft bl1 ++
   PolicyGuard.policy_guard_node draft bl2)%list.
Proof.
  rewrite !PolicyGuardFacts.policy_guard_node_eq.
  by rewrite List.filter_app, map_app.
Qed.

(** X20.  The letter case of the draft does not matter to
    [policy_guard_node]: lower-casing it first gives the same
    violations. *)
Theorem policy_guard_node_lower (draft : string) (blocklist : list string) :
  PolicyGuard.policy_guard_node (Py.lower draft) blocklist =
  PolicyGuard.policy_guard_node draft blocklist.
Proof.
  unfold PolicyGuard.policy_guard_node. by rewrite MiscFacts.lower_idem.
Qed.

(** X21.  [classifier_node] raises only when [json.loads] returned an
    object whose [confidence] is a string ([ValueError]), an [int] too
    large for a float ([OverflowError]), or null, a list or an object
    ([TypeError]); otherwise the confidence it stores is a float, a bool
    or an [int] a float can hold, and the pair is either [other]/0.5 or
    the object's [intent] and [confidence] (with those defaults). *)
Theorem classifier_node_outcome (json_loads : string -> option Classifier.json)
    (content : string) :
  match Classifier.classifier_node json_loads content with
  | inl e =>
      exists kvs, json_loads content = Some (Classifier.JObj kvs) /\
        ((e = Classifier.ValueError /\ exists s,
            Classifier.dict_get kvs "confidence" (Classifier.JNum Classifier.half)
              = Classifier.JStr s) \/
         (e = Classifier.OverflowError /\ exists z,
            Classifier.dict_get kvs "confidence" (Classifier.JNum Classifier.half)
              = Classifier.JInt z /\ Classifier.int_to_float_overflows z = true) \/
         (e = Classifier.TypeError /\
            match Classifier.dict_get kvs "confidence"
                    (Classifier.JNum Classifier.half) with
            | Classifier.JNull | Classifier.JArr _ | Classifier.JObj _ => True
            | _ => False
            end))
  | inr (intent, confidence) =>
      ((exists q, confidence = Classifier.JNum q) \/
       (exists b, confidence = Classifier.JBool b) \/
       (exists z, confidence = Classifier.JInt z /\
                  Classifier.int_to_float_overflows z = false)) /\
      ((intent = Classifier.JStr "other" /\
        confidence = Classifier.JNum Classifier.half) \/
       exists kvs, json_loads content = Some (Classifier.JObj kvs) /\
         intent = Classifier.dict_get kvs "intent" (Classifier.JStr "other") /\
         confidence = Classifier.dict_get kvs "confidence"
                        (Classifier.JNum Classifier.half))
  end.
Proof.
  unfold Classifier.classifier_node.
  destruct (json_loads content) as [j|] eqn:E.
  2:{ split; [left; by eexists|]. by left. }
  destruct j as [| | | | | |kvs];
    try (split; [left; by eexists|]; by left).
  destruct (Classifier.dict_get kvs "confidence" (Classifier.JNum Classifier.half))
    as [| b | z | q | s | l | kvs'] eqn:Hc; cbn [Classifier.format_2f].
  - exists kvs. split; [done|]. right. right. split; [done|]. by rewrite ?Hc.
  - split; [right; left; by exists b|]. right. by exists kvs.
  - destruct (Classifier.int_to_float_overflows z) eqn:Hz.
    + exists kvs. split; [done|]. right. left. split; [done|]. by exists z.
    + split; [right; right; by exists z|]. right. by exists kvs.
  - split; [left; by exists q|]. right. by exists kvs.
  - exists kvs. split; [done|]. left. split; [done|]. by exists s.
  - exists kvs. split; [done|]. right. right. split; [done|]. by rewrite ?Hc.
  - exists kvs. split; [done|]. right. right. split; [done|]. by rewrite ?Hc.
Qed.

Module ChunkMore.
Import Chunker.

Section Loop.
Variable sha256_hex : string -> string.
Context {T : Type}.
Variable dec : list T -> string.
Variable tokens : list T.
Variables chunk_size chunk_overlap : Z.

Definition chunk_ok (c : Chunk) : Prop :=
  let len := Z.of_nat (length tokens) in
  content c = dec (Py.slice tokens (start_idx c) (end_idx c)) /\
  end_idx c = Z.min (start_idx c + chunk_size) len /\
  (0 <= start_idx c < end_idx c)%Z /\ (end_idx c <= len)%Z /\
  (chunk_size - chunk_overlap | start_idx c)%Z /\
  Py.truthy (Py.strip (content c)) = true /\
  content_hash c = sha256_hex (content c).

Lemma window_loop_ok :
  (0 < chunk_size)%Z -> (chunk_overlap < chunk_size)%Z ->
  forall (fuel : nat) (start : Z) (acc r : list Chunk),
  (0 <= start)%Z -> (chunk_size - chunk_overlap | start)%Z ->
  Forall chunk_ok acc -> Forall (fun c => start_idx c < start)%Z acc ->
  StronglySorted (fun a b => start_idx a < start_idx b)%Z acc ->
  window_loop sha256_hex dec fuel tokens chunk_size chunk_overlap start acc
    = Some r ->
  Forall chunk_ok r /\
  StronglySorted (fun a b => start_idx a < start_idx b)%Z r.
Proof.
  intros Hsize Hstep fuel. induction fuel as [|fuel IH];
    intros start acc r Hstart Hdiv Hok Hlt Hsorted Hrun;
    cbn [window_loop] in Hrun; [discriminate|].
  destruct (Z.ltb_spec start (Z.of_nat (length tokens)));
    [|injection Hrun as <-; done].
  set (e := Z.min (start + chunk_size) (Z.of_nat (length tokens))) in *.
  set (piece := dec (Py.slice tokens start e)) in *.
  set (acc' := if Py.truthy (Py.strip piece)
               then (acc ++ [mkChunk piece (compute_content_hash sha256_hex piece)
                               start e])%list
               else acc) in *.
  assert (Hinv : Forall chunk_ok acc' /\
                 Forall (fun c => start_idx c < start + (chunk_size - chunk_overlap))%Z acc' /\
                 StronglySorted (fun a b => start_idx a < start_idx b)%Z acc').
  { unfold acc'. destruct (Py.truthy (Py.strip piece)) eqn:Hp.
    - split; [|split].
      + apply Forall_app. split; [done|]. apply Forall_singleton.
        unfold chunk_ok; cbn. unfold e. repeat split; try done; lia.
      + apply Forall_app. split.
        * eapply Forall_impl; [exact Hlt|]. simpl. lia.
        * apply Forall_singleton. simpl. lia.
      + clear -Hsorted Hlt. induction acc as [|a acc IHa]; simpl.
        * repeat constructor.
        * inversion Hsorted as [|? ? Hs Ha]; subst.
          inversion Hlt as [|? ? Hlta Hltr]; subst.
          constructor; [by apply IHa|].
          apply Forall_app. split; [done|]. apply Forall_singleton. simpl. lia.
    - split; [done|]. split; [|done].
      eapply Forall_impl; [exact Hlt|]. simpl. lia. }
  destruct Hinv as (Hok' & Hlt' & Hsorted').
  destruct (Z.eqb _ _).
  - injection Hrun as <-. exact (conj Hok' Hsorted').
  - apply (IH (start + (chunk_size - chunk_overlap))%Z acc' r);
      [lia| |exact Hok'|exact Hlt'|exact Hsorted'|exact Hrun].
    apply Z.divide_add_r; [done|apply Z.divide_refl].
Qed.

End Loop.

Lemma drop_space_nil (l : list ascii) :
  Py.drop_space l = [] -> Forall (fun c => Py.isspace c = true) l.
Proof.
  induction l as [|c l IH]; simpl; [constructor|].
  destruct (Py.isspace c) eqn:Hc; [|discriminate].
  intros H. constructor; [done|]. by apply IH.
Qed.

Lemma drop_space_cons_nonspace (l : list ascii) (c : ascii) (l' : list ascii) :
  Py.drop_space l = c :: l' -> Py.isspace c = false.
Proof.
  induction l as [|d l IH]; simpl; [discriminate|].
  destruct (Py.isspace d) eqn:Hd; [done|]. by intros [= <- _].
Qed.

Lemma strip_blank (l : list ascii) :
  Py.truthy (Py.strip (string_of_list_ascii l)) = false ->
  Forall (fun c => Py.isspace c = true) l.
Proof.
  unfold Py.strip. rewrite list_ascii_of_string_of_list_ascii.
  destruct (rev (Py.drop_space (rev (Py.drop_space l)))) as [|x y] eqn:E;
    [|discriminate].
  intros _. apply (f_equal (@rev ascii)) in E. rewrite rev_involutive in E.
  apply drop_space_nil in E. simpl in E.
  destruct (Py.drop_space l) as [|c l'] eqn:Hd.
  - by apply drop_space_nil.
  - exfalso. apply drop_space_cons_nonspace in Hd.
    rewrite Forall_forall in E.
    assert (Hin : c ∈ rev (c :: l')).
    { apply list_elem_of_In. apply in_rev. rewrite rev_involutive. by left. }
    rewrite E in Hd; [discriminate|exact Hin].
Qed.

Lemma slice_lookup {A} (xs : list A) (a b i : Z) :
  (0 <= a <= i)%Z -> (i < b)%Z -> (b <= Z.of_nat (length xs))%Z ->
  Py.slice xs a b !! Z.to_nat (i - a) = xs !! Z.to_nat i.
Proof.
  intros Ha Hi Hb. unfold Py.slice, Py.norm_index.
  destruct (Z.ltb_spec a 0); [lia|]. destruct (Z.ltb_spec b 0); [lia|].
  rewrite lookup_take_lt by lia. rewrite lookup_drop. f_equal. lia.
Qed.

(** The character loop covers every non-space character. *)
Lemma window_loop_cover (sha256_hex : string -> string) (tokens : list ascii)
    (size overlap : Z) :
  (0 <= overlap)%Z -> (overlap < size)%Z ->
  forall (fuel : nat) (start : Z) (acc r : list Chunk),
  (0 <= start)%Z ->
  (forall i c, (0 <= i < start)%Z -> tokens !! Z.to_nat i = Some c ->
     Py.isspace c = false ->
     exists ch, ch ∈ acc /\ (start_idx ch <= i < end_idx ch)%Z) ->
  window_loop sha256_hex string_of_list_ascii fuel tokens size overlap start acc
    = Some r ->
  forall i c, (0 <= i)%Z -> tokens !! Z.to_nat i = Some c ->
    Py.isspace c = false ->
    exists ch, ch ∈ r /\ (start_idx ch <= i < end_idx ch)%Z.
Proof.
  intros Hov Hstep fuel. induction fuel as [|fuel IH];
    intros start acc r Hstart Hcov Hrun; cbn [window_loop] in Hrun;
    [discriminate|].
  destruct (Z.ltb_spec start (Z.of_nat (length tokens))) as [Hlt|Hge].
  2:{ injection Hrun as <-. intros i c Hi Hc Hsp. apply (Hcov i c); [|done|done].
      split; [done|]. apply lookup_lt_Some in Hc. lia. }
  set (e := Z.min (start + size) (Z.of_nat (length tokens))) in *.
  set (acc' := if Py.truthy (Py.strip (string_of_list_ascii (Py.slice tokens start e)))
               then (acc ++ [mkChunk (string_of_list_ascii (Py.slice tokens start e))
                     (compute_content_hash sha256_hex
                        (string_of_list_ascii (Py.slice tokens start e))) start e])%list
               else acc) in *.
  assert (Hcov' : forall i c, (0 <= i < e)%Z -> tokens !! Z.to_nat i = Some c ->
     Py.isspace c = false ->
     exists ch, ch ∈ acc' /\ (start_idx ch <= i < end_idx ch)%Z).
  { intros i c Hi Hc Hsp. destruct (Z.ltb_spec i start) as [His|His].
    - destruct (Hcov i c ltac:(lia) Hc Hsp) as (ch & Hch & Hin).
      exists ch. split; [|done]. unfold acc'.
      destruct (Py.truthy _); [|done]. apply elem_of_app. by left.
    - unfold acc'. destruct (Py.truthy _) eqn:Hp.
      + eexists. split; [apply elem_of_app; right; by apply list_elem_of_singleton|].
        simpl. lia.
      + exfalso. apply strip_blank in Hp. rewrite Forall_forall in Hp.
        assert (Hl : Py.slice tokens start e !! Z.to_nat (i - start) = Some c).
        { rewrite slice_lookup; [done|lia|lia|lia]. }
        apply list_elem_of_lookup_2 in Hl. rewrite (Hp c Hl) in Hsp. discriminate. }
  destruct (Z.eqb_spec e (Z.of_nat (length tokens))) as [He|He].
  - injection Hrun as <-. intros i c Hi Hc Hsp. apply (Hcov' i c); [|done|done].
    split; [done|]. apply lookup_lt_Some in Hc. lia.
  - assert (Hee : e = (start + size)%Z) by (unfold e in *; lia).
    apply (IH (start + (size - overlap))%Z acc' r); [lia| |exact Hrun].
    intros i c Hi Hc Hsp. apply (Hcov' i c); [|done|done]. lia.
Qed.

End ChunkMore.

(** X22.  On the tiktoken path, with [0 < chunk_size] and
    [chunk_overlap < chunk_size], when [chunk_text] returns, tiktoken
    accepted the text, and every chunk returned is the decoding of its
    token window [tokens[start_idx:end_idx]], with
    [end_idx = min(start_idx + chunk_size, len(tokens))], a window inside
    the tokens that starts at a multiple of [chunk_size - chunk_overlap];
    its content is not blank, its hash is the SHA-256 of its content, and
    the chunks come in strictly increasing order of [start_idx]. *)
Theorem chunk_text_windows (sha256_hex : string -> string) (e : Chunker.Encoding)
    (fuel : nat) (text : string) (chunk_size chunk_overlap : Z)
    (chunks : list Chunker.Chunk) :
  (0 < chunk_size)%Z -> (chunk_overlap < chunk_size)%Z ->
  Chunker.chunk_text sha256_hex (Some e) fuel text chunk_size chunk_overlap
    = Py.Returns chunks ->
  exists tokens, Chunker.encode e text = Some tokens /\
  Forall (ChunkMore.chunk_ok sha256_hex (Chunker.decode e) tokens
            chunk_size chunk_overlap) chunks /\
  StronglySorted (fun a b => Chunker.start_idx a < Chunker.start_idx b)%Z chunks.
Proof.
  intros Hs Hst Hrun. unfold Chunker.chunk_text in Hrun.
  destruct (Chunker.encode e text) as [tokens|]; [|discriminate].
  destruct (Chunker.window_loop _ _ _ _ _ _ _ _) eqn:Hloop; [|discriminate].
  injection Hrun as <-. exists tokens. split; [done|].
  apply (ChunkMore.window_loop_ok sha256_hex (Chunker.decode e)
           tokens chunk_size chunk_overlap Hs Hst fuel 0 [] l);
    [lia|apply Z.divide_0_r|constructor|constructor|constructor|exact Hloop].
Qed.

Lemma chunk_text_windows_witness :
  (0 < 4)%Z /\ (1 < 4)%Z /\
  exists chunks,
  Chunker.chunk_text (fun s => s) (Some Samples.char_encoding) 10 "hello world"
    4 1 = Py.Returns chunks /\
  exists tokens, Chunker.encode Samples.char_encoding "hello world" = Some tokens /\
  Forall (ChunkMore.chunk_ok (fun s => s) (Chunker.decode Samples.char_encoding)
            tokens 4 1) chunks /\
  StronglySorted (fun a b => Chunker.start_idx a < Chunker.start_idx b)%Z chunks.
Proof.
  split; [lia|]. split; [lia|].
  eexists. split; [vm_compute; reflexivity|].
  apply (chunk_text_windows (fun s => s) Samples.char_encoding 10 "hello world"
           4 1); [lia|lia|vm_compute; reflexivity].
Defined.

(** X23.  On the character path, with [0 <= chunk_overlap < chunk_size],
    the windows of [_chunk_by_chars] leave no non-whitespace character
    out: each one lies inside the window of some returned chunk. *)
Theorem chunk_by_chars_covers (sha256_hex : string -> string) (fuel : nat)
    (text : string) (chunk_size chunk_overlap : Z) (chunks : list Chunker.Chunk) :
  (0 <= chunk_overlap)%Z -> (chunk_overlap < chunk_size)%Z ->
  Chunker.chunk_by_chars sha256_hex fuel text chunk_size chunk_overlap = Some chunks ->
  forall i c, list_ascii_of_string text !! i = Some c -> Py.isspace c = false ->
    exists ch, ch ∈ chunks /\
      (Chunker.start_idx ch <= Z.of_nat i < Chunker.end_idx ch)%Z.
Proof.
  intros Hov Hst Hrun i c Hc Hsp. unfold Chunker.chunk_by_chars in Hrun.
  assert (Hc' : list_ascii_of_string text !! Z.to_nat (Z.of_nat i) = Some c)
    by (by rewrite Nat2Z.id).
  assert (H0 : forall j d, (0 <= j < 0)%Z ->
            list_ascii_of_string text !! Z.to_nat j = Some d ->
            Py.isspace d = false ->
            exists ch : Chunker.Chunk, ch ∈ @nil Chunker.Chunk /\
              (Chunker.start_idx ch <= j < Chunker.end_idx ch)%Z)
    by (intros; lia).
  exact (ChunkMore.window_loop_cover sha256_hex (list_ascii_of_string text)
           chunk_size chunk_overlap Hov Hst fuel 0 [] chunks ltac:(lia) H0 Hrun
           (Z.of_nat i) c ltac:(lia) Hc' Hsp).
Qed.

Lemma chunk_by_chars_covers_witness :
  (0 <= 1)%Z /\ (1 < 4)%Z /\
  exists chunks,
  Chunker.chunk_by_chars (fun s => s) 10 "ab  cd   e" 4 1 = Some chunks /\
  forall i c, list_ascii_of_string "ab  cd   e" !! i = Some c ->
    Py.isspace c = false ->
    exists ch, ch ∈ chunks /\
      (Chunker.start_idx ch <= Z.of_nat i < Chunker.end_idx ch)%Z.
Proof.
  split; [lia|]. split; [lia|].
  eexists. split; [vm_compute; reflexivity|].
  apply (chunk_by_chars_covers (fun s => s) 10 "ab  cd   e" 4 1); [lia|lia|].
  vm_compute; reflexivity.
Defined.

(** X24.  The [draft_html] that [drafter_node] stores never has leading
    or trailing whitespace: stripping it again changes nothing. *)
Theorem drafter_node_stripped (content : string) :
  Py.strip (Crew.drafter_node content) = Crew.drafter_node content.
Proof.
  unfold Crew.drafter_node.
  destruct (String.prefix "```html" (Py.strip content)); apply StrFacts.strip_idem.
Qed.

(** X25.  The external calls of a returning [upsert_document], in order:
    listing the collections (and creating the target one if missing),
    then the embedding requests, batches of at most 100 chunk texts
    covering the deduplicated chunks in order, then, when there is at
    least one chunk, a single upsert into the target collection.  With an
    endpoint that answers one vector per text, the point ids of that
    upsert are exactly the [uuid5] ids of the deduplicated chunks, in
    order. *)
Theorem upsert_document_calls (sha256_hex : string -> string)
    (tiktoken : option Chunker.Encoding) (uuid5_dns : string -> string)
    (embed_batch : list KB.call -> list string -> option (list KB.vector))
    (w : KB.World) (text ws source : string) (title url : option string)
    (tags : option (list string)) (cn : option string) (now : nat -> string)
    (w' : KB.World) (st : KB.UploadStats) :
  KB.embeddings_contract embed_batch ->
  KB.upsert_document sha256_hex tiktoken uuid5_dns embed_batch w text ws source
    title url tags cn now = (w', Py.Returns st) ->
  exists chunks bs,
    Chunker.chunk_text sha256_hex tiktoken (S (Chunker.n_units tiktoken text))
      text 800 200 = Py.Returns chunks /\
    concat bs = map Chunker.content (Chunker.deduplicate_chunks chunks) /\
    Forall (fun b => (0 < length b <= 100)%nat) bs /\
    KB.calls w' =
      (KB.calls w ++ KB.GetCollections ::
         match KB.collections w !! KB.collection_or_default cn with
         | Some _ => []
         | None => [KB.CreateCollection (KB.collection_or_default cn) 1536]
         end ++ map KB.EmbeddingsCreate bs ++
         match Chunker.deduplicate_chunks chunks with
         | [] => []
         | _ :: _ =>
             [KB.UpsertPoints (KB.collection_or_default cn)
                (map (KB.chunk_point_id uuid5_dns)
                   (Chunker.deduplicate_chunks chunks))]
         end)%list.
Proof.
  intros Hcon H.
  destruct (KBMore2.upsert_document_returns _ _ _ _ _ _ _ _ _ _ _ _ _ _ _ H)
    as (chunks & es & Hch & Hcase & _ & _).
  exists chunks.
  pose proof (KBFacts.ensure_calls w (KB.collection_or_default cn)) as Hec.
  destruct Hcase as [(Hd & -> & ->)|(w2 & Hne & Hge & Hcalls)].
  - exists []. split; [done|]. rewrite Hd. split; [done|]. split; [constructor|].
    rewrite Hec. destruct (KB.collections w !! KB.collection_or_default cn); simpl;
      by rewrite ?app_nil_r.
  - set (texts := map Chunker.content (Chunker.deduplicate_chunks chunks)) in *.
    exists (KB.batches 100 texts).
    destruct (KBMore.batches_spec 100 texts ltac:(lia)) as (Hc & Hf & _).
    split; [done|]. split; [done|]. split; [done|].
    pose proof (KBMore.generate_embeddings_length _ _ _ _ 100 _ Hcon ltac:(lia) Hge)
      as Hl.
    pose proof Hge as Hge'. rewrite KBMore.generate_embeddings_batches_eq in Hge'.
    destruct (KBMore.embed_batches_spec _ _ _ _ _ Hge') as (_ & Hsome & _).
    destruct (Hsome es eq_refl) as (Hc2 & _).
    rewrite Hcalls, Hc2, KBFacts.make_points_ids, Hl.
    unfold texts. rewrite length_map, take_ge by lia.
    destruct (Chunker.deduplicate_chunks chunks) as [|d ds]; [done|].
    rewrite Hec.
    destruct (KB.collections w !! KB.collection_or_default cn); simpl;
      by rewrite <- !app_assoc.
Qed.

Lemma upsert_document_calls_witness :
  KB.embeddings_contract Samples.unit_embed /\
  exists w' st,
  KB.upsert_document (fun s => s) (Some Samples.char_encoding) (fun s => s)
    Samples.unit_embed Samples.empty_world "refund policy" "ws-a" "upload"
    None None None None Samples.clock = (w', Py.Returns st) /\
  exists chunks bs,
    Chunker.chunk_text (fun s => s) (Some Samples.char_encoding)
      (S (Chunker.n_units (Some Samples.char_encoding) "refund policy"))
      "refund policy" 800 200 = Py.Returns chunks /\
    concat bs = map Chunker.content (Chunker.deduplicate_chunks chunks) /\
    Forall (fun b => (0 < length b <= 100)%nat) bs /\
    KB.calls w' =
      (KB.calls Samples.empty_world ++ KB.GetCollections ::
         match KB.collections Samples.empty_world !! KB.collection_or_default None with
         | Some _ => []
         | None => [KB.CreateCollection (KB.collection_or_default None) 1536]
         end ++ map KB.EmbeddingsCreate bs ++
         match Chunker.deduplicate_chunks chunks with
         | [] => []
         | _ :: _ =>
             [KB.UpsertPoints (KB.collection_or_default None)
                (map (KB.chunk_point_id (fun s => s))
                   (Chunker.deduplicate_chunks chunks))]
         end)%list.
Proof.
  assert (Hcon : KB.embeddings_contract Samples.unit_embed).
  { intros h b es [= <-]. apply length_map. }
  split; [exact Hcon|].
  do 2 eexists. split; [vm_compute; reflexivity|].
  eapply (upsert_document_calls (fun s => s) (Some Samples.char_encoding)
    (fun s => s) Samples.unit_embed Samples.empty_world "refund policy" "ws-a"
    "upload" None None None None Samples.clock); [exact Hcon|].
  vm_compute. reflexivity.
Defined.
